(** * ContractionState: line visibility and height projection (Scintilla)

    A shallow embedding of [openlib/scintilla/ContractionState.cxx] and the
    properties its specification states about it.

    [Sci::Line] and [int] are signed machine integers whose overflow is
    undefined behaviour in C++; they are modelled as [Z], so every statement
    below is about executions in which no signed overflow occurs. *)

From Stdlib Require Import ZArith Bool Lia String.
From stdpp Require Import base list.

Local Open Scope Z_scope.

(** ** Collaborators

    The containers the class is built on live in headers that are not part
    of the sources at hand: [Partitioning.h], [RunStyles.h],
    [SparseVector.h] and [UniqueString.h].  Each container is modelled by
    the sequence of values it stands for, and each of its member functions
    by what the specification says of it.  Calls that address a position
    outside the container are outside what the specification describes;
    the models are total there (reads are clamped or give the default,
    writes are dropped), and the theorems below that depend on such calls
    say so. *)

Module Partitioning.

(** Modelled from the spec: the class template [Partitioning<T>] of the
    missing [Partitioning.h], which the specification calls the
    "cumulative partition index": "an ordered list of cumulative
    display-row boundaries".  The model is the list of the boundaries. *)
Abbreviation t := (list Z).

(** Modelled from the spec: the constructor of the missing [Partitioning].
    A list of [n + 1] boundaries delimits [n] partitions, and a new index
    has the two boundaries of one empty partition: this is what lets
    [LinesInDoc()], which is [Partitions() - 1], count the lines inserted
    so far, and [DisplayFromDoc] read the boundary numbered
    [Partitions()]. *)
Definition create : t := [0; 0].

(** Modelled from the spec: [Partitions()] of the missing [Partitioning],
    the "partition count". *)
Definition Partitions (p : t) : Z := Z.of_nat (length p) - 1.

(** Modelled from the spec: [InsertPartition] of the missing
    [Partitioning], "insert-partition-boundary(index,
    cumulativeOffsetAtThatPoint)".  An index outside the list is
    ignored. *)
Definition InsertPartition (partition pos : Z) (p : t) : t :=
  if (0 <=? partition) && (partition <=? Z.of_nat (length p))
  then take (Z.to_nat partition) p ++ pos :: drop (Z.to_nat partition) p
  else p.

(** Modelled from the spec: [RemovePartition] of the missing
    [Partitioning], "remove-partition-boundary(index)".  An index outside
    the list is ignored. *)
Definition RemovePartition (partition : Z) (p : t) : t :=
  if (0 <=? partition) && (partition <? Z.of_nat (length p))
  then delete (Z.to_nat partition) p
  else p.

(** Modelled from the spec: [InsertText] of the missing [Partitioning],
    "insert-text(index, signedDelta) to shift all subsequent cumulative
    offsets": every boundary after the one numbered [partitionInsert]
    moves by [delta]. *)
Definition InsertText (partitionInsert delta : Z) (p : t) : t :=
  take (Z.to_nat (partitionInsert + 1)) p
    ++ map (Z.add delta) (drop (Z.to_nat (partitionInsert + 1)) p).

(** Modelled from the spec: [PositionFromPartition] of the missing
    [Partitioning], the "position-from-partition(index)" lookup.  An index
    outside the list reads as offset 0. *)
Definition PositionFromPartition (partition : Z) (p : t) : Z :=
  if (partition <? 0) || (Z.of_nat (length p) <=? partition) then 0
  else default 0 (p !! Z.to_nat partition).

(** Number of leading boundaries of [l] that do not exceed [pos]. *)
Fixpoint boundaries_upto (pos : Z) (l : list Z) : Z :=
  match l with
  | [] => 0
  | b :: l' => if b <=? pos then 1 + boundaries_upto pos l' else 0
  end.

(** Modelled from the spec: [PartitionFromPosition] of the missing
    [Partitioning], the "partition-from-position(offset)" lookup: the last
    partition that starts at or before [pos], as the scenario of the
    specification has it ([DocFromDisplay(1) == 3] when lines 1 and 2 are
    hidden).  The answer lies in [0 .. Partitions() - 1]: an offset at or
    past the final boundary gives the last partition. *)
Definition PartitionFromPosition (pos : Z) (p : t) : Z :=
  if Z.of_nat (length p) <=? 1 then 0
  else if PositionFromPartition (Partitions p) p <=? pos then Partitions p - 1
  else boundaries_upto pos (tail p).

End Partitioning.

Module RunStyles.

(** Modelled from the spec: the class template
    [RunStyles<DISTANCE, STYLE>] of the missing [RunStyles.h], which the
    specification calls the "run-coded attribute array".  The model is the
    decoded array, one [STYLE] value (a [char] or an [int], here a [Z])
    per position. *)
Abbreviation t := (list Z).

(** Modelled from the spec: the constructor of the missing [RunStyles],
    an array of no element. *)
Definition create : t := [].

(** Modelled from the spec: [Length()] of the missing [RunStyles]. *)
Definition Length (r : t) : Z := Z.of_nat (length r).

(** Modelled from the spec: [ValueAt] of the missing [RunStyles], "get
    ... value at position".  A position outside the array reads the
    nearest end of it, and an empty array reads as 0. *)
Definition ValueAt (position : Z) (r : t) : Z :=
  match r !! Z.to_nat position with
  | Some v => v
  | None => default 0 (last r)
  end.

(** Modelled from the spec: [SetValueAt] of the missing [RunStyles],
    "set value at position".  A position outside the array is ignored. *)
Definition SetValueAt (position value : Z) (r : t) : t :=
  if (0 <=? position) && (position <? Length r)
  then <[Z.to_nat position := value]> r
  else r.

(** Modelled from the spec: [InsertSpace] of the missing [RunStyles],
    "insert-space-at(pos, count)".  The space reads as the default [STYLE]
    0; [ContractionState] sets its value right after inserting it. *)
Definition InsertSpace (position insertLength : Z) (r : t) : t :=
  take (Z.to_nat position) r
    ++ replicate (Z.to_nat insertLength) 0
    ++ drop (Z.to_nat position) r.

(** Modelled from the spec: [DeleteRange] of the missing [RunStyles],
    "delete-range(pos, count)". *)
Definition DeleteRange (position deleteLength : Z) (r : t) : t :=
  take (Z.to_nat position) r
    ++ drop (Z.to_nat position + Z.to_nat deleteLength) r.

(** Modelled from the spec: [AllSameAs] of the missing [RunStyles], the
    "are all values equal to X" query. *)
Definition AllSameAs (value : Z) (r : t) : bool :=
  forallb (Z.eqb value) r.

(** Length of the longest prefix of [l] whose values all equal [v]. *)
Fixpoint run_length (v : Z) (l : list Z) : nat :=
  match l with
  | [] => O
  | x :: l' => if x =? v then S (run_length v l') else O
  end.

(** Modelled from the spec: [EndRun] of the missing [RunStyles].  The
    specification does not list it; it is taken by its name and by the
    "run-coded" array it belongs to: the position at which the run of
    equal values that holds [position] ends. *)
Definition EndRun (position : Z) (r : t) : Z :=
  let n := Nat.min (Z.to_nat position) (length r) in
  Z.of_nat (n + run_length (ValueAt position r) (drop n r)).

End RunStyles.

(** Modelled from the spec: the value a [UniqueString] (a
    [std::unique_ptr<const char[]>] of the missing [UniqueString.h]) or a
    [const char *] stands for: null, or a NUL-terminated byte string. *)
Abbreviation c_str := (option string).

(** Modelled from the spec: [UniqueStringCopy] of the missing
    [UniqueString.h].  The specification has the label stored as "an owned
    copy of the new text": the copy of a text is that text, be it empty,
    and the copy of null is null. *)
Definition UniqueStringCopy (text : c_str) : c_str := text.

Module SparseVector.

(** Modelled from the spec: the class template [SparseVector<T>] of the
    missing [SparseVector.h], which the specification calls the "sparse
    overlay store".  The model is the array of optional values, one per
    position. *)
Abbreviation t := (list c_str).

(** Modelled from the spec: the constructor of the missing
    [SparseVector], a store of no position. *)
Definition create : t := [].

(** Modelled from the spec: [ValueAt] of the missing [SparseVector], "get
    ... optional owned value at a position, defaulting to none". *)
Definition ValueAt (position : Z) (s : t) : c_str :=
  if position <? 0 then None else mjoin (s !! Z.to_nat position).

(** Modelled from the spec: [SetValueAt] of the missing [SparseVector],
    "set optional owned value at a position".  A position outside the
    store is ignored. *)
Definition SetValueAt (position : Z) (value : c_str) (s : t) : t :=
  if (0 <=? position) && (position <? Z.of_nat (length s))
  then <[Z.to_nat position := value]> s
  else s.

(** Modelled from the spec: [InsertSpace] of the missing [SparseVector],
    "insert-space": the new positions hold no value. *)
Definition InsertSpace (position insertLength : Z) (s : t) : t :=
  take (Z.to_nat position) s
    ++ replicate (Z.to_nat insertLength) None
    ++ drop (Z.to_nat position) s.

(** Modelled from the spec: [DeletePosition] of the missing
    [SparseVector], "delete-position".  A position outside the store is
    ignored. *)
Definition DeletePosition (position : Z) (s : t) : t :=
  if (0 <=? position) && (position <? Z.of_nat (length s))
  then delete (Z.to_nat position) s
  else s.

End SparseVector.

(** ** The state of a [ContractionState] object

    The five [std::unique_ptr] members are assigned together in
    [EnsureData] and reset together in [Clear], and nowhere else: they are
    all null (the one-to-one representation) or all allocated.  [data] is
    [None] in the first case and holds the five pointees in the second. *)

Record Data : Type := mkData {
  visible : RunStyles.t;
  expanded : RunStyles.t;
  heights : RunStyles.t;
  foldDisplayTexts : SparseVector.t;
  displayLines : Partitioning.t
}.

Record ContractionState : Type := mkState {
  data : option Data;
  linesInDocument : Z
}.

Definition set_visible (f : RunStyles.t -> RunStyles.t) (d : Data) : Data :=
  mkData (f (visible d)) (expanded d) (heights d) (foldDisplayTexts d)
         (displayLines d).

Definition set_expanded (f : RunStyles.t -> RunStyles.t) (d : Data) : Data :=
  mkData (visible d) (f (expanded d)) (heights d) (foldDisplayTexts d)
         (displayLines d).

Definition set_heights (f : RunStyles.t -> RunStyles.t) (d : Data) : Data :=
  mkData (visible d) (expanded d) (f (heights d)) (foldDisplayTexts d)
         (displayLines d).

Definition set_foldDisplayTexts (f : SparseVector.t -> SparseVector.t)
    (d : Data) : Data :=
  mkData (visible d) (expanded d) (heights d) (f (foldDisplayTexts d))
         (displayLines d).

Definition set_displayLines (f : Partitioning.t -> Partitioning.t)
    (d : Data) : Data :=
  mkData (visible d) (expanded d) (heights d) (foldDisplayTexts d)
         (f (displayLines d)).

(** A member function either returns or dereferences a null member, which
    is undefined behaviour. *)
Inductive outcome (A : Type) : Type :=
| Returns (a : A)
| NullDereference.

Arguments Returns {A} a.
Arguments NullDereference {A}.

Definition bind {A B : Type} (m : outcome A) (k : A -> outcome B) : outcome B :=
  match m with
  | Returns a => k a
  | NullDereference => NullDereference
  end.

Notation "'let*' x ':=' m 'in' k" := (bind m (fun x => k))
  (at level 10, x name, m at level 100, k at level 200).

(** The pointees, for code that uses the members without testing them. *)
Definition deref (cs : ContractionState) : outcome Data :=
  match data cs with
  | Some d => Returns d
  | None => NullDereference
  end.

(** ** The member functions *)

Definition ContractionState_new : ContractionState := mkState None 1.

Definition OneToOne (cs : ContractionState) : bool :=
  match data cs with
  | None => true
  | Some _ => false
  end.

Definition Clear (cs : ContractionState) : ContractionState := mkState None 1.

Definition LinesInDoc (cs : ContractionState) : Z :=
  match data cs with
  | None => linesInDocument cs
  | Some d => Partitioning.Partitions (displayLines d) - 1
  end.

Definition LinesDisplayed (cs : ContractionState) : Z :=
  match data cs with
  | None => linesInDocument cs
  | Some d => Partitioning.PositionFromPartition (LinesInDoc cs) (displayLines d)
  end.

Definition DisplayFromDoc (lineDoc : Z) (cs : ContractionState) : Z :=
  match data cs with
  | None => if lineDoc <=? linesInDocument cs then lineDoc else linesInDocument cs
  | Some d =>
      let lineDoc :=
        if Partitioning.Partitions (displayLines d) <? lineDoc
        then Partitioning.Partitions (displayLines d) else lineDoc in
      Partitioning.PositionFromPartition lineDoc (displayLines d)
  end.

Definition GetVisible (lineDoc : Z) (cs : ContractionState) : bool :=
  match data cs with
  | None => true
  | Some d =>
      if RunStyles.Length (visible d) <=? lineDoc then true
      else RunStyles.ValueAt lineDoc (visible d) =? 1
  end.

Definition GetHeight (lineDoc : Z) (cs : ContractionState) : Z :=
  match data cs with
  | None => 1
  | Some d => RunStyles.ValueAt lineDoc (heights d)
  end.

Definition DisplayLastFromDoc (lineDoc : Z) (cs : ContractionState) : Z :=
  DisplayFromDoc lineDoc cs + GetHeight lineDoc cs - 1.

(** The assertion [PLATFORM_ASSERT(GetVisible(lineDoc))] has no effect on
    the value returned. *)
Definition DocFromDisplay (lineDisplay : Z) (cs : ContractionState) : Z :=
  match data cs with
  | None => lineDisplay
  | Some d =>
      if lineDisplay <=? 0 then 0
      else if LinesDisplayed cs <? lineDisplay
      then Partitioning.PartitionFromPosition (LinesDisplayed cs) (displayLines d)
      else Partitioning.PartitionFromPosition lineDisplay (displayLines d)
  end.

Definition InsertLine (lineDoc : Z) (cs : ContractionState) : ContractionState :=
  match data cs with
  | None => mkState None (linesInDocument cs + 1)
  | Some d =>
      let d := set_visible (RunStyles.InsertSpace lineDoc 1) d in
      let d := set_visible (RunStyles.SetValueAt lineDoc 1) d in
      let d := set_expanded (RunStyles.InsertSpace lineDoc 1) d in
      let d := set_expanded (RunStyles.SetValueAt lineDoc 1) d in
      let d := set_heights (RunStyles.InsertSpace lineDoc 1) d in
      let d := set_heights (RunStyles.SetValueAt lineDoc 1) d in
      let d := set_foldDisplayTexts (SparseVector.InsertSpace lineDoc 1) d in
      let d := set_foldDisplayTexts (SparseVector.SetValueAt lineDoc None) d in
      let lineDisplay :=
        DisplayFromDoc lineDoc (mkState (Some d) (linesInDocument cs)) in
      let d := set_displayLines (Partitioning.InsertPartition lineDoc lineDisplay) d in
      let d := set_displayLines (Partitioning.InsertText lineDoc 1) d in
      mkState (Some d) (linesInDocument cs)
  end.

Definition DeleteLine (lineDoc : Z) (cs : ContractionState) : ContractionState :=
  match data cs with
  | None => mkState None (linesInDocument cs - 1)
  | Some d =>
      let d :=
        if GetVisible lineDoc cs
        then set_displayLines
               (Partitioning.InsertText lineDoc
                  (- RunStyles.ValueAt lineDoc (heights d))) d
        else d in
      let d := set_displayLines (Partitioning.RemovePartition lineDoc) d in
      let d := set_visible (RunStyles.DeleteRange lineDoc 1) d in
      let d := set_expanded (RunStyles.DeleteRange lineDoc 1) d in
      let d := set_heights (RunStyles.DeleteRange lineDoc 1) d in
      let d := set_foldDisplayTexts (SparseVector.DeletePosition lineDoc) d in
      mkState (Some d) (linesInDocument cs)
  end.

(** [for (int l = 0; l < lineCount; l++) InsertLine(lineDoc + l);] with
    [n] iterations left to run. *)
Fixpoint InsertLines_from (n : nat) (lineDoc l : Z) (cs : ContractionState)
    : ContractionState :=
  match n with
  | O => cs
  | S n' => InsertLines_from n' lineDoc (l + 1) (InsertLine (lineDoc + l) cs)
  end.

Definition InsertLines (lineDoc lineCount : Z) (cs : ContractionState)
    : ContractionState :=
  InsertLines_from (Z.to_nat lineCount) lineDoc 0 cs.

(** [for (Sci::Line l = 0; l < lineCount; l++) DeleteLine(lineDoc);] *)
Fixpoint DeleteLines_from (n : nat) (lineDoc : Z) (cs : ContractionState)
    : ContractionState :=
  match n with
  | O => cs
  | S n' => DeleteLines_from n' lineDoc (DeleteLine lineDoc cs)
  end.

Definition DeleteLines (lineDoc lineCount : Z) (cs : ContractionState)
    : ContractionState :=
  DeleteLines_from (Z.to_nat lineCount) lineDoc cs.

Definition EnsureData (cs : ContractionState) : ContractionState :=
  if OneToOne cs then
    let d := mkData RunStyles.create RunStyles.create RunStyles.create
                    SparseVector.create Partitioning.create in
    InsertLines 0 (linesInDocument cs) (mkState (Some d) (linesInDocument cs))
  else cs.

(** One iteration of the loop of [SetVisible], on the structures and the
    running [delta]; [n] is the member [linesInDocument], which the loop
    leaves alone. *)
Definition SetVisible_step (n : Z) (isVisible : bool) (line : Z)
    (acc : Data * Z) : Data * Z :=
  let (d, delta) := acc in
  if negb (eqb (GetVisible line (mkState (Some d) n)) isVisible) then
    let difference :=
      if isVisible then RunStyles.ValueAt line (heights d)
      else - RunStyles.ValueAt line (heights d) in
    let d := set_visible (RunStyles.SetValueAt line (if isVisible then 1 else 0)) d in
    let d := set_displayLines (Partitioning.InsertText line difference) d in
    (d, delta + difference)
  else (d, delta).

(** [for (line = lineDocStart; line <= lineDocEnd; line++)] with [k]
    iterations left to run. *)
Fixpoint SetVisible_from (k : nat) (n : Z) (isVisible : bool) (line : Z)
    (acc : Data * Z) : Data * Z :=
  match k with
  | O => acc
  | S k' => SetVisible_from k' n isVisible (line + 1)
              (SetVisible_step n isVisible line acc)
  end.

Definition SetVisible (lineDocStart lineDocEnd : Z) (isVisible : bool)
    (cs : ContractionState) : outcome (bool * ContractionState) :=
  if OneToOne cs && isVisible then Returns (false, cs)
  else
    let cs := EnsureData cs in
    let* d := deref cs in
    if (lineDocStart <=? lineDocEnd) && (0 <=? lineDocStart)
       && (lineDocEnd <? LinesInDoc cs)
    then
      let (d, delta) :=
        SetVisible_from (Z.to_nat (lineDocEnd - lineDocStart + 1))
                        (linesInDocument cs) isVisible lineDocStart (d, 0) in
      Returns (negb (delta =? 0), mkState (Some d) (linesInDocument cs))
    else Returns (false, cs).

Definition HiddenLines (cs : ContractionState) : bool :=
  match data cs with
  | None => false
  | Some d => negb (RunStyles.AllSameAs 1 (visible d))
  end.

Definition GetFoldDisplayText (lineDoc : Z) (cs : ContractionState)
    : outcome c_str :=
  let* d := deref cs in
  Returns (SparseVector.ValueAt lineDoc (foldDisplayTexts d)).

Definition GetExpanded (lineDoc : Z) (cs : ContractionState) : bool :=
  match data cs with
  | None => true
  | Some d => RunStyles.ValueAt lineDoc (expanded d) =? 1
  end.

(** [!GetExpanded(lineDoc) && GetFoldDisplayText(lineDoc)]: the right
    operand is evaluated only when the left one is true, and a pointer
    converts to [true] when it is not null. *)
Definition GetFoldDisplayTextShown (lineDoc : Z) (cs : ContractionState)
    : outcome bool :=
  if negb (GetExpanded lineDoc cs) then
    let* text := GetFoldDisplayText lineDoc cs in
    Returns (match text with Some _ => true | None => false end)
  else Returns false.

(** [strcmp(text, foldText) != 0] *)
Definition strcmp_ne (text foldText : string) : bool :=
  negb (String.eqb text foldText).

(** The test [!foldText || !text || 0 != strcmp(text, foldText)]. *)
Definition text_differs (foldText text : option string) : bool :=
  match foldText, text with
  | None, _ => true
  | Some _, None => true
  | Some foldText, Some text => strcmp_ne text foldText
  end.

Definition SetFoldDisplayText (lineDoc : Z) (text : c_str)
    (cs : ContractionState) : outcome (bool * ContractionState) :=
  let cs := EnsureData cs in
  let* d := deref cs in
  let foldText := SparseVector.ValueAt lineDoc (foldDisplayTexts d) in
  if text_differs foldText text then
    let d := set_foldDisplayTexts
               (SparseVector.SetValueAt lineDoc (UniqueStringCopy text)) d in
    Returns (true, mkState (Some d) (linesInDocument cs))
  else Returns (false, cs).

Definition SetExpanded (lineDoc : Z) (isExpanded : bool)
    (cs : ContractionState) : outcome (bool * ContractionState) :=
  if OneToOne cs && isExpanded then Returns (false, cs)
  else
    let cs := EnsureData cs in
    let* d := deref cs in
    if negb (eqb isExpanded (RunStyles.ValueAt lineDoc (expanded d) =? 1)) then
      let d := set_expanded
                 (RunStyles.SetValueAt lineDoc (if isExpanded then 1 else 0)) d in
      Returns (true, mkState (Some d) (linesInDocument cs))
    else Returns (false, cs).

Definition ContractedNext (lineDocStart : Z) (cs : ContractionState) : Z :=
  match data cs with
  | None => -1
  | Some d =>
      if RunStyles.ValueAt lineDocStart (expanded d) =? 0 then lineDocStart
      else
        let lineDocNextChange := RunStyles.EndRun lineDocStart (expanded d) in
        if lineDocNextChange <? LinesInDoc cs then lineDocNextChange else -1
  end.

Definition SetHeight (lineDoc height : Z) (cs : ContractionState)
    : outcome (bool * ContractionState) :=
  if OneToOne cs && (height =? 1) then Returns (false, cs)
  else if lineDoc <? LinesInDoc cs then
    let cs := EnsureData cs in
    let* d := deref cs in
    if negb (GetHeight lineDoc cs =? height) then
      let d :=
        if GetVisible lineDoc cs
        then set_displayLines
               (Partitioning.InsertText lineDoc (height - GetHeight lineDoc cs)) d
        else d in
      let d := set_heights (RunStyles.SetValueAt lineDoc height) d in
      Returns (true, mkState (Some d) (linesInDocument cs))
    else Returns (false, cs)
  else Returns (false, cs).

Definition ShowAll (cs : ContractionState) : ContractionState :=
  let lines := LinesInDoc cs in
  let cs := Clear cs in
  mkState (data cs) lines.

(** [Check()] is empty unless [CHECK_CORRECTNESS] is defined, and then it
    only asserts; the calls to it are left out.  What its second loop
    asserts of each document line is the property proved of the reachable
    states below. *)

(** ** The lines a state stands for

    The proofs read a state through the list of its document lines: a
    one-to-one state of [n] lines stands for [n] lines with the default
    attributes, and the five structures of a projected state hold the four
    attributes of each line and the running totals of the display rows. *)

Record Line : Type := mkLine {
  line_visible : Z;
  line_expanded : Z;
  line_height : Z;
  line_text : c_str
}.

Definition default_line : Line := mkLine 1 1 1 None.

(** Display rows a line takes up. *)
Definition line_span (x : Line) : Z :=
  if line_visible x =? 1 then line_height x else 0.

Definition sumZ (l : list Z) : Z := foldr Z.add 0 l.

(** Running totals: [psums a [x0; x1; ...] = [a; a + x0; a + x0 + x1; ...]],
    one entry per element. *)
Fixpoint psums (a : Z) (l : list Z) : list Z :=
  match l with
  | [] => []
  | x :: l' => a :: psums (a + x) l'
  end.

Definition repr (ls : list Line) : Data :=
  mkData (map line_visible ls) (map line_expanded ls) (map line_height ls)
         (map line_text ls) (psums 0 (map line_span ls ++ [0; 0])).

Definition is_flag (v : Z) : Prop := v = 0 \/ v = 1.

Definition line_ok (x : Line) : Prop :=
  is_flag (line_visible x) /\ is_flag (line_expanded x).

Inductive models : ContractionState -> list Line -> Prop :=
| models_one_to_one n :
    0 <= n ->
    models (mkState None n) (replicate (Z.to_nat n) default_line)
| models_projected ls n :
    Forall line_ok ls ->
    models (mkState (Some (repr ls)) n) ls.

(** Well-formed states: the representation invariant of the class. *)
Definition wf (cs : ContractionState) : Prop := exists ls, models cs ls.

(** [start; start + 1; ...], [n] line numbers. *)
Fixpoint lines_from (n : nat) (start : Z) : list Z :=
  match n with
  | O => []
  | S n' => start :: lines_from n' (start + 1)
  end.

(** Rows shown for document line [lineDoc], as the attributes give them. *)
Definition rows_of_line (cs : ContractionState) (lineDoc : Z) : Z :=
  if GetVisible lineDoc cs then GetHeight lineDoc cs else 0.

(** The sum over the document lines of the rows they show. *)
Definition rows_of_document (cs : ContractionState) : Z :=
  sumZ (map (rows_of_line cs) (lines_from (Z.to_nat (LinesInDoc cs)) 0)).

(** ** The effect of the setters on the lines *)

(** What [SetVisible] does to one line, and the rows it adds. *)
Definition with_visible (isVisible : bool) (x : Line) : Line :=
  if eqb (line_visible x =? 1) isVisible then x
  else mkLine (if isVisible then 1 else 0) (line_expanded x) (line_height x)
              (line_text x).

Definition visible_delta (isVisible : bool) (x : Line) : Z :=
  if eqb (line_visible x =? 1) isVisible then 0
  else if isVisible then line_height x else - line_height x.

Definition with_expanded (isExpanded : bool) (x : Line) : Line :=
  mkLine (line_visible x) (if isExpanded then 1 else 0) (line_height x)
         (line_text x).

Definition with_height (height : Z) (x : Line) : Line :=
  mkLine (line_visible x) (line_expanded x) height (line_text x).

Definition with_text (text : option string) (x : Line) : Line :=
  mkLine (line_visible x) (line_expanded x) (line_height x) text.

(** The lines after the loop of [SetVisible] has run over [k] of them. *)
Fixpoint show_lines (k : nat) (isVisible : bool) (start : nat)
    (ls : list Line) : list Line :=
  match k with
  | O => ls
  | S k' => show_lines k' isVisible (S start)
              (alter (with_visible isVisible) start ls)
  end.


(** ** Reachable states and row deltas *)

(** States reachable through the public member functions.  The calls are
    those whose line arguments name lines of the document (or, for an
    insertion, the position after the last line), as the three containers
    require of their callers; [SetVisible] checks its own range and
    [SetHeight] its upper bound, so these are unconstrained there. *)
Inductive reachable : ContractionState -> Prop :=
| reachable_new : reachable ContractionState_new
| reachable_Clear cs : reachable cs -> reachable (Clear cs)
| reachable_InsertLines cs lineDoc lineCount :
    reachable cs -> 0 <= lineDoc <= LinesInDoc cs ->
    reachable (InsertLines lineDoc lineCount cs)
| reachable_DeleteLines cs lineDoc lineCount :
    reachable cs -> 0 <= lineDoc -> 0 <= lineCount ->
    lineDoc + lineCount <= LinesInDoc cs ->
    reachable (DeleteLines lineDoc lineCount cs)
| reachable_SetVisible cs lineDocStart lineDocEnd isVisible changed cs' :
    reachable cs ->
    SetVisible lineDocStart lineDocEnd isVisible cs = Returns (changed, cs') ->
    reachable cs'
| reachable_SetFoldDisplayText cs lineDoc text changed cs' :
    reachable cs -> 0 <= lineDoc < LinesInDoc cs ->
    SetFoldDisplayText lineDoc text cs = Returns (changed, cs') ->
    reachable cs'
| reachable_SetExpanded cs lineDoc isExpanded changed cs' :
    reachable cs -> 0 <= lineDoc < LinesInDoc cs ->
    SetExpanded lineDoc isExpanded cs = Returns (changed, cs') ->
    reachable cs'
| reachable_SetHeight cs lineDoc height changed cs' :
    reachable cs -> 0 <= lineDoc ->
    SetHeight lineDoc height cs = Returns (changed, cs') ->
    reachable cs'
| reachable_ShowAll cs : reachable cs -> reachable (ShowAll cs).

(** Rows that [SetVisible(.., isVisible)] adds for a line: its height when
    the line is turned visible, minus its height when it is turned
    invisible, nothing when it already is as asked. *)
Definition row_delta (cs : ContractionState) (isVisible : bool) (line : Z) : Z :=
  if eqb (GetVisible line cs) isVisible then 0
  else if isVisible then GetHeight line cs else - GetHeight line cs.

Definition summed_row_delta (cs : ContractionState)
    (lineDocStart lineDocEnd : Z) (isVisible : bool) : Z :=
  sumZ (map (row_delta cs isVisible)
            (lines_from (Z.to_nat (lineDocEnd - lineDocStart + 1)) lineDocStart)).

(** ** Sample states *)

(** The scenario of the specification: "Document starts at 1 line
    (trivial).  [InsertLines(0, 4)] -> [LinesInDoc() == 5], still trivial,
    [LinesDisplayed() == 5].  [SetVisible(1, 2, false)] -> materializes,
    [LinesInDoc() == 5] unchanged, [LinesDisplayed() == 3],
    [HiddenLines() == true], [DisplayFromDoc(3) == 1],
    [DocFromDisplay(1) == 3]." *)
Definition scenario_lines : ContractionState :=
  InsertLines 0 4 ContractionState_new.

Definition scenario_folded : ContractionState :=
  mkState
    (Some (mkData [1; 0; 0; 1; 1] [1; 1; 1; 1; 1] [1; 1; 1; 1; 1]
                  [None; None; None; None; None] [0; 1; 1; 1; 2; 3; 3]))
    5.

(** A new object whose line 0 carries the empty label and is contracted. *)
Definition empty_label_contracted : ContractionState :=
  mkState (Some (mkData [1] [0] [1] [Some ""%string] [0; 1; 1])) 1.

(** A state with lines 0 and 1 expanded and line 2 contracted. *)
Definition third_line_contracted : ContractionState :=
  mkState
    (Some (mkData [1; 1; 1] [1; 1; 0] [1; 1; 1] [None; None; None]
                  [0; 1; 2; 3; 3]))
    3.

(** ** The diagnostic pass

    [Check()] asserts and changes nothing; under [CHECK_CORRECTNESS] it is
    the conjunction of its assertions, here a boolean.  The first loop
    asserts [GetVisible(DocFromDisplay(vline))] for every display row
    (the assertion inside [DocFromDisplay] is the same one). *)

Definition Check_rows (cs : ContractionState) : bool :=
  forallb (fun vline => GetVisible (DocFromDisplay vline cs) cs)
          (lines_from (Z.to_nat (LinesDisplayed cs)) 0).

Definition Check_lines (cs : ContractionState) : bool :=
  forallb
    (fun lineDoc =>
       let displayThis := DisplayFromDoc lineDoc cs in
       let displayNext := DisplayFromDoc (lineDoc + 1) cs in
       let height := displayNext - displayThis in
       (0 <=? height)
       && (if GetVisible lineDoc cs then GetHeight lineDoc cs =? height
           else 0 =? height))
    (lines_from (Z.to_nat (LinesInDoc cs)) 0).

Definition Check (cs : ContractionState) : bool :=
  Check_rows cs && Check_lines cs.

(** * Proofs *)

(** ** Lists indexed by integers *)

Section list_facts.
Context {A : Type}.
Implicit Types l k : list A.

Lemma take_insert_at l (n : nat) x :
  (n <= length l)%nat -> take n (take n l ++ x :: drop n l) = take n l.
Proof. intros H. apply take_app_length'. rewrite length_take. lia. Qed.

Lemma drop_insert_at l (n : nat) x :
  (n <= length l)%nat -> drop n (take n l ++ x :: drop n l) = x :: drop n l.
Proof. intros H. apply drop_app_length'. rewrite length_take. lia. Qed.

Lemma lookup_insert_at l (n : nat) x :
  (n <= length l)%nat -> (take n l ++ x :: drop n l) !! n = Some x.
Proof.
  intros H. rewrite lookup_app_r; rewrite length_take; [|lia].
  replace (n - n `min` length l)%nat with O by lia. reflexivity.
Qed.

Lemma insert_insert_at l (n : nat) x y :
  (n <= length l)%nat ->
  <[n := y]> (take n l ++ x :: drop n l) = take n l ++ y :: drop n l.
Proof.
  intros H. rewrite insert_app_r_alt; rewrite length_take; [|lia].
  replace (n - n `min` length l)%nat with O by lia. reflexivity.
Qed.

Lemma delete_insert_at l (n : nat) x :
  (n <= length l)%nat -> delete n (take n l ++ x :: drop n l) = l.
Proof.
  intros H. rewrite <- (take_drop n l) at 3.
  replace n with (length (take n l)) at 1 by (rewrite length_take; lia).
  apply delete_middle.
Qed.

Lemma split_at l (n : nat) x :
  l !! n = Some x -> l = take n l ++ x :: drop (S n) l.
Proof. intros H. symmetry. by apply take_drop_middle. Qed.

Lemma map_insert {B} (f : A -> B) l (n : nat) x :
  map f (<[n := x]> l) = <[n := f x]> (map f l).
Proof.
  revert n. induction l as [|y l IH]; intros [|n]; simpl; try reflexivity.
  by rewrite IH.
Qed.

Lemma map_delete {B} (f : A -> B) l (n : nat) :
  map f (delete n l) = delete n (map f l).
Proof.
  revert n. induction l as [|y l IH]; intros [|n]; simpl; try reflexivity.
  by rewrite IH.
Qed.

Lemma lookup_map {B} (f : A -> B) l (n : nat) :
  map f l !! n = f <$> l !! n.
Proof.
  revert n. induction l as [|y l IH]; intros [|n]; simpl; try reflexivity.
  apply IH.
Qed.

Lemma map_replicate {B} (f : A -> B) (n : nat) x :
  map f (replicate n x) = replicate n (f x).
Proof. induction n as [|n IH]; simpl; [reflexivity | by rewrite IH]. Qed.

Lemma map_insert_at {B} (f : A -> B) l (n : nat) x :
  map f (take n l ++ x :: drop n l)
  = take n (map f l) ++ f x :: drop n (map f l).
Proof. by rewrite map_app, firstn_map, skipn_map. Qed.

End list_facts.

(** Case analysis on the integer comparisons of the goal, leaving the
    facts as propositions. *)
Ltac case_cmp_then tac :=
  match goal with
  | |- context [?a <=? ?b] => destruct (Z.leb_spec a b)
  | |- context [?a <? ?b] => destruct (Z.ltb_spec a b)
  | |- context [?a =? ?b] => destruct (Z.eqb_spec a b)
  end; tac.

Ltac case_cmp := case_cmp_then ltac:(simpl).

Ltac case_if := case_cmp_then ltac:(cbv iota).

(** ** The partition index as running totals *)

Lemma sumZ_app l k : sumZ (l ++ k) = sumZ l + sumZ k.
Proof. induction l as [|x l IH]; simpl; [reflexivity | rewrite IH; lia]. Qed.

Lemma length_psums a l : length (psums a l) = length l.
Proof. revert a. induction l as [|x l IH]; intros a; simpl; [|rewrite IH]; reflexivity. Qed.

Lemma psums_app a l k : psums a (l ++ k) = psums a l ++ psums (a + sumZ l) k.
Proof.
  revert a. induction l as [|x l IH]; intros a; simpl.
  - by rewrite Z.add_0_r.
  - rewrite IH. do 3 f_equal. lia.
Qed.

Lemma map_add_psums delta a l :
  map (Z.add delta) (psums a l) = psums (a + delta) l.
Proof.
  revert a. induction l as [|x l IH]; intros a; simpl; [reflexivity|].
  rewrite IH. f_equal; [lia | f_equal; lia].
Qed.

Lemma lookup_psums a l (n : nat) :
  (n < length l)%nat -> psums a l !! n = Some (a + sumZ (take n l)).
Proof.
  revert a n. induction l as [|x l IH]; intros a [|n] H; simpl in *; try lia.
  - by rewrite Z.add_0_r.
  - rewrite IH by lia. f_equal. lia.
Qed.

Lemma Partitions_psums a l :
  Partitioning.Partitions (psums a l) = Z.of_nat (length l) - 1.
Proof. unfold Partitioning.Partitions. by rewrite length_psums. Qed.

Lemma PositionFromPartition_psums a l i :
  0 <= i < Z.of_nat (length l) ->
  Partitioning.PositionFromPartition i (psums a l)
  = a + sumZ (take (Z.to_nat i) l).
Proof.
  intros H. unfold Partitioning.PositionFromPartition.
  rewrite length_psums. do 2 (case_cmp; [lia|]).
  rewrite lookup_psums by lia. reflexivity.
Qed.

Lemma InsertPartition_psums a l k p :
  p = Z.of_nat (length l) ->
  Partitioning.InsertPartition p (a + sumZ l) (psums a (l ++ k))
  = psums a (l ++ 0 :: k).
Proof.
  intros ->. unfold Partitioning.InsertPartition.
  rewrite length_psums, length_app, Nat2Z.id.
  do 2 (case_cmp; [|lia]). rewrite !psums_app.
  rewrite take_app_length' by (by rewrite length_psums).
  rewrite drop_app_length' by (by rewrite length_psums).
  simpl. by rewrite Z.add_0_r.
Qed.

Lemma InsertText_psums a l x k p delta :
  p = Z.of_nat (length l) ->
  Partitioning.InsertText p delta (psums a (l ++ x :: k))
  = psums a (l ++ (x + delta) :: k).
Proof.
  intros ->. unfold Partitioning.InsertText.
  replace (Z.to_nat (Z.of_nat (length l) + 1)) with (length (psums a (l ++ [x])))
    by (rewrite length_psums, length_app; simpl; lia).
  replace (l ++ x :: k) with ((l ++ [x]) ++ k) by (by rewrite <- app_assoc).
  rewrite (psums_app a (l ++ [x]) k), take_app_length, drop_app_length.
  rewrite map_add_psums.
  replace (l ++ (x + delta) :: k) with ((l ++ [x + delta]) ++ k)
    by (by rewrite <- app_assoc).
  rewrite (psums_app a (l ++ [x + delta]) k), !psums_app, !sumZ_app. simpl.
  do 2 f_equal. lia.
Qed.

Lemma RemovePartition_psums a l k p :
  p = Z.of_nat (length l) ->
  Partitioning.RemovePartition p (psums a (l ++ 0 :: k)) = psums a (l ++ k).
Proof.
  intros ->. unfold Partitioning.RemovePartition.
  rewrite length_psums, length_app, Nat2Z.id. simpl.
  do 2 (case_cmp; [|lia]). rewrite !psums_app. simpl.
  replace (length l) with (length (psums a l)) at 1 by apply length_psums.
  rewrite delete_middle. by rewrite Z.add_0_r.
Qed.

(** ** The attribute arrays on one line *)

Lemma RunStyles_ValueAt_map {A} (f : A -> Z) (l : list A) p x :
  l !! Z.to_nat p = Some x -> RunStyles.ValueAt p (map f l) = f x.
Proof. intros H. unfold RunStyles.ValueAt. by rewrite lookup_map, H. Qed.

Lemma RunStyles_SetValueAt_inside p v (r : list Z) :
  0 <= p < Z.of_nat (length r) ->
  RunStyles.SetValueAt p v r = <[Z.to_nat p := v]> r.
Proof.
  intros H. unfold RunStyles.SetValueAt, RunStyles.Length.
  by do 2 (case_cmp; [|lia]).
Qed.

Lemma RunStyles_insert_line p v (r : list Z) :
  0 <= p <= Z.of_nat (length r) ->
  RunStyles.SetValueAt p v (RunStyles.InsertSpace p 1 r)
  = take (Z.to_nat p) r ++ v :: drop (Z.to_nat p) r.
Proof.
  intros H. unfold RunStyles.InsertSpace.
  change (replicate (Z.to_nat 1) 0 ++ drop (Z.to_nat p) r)
    with (0 :: drop (Z.to_nat p) r).
  rewrite RunStyles_SetValueAt_inside.
  - apply insert_insert_at. lia.
  - rewrite length_app, length_take. simpl. rewrite length_drop. lia.
Qed.

Lemma RunStyles_delete_line p (r : list Z) :
  RunStyles.DeleteRange p 1 r = delete (Z.to_nat p) r.
Proof.
  unfold RunStyles.DeleteRange. rewrite delete_take_drop.
  do 2 f_equal. change (Z.to_nat 1) with 1%nat. lia.
Qed.

Lemma SparseVector_ValueAt_map {A} (f : A -> option string) (l : list A) p x :
  0 <= p -> l !! Z.to_nat p = Some x -> SparseVector.ValueAt p (map f l) = f x.
Proof.
  intros Hp H. unfold SparseVector.ValueAt. case_cmp; [lia|].
  by rewrite lookup_map, H.
Qed.

Lemma SparseVector_SetValueAt_inside p v (s : list (option string)) :
  0 <= p < Z.of_nat (length s) ->
  SparseVector.SetValueAt p v s = <[Z.to_nat p := v]> s.
Proof.
  intros H. unfold SparseVector.SetValueAt. by do 2 (case_cmp; [|lia]).
Qed.

Lemma SparseVector_insert_line p (s : list (option string)) :
  0 <= p <= Z.of_nat (length s) ->
  SparseVector.SetValueAt p None (SparseVector.InsertSpace p 1 s)
  = take (Z.to_nat p) s ++ None :: drop (Z.to_nat p) s.
Proof.
  intros H. unfold SparseVector.InsertSpace.
  change (replicate (Z.to_nat 1) None ++ drop (Z.to_nat p) s)
    with (@None string :: drop (Z.to_nat p) s).
  rewrite SparseVector_SetValueAt_inside.
  - apply insert_insert_at. lia.
  - rewrite length_app, length_take. simpl. rewrite length_drop. lia.
Qed.

Lemma SparseVector_delete_line p (s : list (option string)) :
  0 <= p < Z.of_nat (length s) ->
  SparseVector.DeletePosition p s = delete (Z.to_nat p) s.
Proof.
  intros H. unfold SparseVector.DeletePosition. by do 2 (case_cmp; [|lia]).
Qed.

(** ** Reading a projected state *)

Section reading.
Variables (ls : list Line) (n : Z).

Let cs : ContractionState := mkState (Some (repr ls)) n.

Lemma sumZ_take_zeros (k : nat) : sumZ (take k [0; 0]) = 0.
Proof. by destruct k as [|[|[|k]]]. Qed.

Lemma LinesInDoc_repr : LinesInDoc cs = Z.of_nat (length ls).
Proof.
  unfold LinesInDoc, cs. simpl. rewrite Partitions_psums.
  rewrite length_app, length_map. simpl. lia.
Qed.

Lemma boundary_repr (i : Z) :
  0 <= i <= Z.of_nat (length ls) + 1 ->
  Partitioning.PositionFromPartition i (displayLines (repr ls))
  = sumZ (map line_span (take (Z.to_nat i) ls)).
Proof.
  intros H. simpl. rewrite PositionFromPartition_psums
    by (rewrite length_app, length_map; simpl; lia).
  rewrite take_app, sumZ_app, sumZ_take_zeros, firstn_map. lia.
Qed.

Lemma DisplayFromDoc_repr (lineDoc : Z) :
  DisplayFromDoc lineDoc cs = sumZ (map line_span (take (Z.to_nat lineDoc) ls)).
Proof.
  unfold DisplayFromDoc, cs; cbn [data].
  assert (HP : Partitioning.Partitions (displayLines (repr ls))
               = Z.of_nat (length ls) + 1).
  { simpl. rewrite Partitions_psums, length_app, length_map. simpl. lia. }
  rewrite HP. case_cmp.
  - rewrite boundary_repr by lia. by rewrite !take_ge by lia.
  - destruct (Z.ltb_spec lineDoc 0).
    + unfold Partitioning.PositionFromPartition.
      rewrite (proj2 (Z.ltb_lt lineDoc 0)) by lia.
      by replace (Z.to_nat lineDoc) with O by lia.
    + by apply boundary_repr; lia.
Qed.

Lemma LinesDisplayed_repr : LinesDisplayed cs = sumZ (map line_span ls).
Proof.
  unfold LinesDisplayed. cbn [data cs]. fold cs. rewrite LinesInDoc_repr.
  rewrite boundary_repr by lia. by rewrite take_ge by lia.
Qed.

Lemma GetVisible_repr lineDoc x :
  0 <= lineDoc -> ls !! Z.to_nat lineDoc = Some x ->
  GetVisible lineDoc cs = (line_visible x =? 1).
Proof.
  intros H0 H. unfold GetVisible, cs, RunStyles.Length. simpl.
  apply lookup_lt_Some in H as Hlt. rewrite length_map.
  case_cmp; [lia|]. by rewrite (RunStyles_ValueAt_map _ _ _ x).
Qed.

Lemma GetHeight_repr lineDoc x :
  ls !! Z.to_nat lineDoc = Some x -> GetHeight lineDoc cs = line_height x.
Proof. intros H. unfold GetHeight, cs. simpl. by apply RunStyles_ValueAt_map. Qed.

Lemma GetExpanded_repr lineDoc x :
  ls !! Z.to_nat lineDoc = Some x ->
  GetExpanded lineDoc cs = (line_expanded x =? 1).
Proof.
  intros H. unfold GetExpanded, cs. simpl.
  by rewrite (RunStyles_ValueAt_map _ _ _ x).
Qed.

Lemma GetFoldDisplayText_repr lineDoc x :
  0 <= lineDoc -> ls !! Z.to_nat lineDoc = Some x ->
  GetFoldDisplayText lineDoc cs = Returns (line_text x).
Proof.
  intros H0 H. unfold GetFoldDisplayText, cs. simpl.
  by rewrite (SparseVector_ValueAt_map _ _ _ x).
Qed.

Lemma rows_of_line_repr lineDoc x :
  0 <= lineDoc -> ls !! Z.to_nat lineDoc = Some x ->
  rows_of_line cs lineDoc = line_span x.
Proof.
  intros H0 H. unfold rows_of_line, line_span.
  by rewrite (GetVisible_repr _ x), (GetHeight_repr _ x).
Qed.

End reading.

(** ** Structural edits on a projected state *)

Lemma DisplayFromDoc_displayLines lineDoc d1 d2 n1 n2 :
  displayLines d1 = displayLines d2 ->
  DisplayFromDoc lineDoc (mkState (Some d1) n1)
  = DisplayFromDoc lineDoc (mkState (Some d2) n2).
Proof. intros H. unfold DisplayFromDoc. simpl. by rewrite H. Qed.

Lemma InsertLine_repr ls n lineDoc :
  0 <= lineDoc <= Z.of_nat (length ls) ->
  InsertLine lineDoc (mkState (Some (repr ls)) n)
  = mkState (Some (repr (take (Z.to_nat lineDoc) ls
                           ++ default_line :: drop (Z.to_nat lineDoc) ls))) n.
Proof.
  intros H. unfold InsertLine. cbn [data linesInDocument].
  set (p := Z.to_nat lineDoc).
  match goal with
  | |- context [DisplayFromDoc lineDoc (mkState (Some ?d) n)] =>
      rewrite (DisplayFromDoc_displayLines lineDoc d (repr ls) n n eq_refl)
  end.
  rewrite DisplayFromDoc_repr. fold p.
  cbv beta zeta iota
      delta [set_displayLines set_foldDisplayTexts set_heights set_expanded
             set_visible repr visible expanded heights foldDisplayTexts
             displayLines].
  do 2 f_equal. f_equal.
  - rewrite RunStyles_insert_line by (rewrite length_map; lia).
    by rewrite map_insert_at.
  - rewrite RunStyles_insert_line by (rewrite length_map; lia).
    by rewrite map_insert_at.
  - rewrite RunStyles_insert_line by (rewrite length_map; lia).
    by rewrite map_insert_at.
  - rewrite SparseVector_insert_line by (rewrite length_map; lia).
    by rewrite map_insert_at.
  - rewrite map_insert_at. fold p.
    rewrite <- (take_drop p (map line_span ls)) at 1.
    rewrite <- !app_assoc, <- firstn_map.
    assert (Hp : lineDoc = Z.of_nat (length (take p (map line_span ls)))).
    { rewrite length_take, length_map. lia. }
    rewrite <- (Z.add_0_l (sumZ _)).
    rewrite InsertPartition_psums by exact Hp.
    rewrite InsertText_psums by exact Hp. reflexivity.
Qed.

Lemma DeleteLine_repr ls n lineDoc x :
  0 <= lineDoc -> ls !! Z.to_nat lineDoc = Some x ->
  DeleteLine lineDoc (mkState (Some (repr ls)) n)
  = mkState (Some (repr (delete (Z.to_nat lineDoc) ls))) n.
Proof.
  intros H0 Hx. apply lookup_lt_Some in Hx as Hlt.
  unfold DeleteLine. cbn [data linesInDocument].
  rewrite (GetVisible_repr ls n lineDoc x H0 Hx).
  set (p := Z.to_nat lineDoc) in *.
  assert (Hp : lineDoc = Z.of_nat (length (map line_span (take p ls)))).
  { rewrite length_map, length_take. lia. }
  assert (Hs : map line_span ls ++ [0; 0]
               = map line_span (take p ls)
                   ++ line_span x :: map line_span (drop (S p) ls) ++ [0; 0]).
  { rewrite (split_at ls p x Hx) at 1.
    by rewrite map_app, <- app_assoc. }
  assert (Hd : map line_span (delete p ls) ++ [0; 0]
               = map line_span (take p ls)
                   ++ map line_span (drop (S p) ls) ++ [0; 0]).
  { by rewrite delete_take_drop, map_app, <- app_assoc. }
  destruct (line_visible x =? 1) eqn:Hv;
    cbv beta zeta iota
      delta [set_displayLines set_foldDisplayTexts set_heights set_expanded
             set_visible repr visible expanded heights foldDisplayTexts
             displayLines];
    rewrite !RunStyles_delete_line,
      SparseVector_delete_line by (rewrite length_map; lia);
    fold p; rewrite <- !map_delete; do 3 f_equal; rewrite Hs, Hd.
  - rewrite (RunStyles_ValueAt_map line_height ls lineDoc x Hx).
    rewrite InsertText_psums by exact Hp.
    unfold line_span at 2. rewrite Hv, Z.add_opp_diag_r.
    by rewrite RemovePartition_psums by exact Hp.
  - unfold line_span at 2. rewrite Hv.
    by rewrite RemovePartition_psums by exact Hp.
Qed.

Lemma InsertLines_from_repr k ls n lineDoc l :
  0 <= lineDoc -> 0 <= l -> lineDoc + l <= Z.of_nat (length ls) ->
  InsertLines_from k lineDoc l (mkState (Some (repr ls)) n)
  = mkState (Some (repr (take (Z.to_nat (lineDoc + l)) ls
                           ++ replicate k default_line
                           ++ drop (Z.to_nat (lineDoc + l)) ls))) n.
Proof.
  revert ls l. induction k as [|k IH]; intros ls l H0 Hl Hlen; simpl.
  - by rewrite take_drop.
  - rewrite InsertLine_repr by lia.
    set (q := Z.to_nat (lineDoc + l)).
    rewrite IH; [|lia|lia|].
    + replace (Z.to_nat (lineDoc + (l + 1))) with (S q) by lia.
      replace (take q ls ++ default_line :: drop q ls)
        with ((take q ls ++ [default_line]) ++ drop q ls)
        by (by rewrite <- app_assoc).
      rewrite take_app_length', drop_app_length'
        by (rewrite length_app, length_take; simpl; lia).
      by rewrite <- app_assoc.
    + rewrite length_app, length_take. simpl. rewrite length_drop. lia.
Qed.

Lemma InsertLines_repr ls n lineDoc lineCount :
  0 <= lineDoc <= Z.of_nat (length ls) ->
  InsertLines lineDoc lineCount (mkState (Some (repr ls)) n)
  = mkState (Some (repr (take (Z.to_nat lineDoc) ls
                           ++ replicate (Z.to_nat lineCount) default_line
                           ++ drop (Z.to_nat lineDoc) ls))) n.
Proof.
  intros H. unfold InsertLines. rewrite InsertLines_from_repr by lia.
  by rewrite Z.add_0_r.
Qed.

Lemma DeleteLines_from_repr k ls n lineDoc :
  0 <= lineDoc -> (Z.to_nat lineDoc + k <= length ls)%nat ->
  DeleteLines_from k lineDoc (mkState (Some (repr ls)) n)
  = mkState (Some (repr (take (Z.to_nat lineDoc) ls
                           ++ drop (Z.to_nat lineDoc + k) ls))) n.
Proof.
  intros H0. set (p := Z.to_nat lineDoc).
  revert ls. induction k as [|k IH]; intros ls Hlen; simpl.
  - by rewrite Nat.add_0_r, take_drop.
  - destruct (lookup_lt_is_Some_2 ls p) as [x Hx]; [lia|].
    rewrite (DeleteLine_repr ls n lineDoc x H0 Hx). fold p.
    rewrite IH by (rewrite length_delete by eauto; lia).
    rewrite delete_take_drop.
    rewrite take_app_length' by (rewrite length_take; lia).
    rewrite drop_app_add' by (rewrite length_take; lia).
    rewrite drop_drop. by replace (S p + k)%nat with (p + S k)%nat by lia.
Qed.

Lemma DeleteLines_repr ls n lineDoc lineCount :
  0 <= lineDoc -> 0 <= lineCount ->
  lineDoc + lineCount <= Z.of_nat (length ls) ->
  DeleteLines lineDoc lineCount (mkState (Some (repr ls)) n)
  = mkState (Some (repr (take (Z.to_nat lineDoc) ls
                           ++ drop (Z.to_nat (lineDoc + lineCount)) ls))) n.
Proof.
  intros H0 Hc Hlen. unfold DeleteLines.
  rewrite DeleteLines_from_repr by lia.
  by replace (Z.to_nat lineDoc + Z.to_nat lineCount)%nat
    with (Z.to_nat (lineDoc + lineCount)) by lia.
Qed.

(** In a one-to-one state the loops only count. *)
Lemma InsertLines_from_one_to_one k lineDoc l n :
  InsertLines_from k lineDoc l (mkState None n)
  = mkState None (n + Z.of_nat k).
Proof.
  revert l n. induction k as [|k IH]; intros l n; simpl.
  - by rewrite Z.add_0_r.
  - unfold InsertLine at 1. simpl. rewrite IH. f_equal. lia.
Qed.

Lemma DeleteLines_from_one_to_one k lineDoc n :
  DeleteLines_from k lineDoc (mkState None n)
  = mkState None (n - Z.of_nat k).
Proof.
  revert n. induction k as [|k IH]; intros n; simpl.
  - by rewrite Z.sub_0_r.
  - unfold DeleteLine at 1. simpl. rewrite IH. f_equal. lia.
Qed.

(** ** Materialisation *)

Lemma EnsureData_models cs ls :
  models cs ls -> EnsureData cs = mkState (Some (repr ls)) (linesInDocument cs).
Proof.
  intros [n Hn|ls' n Hok]; unfold EnsureData; simpl; [|reflexivity].
  change (mkData RunStyles.create RunStyles.create RunStyles.create
            SparseVector.create Partitioning.create) with (repr []).
  rewrite InsertLines_repr by (simpl; lia).
  rewrite take_nil, drop_nil. simpl. by rewrite app_nil_r.
Qed.

Lemma Forall_line_ok_replicate k : Forall line_ok (replicate k default_line).
Proof. apply Forall_replicate. split; by right. Qed.

Lemma models_line_ok cs ls : models cs ls -> Forall line_ok ls.
Proof. intros [n Hn|ls' n Hok]; [apply Forall_line_ok_replicate | done]. Qed.

Lemma models_EnsureData cs ls : models cs ls -> models (EnsureData cs) ls.
Proof.
  intros H. rewrite (EnsureData_models cs ls H). constructor.
  by eapply models_line_ok.
Qed.

(** ** Reading any well-formed state *)

Lemma sumZ_spans_default k :
  sumZ (map line_span (replicate k default_line)) = Z.of_nat k.
Proof.
  induction k as [|k IH]; [reflexivity|].
  change (sumZ (map line_span (replicate (S k) default_line)))
    with (1 + sumZ (map line_span (replicate k default_line))).
  lia.
Qed.

Lemma take_replicate_min {A} (k m : nat) (x : A) :
  take k (replicate m x) = replicate (Nat.min k m) x.
Proof.
  revert m. induction k as [|k IH]; intros [|m]; simpl; try reflexivity.
  by rewrite IH.
Qed.

Section reading_models.
Variables (cs : ContractionState) (ls : list Line).
Hypothesis Hm : models cs ls.

Lemma models_LinesInDoc : LinesInDoc cs = Z.of_nat (length ls).
Proof.
  destruct Hm as [n Hn|ls' n Hok].
  - unfold LinesInDoc. simpl. rewrite length_replicate. lia.
  - apply LinesInDoc_repr.
Qed.

Lemma models_LinesDisplayed : LinesDisplayed cs = sumZ (map line_span ls).
Proof.
  destruct Hm as [n Hn|ls' n Hok].
  - unfold LinesDisplayed. simpl. rewrite sumZ_spans_default. lia.
  - apply LinesDisplayed_repr.
Qed.

Lemma models_DisplayFromDoc lineDoc :
  0 <= lineDoc ->
  DisplayFromDoc lineDoc cs
  = sumZ (map line_span (take (Z.to_nat lineDoc) ls)).
Proof.
  intros H0. destruct Hm as [n Hn|ls' n Hok].
  - unfold DisplayFromDoc. simpl.
    rewrite take_replicate_min, sumZ_spans_default. case_cmp; lia.
  - apply DisplayFromDoc_repr.
Qed.

Lemma models_lookup_one_to_one lineDoc x :
  OneToOne cs = true -> ls !! Z.to_nat lineDoc = Some x -> x = default_line.
Proof.
  destruct Hm as [n Hn|ls' n Hok]; [|discriminate].
  intros _ H. by apply lookup_replicate_1 in H as [-> _].
Qed.

Lemma models_GetVisible lineDoc x :
  0 <= lineDoc -> ls !! Z.to_nat lineDoc = Some x ->
  GetVisible lineDoc cs = (line_visible x =? 1).
Proof.
  intros H0 H. destruct Hm as [n Hn|ls' n Hok].
  - by apply lookup_replicate_1 in H as [-> _].
  - by apply GetVisible_repr.
Qed.

Lemma models_GetHeight lineDoc x :
  ls !! Z.to_nat lineDoc = Some x -> GetHeight lineDoc cs = line_height x.
Proof.
  intros H. destruct Hm as [n Hn|ls' n Hok].
  - by apply lookup_replicate_1 in H as [-> _].
  - by apply GetHeight_repr.
Qed.

Lemma models_GetExpanded lineDoc x :
  ls !! Z.to_nat lineDoc = Some x ->
  GetExpanded lineDoc cs = (line_expanded x =? 1).
Proof.
  intros H. destruct Hm as [n Hn|ls' n Hok].
  - by apply lookup_replicate_1 in H as [-> _].
  - by apply GetExpanded_repr.
Qed.

Lemma models_rows_of_line lineDoc x :
  0 <= lineDoc -> ls !! Z.to_nat lineDoc = Some x ->
  rows_of_line cs lineDoc = line_span x.
Proof.
  intros H0 H. unfold rows_of_line, line_span.
  by rewrite (models_GetVisible _ x), (models_GetHeight _ x).
Qed.

End reading_models.

Lemma map_lines_from {A B} (g : Z -> B) (f : A -> B) (l : list A) (a : Z) :
  (forall (i : nat) x, l !! i = Some x -> g (a + Z.of_nat i) = f x) ->
  map g (lines_from (length l) a) = map f l.
Proof.
  revert a. induction l as [|y l IH]; intros a H; simpl; [reflexivity|].
  f_equal.
  - rewrite <- (H O y eq_refl). f_equal. lia.
  - apply IH. intros i x Hi. rewrite <- (H (S i) x Hi). f_equal. lia.
Qed.

Lemma models_rows_of_document cs ls :
  models cs ls -> rows_of_document cs = sumZ (map line_span ls).
Proof.
  intros Hm. unfold rows_of_document.
  rewrite (models_LinesInDoc cs ls Hm), Nat2Z.id. f_equal.
  apply map_lines_from. intros i x Hi.
  apply (models_rows_of_line cs ls Hm); [lia|].
  by replace (Z.to_nat (0 + Z.of_nat i)) with i by lia.
Qed.

Lemma models_span cs ls lineDoc :
  models cs ls -> 0 <= lineDoc < LinesInDoc cs ->
  DisplayFromDoc (lineDoc + 1) cs - DisplayFromDoc lineDoc cs
  = rows_of_line cs lineDoc.
Proof.
  intros Hm H. rewrite (models_LinesInDoc cs ls Hm) in H.
  destruct (lookup_lt_is_Some_2 ls (Z.to_nat lineDoc)) as [x Hx]; [lia|].
  rewrite !(models_DisplayFromDoc cs ls Hm) by lia.
  rewrite (models_rows_of_line cs ls Hm lineDoc x) by (done || lia).
  replace (Z.to_nat (lineDoc + 1)) with (S (Z.to_nat lineDoc)) by lia.
  rewrite (take_S_r ls _ x Hx), map_app, sumZ_app. simpl. lia.
Qed.

(** ** Attribute changes on one line of a projected state *)

Lemma map_insert_same {A B} (f : A -> B) (l : list A) (p : nat) x y :
  l !! p = Some x -> f y = f x -> <[p := f y]> (map f l) = map f l.
Proof. intros H E. apply list_insert_id. by rewrite lookup_map, H, E. Qed.

Lemma alter_as_insert {A} (f : A -> A) (l : list A) (p : nat) x :
  l !! p = Some x -> alter f p l = <[p := f x]> l.
Proof.
  revert p. induction l as [|y l IH]; intros [|p] H; simpl in *; try done.
  - by injection H as ->.
  - by rewrite <- IH.
Qed.

Lemma InsertText_zero p (l : list Z) : Partitioning.InsertText p 0 l = l.
Proof.
  unfold Partitioning.InsertText.
  rewrite (map_ext (Z.add 0) id) by (intros; simpl; lia).
  by rewrite map_id, take_drop.
Qed.

Lemma psums_insert (l : list Z) (p : nat) y y' :
  l !! p = Some y ->
  psums 0 (<[p := y']> l ++ [0; 0])
  = Partitioning.InsertText (Z.of_nat p) (y' - y) (psums 0 (l ++ [0; 0])).
Proof.
  intros Hy. apply lookup_lt_Some in Hy as Hlt.
  rewrite insert_take_drop by done.
  assert (Hl := split_at l p y Hy).
  assert (Hp : Z.of_nat p = Z.of_nat (length (take p l)))
    by (rewrite length_take; lia).
  remember (take p l) as a eqn:Ea. remember (drop (S p) l) as b eqn:Eb.
  rewrite Hl, <- !app_assoc. simpl.
  rewrite InsertText_psums by exact Hp.
  by replace (y + (y' - y)) with y' by lia.
Qed.

Lemma repr_insert ls (p : nat) x x' :
  ls !! p = Some x ->
  repr (<[p := x']> ls)
  = mkData (<[p := line_visible x']> (map line_visible ls))
           (<[p := line_expanded x']> (map line_expanded ls))
           (<[p := line_height x']> (map line_height ls))
           (<[p := line_text x']> (map line_text ls))
           (Partitioning.InsertText (Z.of_nat p) (line_span x' - line_span x)
              (psums 0 (map line_span ls ++ [0; 0]))).
Proof.
  intros Hx. unfold repr. rewrite !map_insert. f_equal.
  apply psums_insert. by rewrite lookup_map, Hx.
Qed.

(** Fields of a line that an update leaves alone. *)
Ltac same_fields Hx :=
  rewrite ?(map_insert_same line_visible _ _ _ _ Hx) by reflexivity;
  rewrite ?(map_insert_same line_expanded _ _ _ _ Hx) by reflexivity;
  rewrite ?(map_insert_same line_height _ _ _ _ Hx) by reflexivity;
  rewrite ?(map_insert_same line_text _ _ _ _ Hx) by reflexivity.

Ltac unfold_fields :=
  cbv beta zeta iota
    delta [set_displayLines set_foldDisplayTexts set_heights set_expanded
           set_visible repr visible expanded heights foldDisplayTexts
           displayLines].

Lemma with_visible_ok b x : line_ok x -> line_ok (with_visible b x).
Proof.
  intros [Hv He]. unfold with_visible.
  destruct (eqb _ _); [done|]. split; [|done].
  destruct b; [by right | by left].
Qed.

Lemma SetVisible_step_repr ls n isVisible line x delta :
  0 <= line -> ls !! Z.to_nat line = Some x ->
  SetVisible_step n isVisible line (repr ls, delta)
  = (repr (<[Z.to_nat line := with_visible isVisible x]> ls),
     delta + visible_delta isVisible x).
Proof.
  intros H0 Hx. apply lookup_lt_Some in Hx as Hlt.
  unfold SetVisible_step, with_visible, visible_delta.
  rewrite (GetVisible_repr ls n line x H0 Hx).
  destruct (eqb (line_visible x =? 1) isVisible) eqn:E; simpl.
  - by rewrite list_insert_id, Z.add_0_r.
  - rewrite (RunStyles_ValueAt_map line_height ls line x Hx).
    f_equal. rewrite (repr_insert ls _ x _ Hx). same_fields Hx.
    rewrite Z2Nat.id by lia. unfold_fields.
    rewrite RunStyles_SetValueAt_inside by (rewrite length_map; lia).
    do 2 f_equal. unfold line_span. simpl.
    destruct isVisible, (line_visible x =? 1); simpl in *; try done; lia.
Qed.

Lemma length_show_lines k b start ls :
  length (show_lines k b start ls) = length ls.
Proof.
  revert start ls. induction k as [|k IH]; intros start ls; simpl; [done|].
  by rewrite IH, length_alter.
Qed.

Lemma Forall_show_lines k b start ls :
  Forall line_ok ls -> Forall line_ok (show_lines k b start ls).
Proof.
  revert start ls. induction k as [|k IH]; intros start ls H; simpl; [done|].
  apply IH. apply Forall_alter; [done|]. intros x _ Hx. by apply with_visible_ok.
Qed.

Lemma SetVisible_from_repr k ls n isVisible start delta :
  0 <= start -> (Z.to_nat start + k <= length ls)%nat ->
  SetVisible_from k n isVisible start (repr ls, delta)
  = (repr (show_lines k isVisible (Z.to_nat start) ls),
     delta + sumZ (map (visible_delta isVisible)
                       (take k (drop (Z.to_nat start) ls)))).
Proof.
  revert ls start delta.
  induction k as [|k IH]; intros ls start delta H0 Hlen.
  - simpl. by rewrite Z.add_0_r.
  - cbn [SetVisible_from show_lines].
    destruct (lookup_lt_is_Some_2 ls (Z.to_nat start)) as [x Hx]; [lia|].
    rewrite (SetVisible_step_repr ls n isVisible start x delta H0 Hx).
    rewrite IH by (rewrite ?length_insert; lia).
    replace (Z.to_nat (start + 1)) with (S (Z.to_nat start)) by lia.
    rewrite (alter_as_insert _ ls _ x Hx).
    rewrite drop_insert_lt by lia.
    rewrite (drop_S ls x _ Hx). simpl. f_equal. lia.
Qed.

(** ** The attribute setters on a well-formed state *)

Lemma alter_id_on {A} (f : A -> A) (l : list A) (p : nat) :
  Forall (fun x => f x = x) l -> alter f p l = l.
Proof.
  intros H. revert p.
  induction H as [|x l Hx _ IH]; intros [|p]; simpl; try done.
  - by rewrite Hx.
  - f_equal. apply IH.
Qed.

Lemma show_lines_id k b start ls :
  Forall (fun x => with_visible b x = x) ls -> show_lines k b start ls = ls.
Proof.
  revert start. induction k as [|k IH]; intros start H; simpl; [done|].
  rewrite alter_id_on by done. by apply IH.
Qed.

Lemma sumZ_visible_delta_shown (l : list Line) :
  Forall (fun x => line_visible x = 1) l ->
  sumZ (map (visible_delta true) l) = 0.
Proof.
  induction 1 as [|x l Hx _ IH]; simpl; [done|].
  unfold visible_delta at 1. rewrite Hx. simpl. lia.
Qed.

Lemma SetVisible_valid cs ls lineDocStart lineDocEnd isVisible :
  models cs ls ->
  0 <= lineDocStart <= lineDocEnd -> lineDocEnd < LinesInDoc cs ->
  exists cs',
    SetVisible lineDocStart lineDocEnd isVisible cs
    = Returns
        (negb (sumZ (map (visible_delta isVisible)
                         (take (Z.to_nat (lineDocEnd - lineDocStart + 1))
                               (drop (Z.to_nat lineDocStart) ls))) =? 0),
         cs')
    /\ models cs'
         (show_lines (Z.to_nat (lineDocEnd - lineDocStart + 1)) isVisible
                     (Z.to_nat lineDocStart) ls).
Proof.
  intros Hm Hr Hend. rewrite (models_LinesInDoc cs ls Hm) in Hend.
  unfold SetVisible. destruct (OneToOne cs && isVisible) eqn:E.
  - apply andb_true_iff in E as [E ->]. exists cs.
    destruct Hm as [n Hn|ls' n Hok]; [|discriminate].
    assert (Hall : Forall (fun x => x = default_line)
                          (replicate (Z.to_nat n) default_line))
      by (by apply Forall_replicate).
    rewrite sumZ_visible_delta_shown.
    + split; [done|]. rewrite show_lines_id; [by constructor|].
      eapply Forall_impl; [exact Hall|]. by intros x ->.
    + apply Forall_take, Forall_drop.
      eapply Forall_impl; [exact Hall|]. by intros x ->.
  - rewrite (EnsureData_models cs ls Hm). unfold deref. cbn [data bind].
    rewrite LinesInDoc_repr.
    do 3 (case_cmp; [|lia]).
    rewrite SetVisible_from_repr by lia. simpl.
    eexists. split; [reflexivity|]. constructor.
    apply Forall_show_lines. by eapply models_line_ok.
Qed.

Lemma SetVisible_invalid cs ls lineDocStart lineDocEnd isVisible :
  models cs ls ->
  ~ (0 <= lineDocStart <= lineDocEnd /\ lineDocEnd < LinesInDoc cs) ->
  SetVisible lineDocStart lineDocEnd isVisible cs
  = Returns (false, if OneToOne cs && isVisible then cs else EnsureData cs).
Proof.
  intros Hm Hr. unfold SetVisible. destruct (OneToOne cs && isVisible); [done|].
  rewrite (models_LinesInDoc cs ls Hm) in Hr.
  rewrite (EnsureData_models cs ls Hm). unfold deref. cbn [data bind].
  rewrite LinesInDoc_repr.
  repeat case_cmp; try reflexivity. lia.
Qed.

Lemma SetHeight_inside cs ls lineDoc height x :
  models cs ls -> 0 <= lineDoc -> ls !! Z.to_nat lineDoc = Some x ->
  exists cs',
    SetHeight lineDoc height cs = Returns (negb (line_height x =? height), cs')
    /\ models cs' (<[Z.to_nat lineDoc := with_height height x]> ls).
Proof.
  intros Hm H0 Hx. apply lookup_lt_Some in Hx as Hlt.
  unfold SetHeight. destruct (OneToOne cs && (height =? 1)) eqn:E.
  - apply andb_true_iff in E as [E Eh]. apply Z.eqb_eq in Eh as ->.
    assert (Hd := models_lookup_one_to_one cs ls Hm lineDoc x E Hx). subst x.
    exists cs. split; [done|]. by rewrite list_insert_id by exact Hx.
  - rewrite (models_LinesInDoc cs ls Hm). case_cmp; [|lia].
    rewrite (EnsureData_models cs ls Hm). unfold deref. cbn [data bind].
    rewrite (GetHeight_repr ls _ lineDoc x Hx).
    rewrite (GetVisible_repr ls _ lineDoc x H0 Hx).
    destruct (line_height x =? height) eqn:Eh; simpl.
    + apply Z.eqb_eq in Eh as <-. eexists. split; [reflexivity|].
      rewrite list_insert_id by (by destruct x). constructor.
      by eapply models_line_ok.
    + eexists. split; [reflexivity|].
      assert (Hok : Forall line_ok
                      (<[Z.to_nat lineDoc := with_height height x]> ls)).
      { apply Forall_insert; [by eapply models_line_ok|].
        apply models_line_ok in Hm.
        apply (proj1 (Forall_lookup _ ls) Hm _ x Hx). }
      replace (mkState _ _) with
        (mkState (Some (repr (<[Z.to_nat lineDoc := with_height height x]> ls)))
                 (linesInDocument cs)); [by constructor|].
      do 2 f_equal. rewrite (repr_insert ls _ x _ Hx). same_fields Hx.
      rewrite Z2Nat.id by lia.
      replace (line_span (with_height height x) - line_span x)
        with (if line_visible x =? 1 then height - line_height x else 0)
        by (unfold line_span; simpl; destruct (line_visible x =? 1); lia).
      destruct (line_visible x =? 1); unfold_fields;
        rewrite RunStyles_SetValueAt_inside by (rewrite length_map; lia);
        rewrite ?InsertText_zero; reflexivity.
Qed.

Lemma SetHeight_beyond cs ls lineDoc height :
  models cs ls -> LinesInDoc cs <= lineDoc ->
  SetHeight lineDoc height cs = Returns (false, cs).
Proof.
  intros Hm H. unfold SetHeight.
  destruct (OneToOne cs && (height =? 1)); [done|]. by case_cmp; [lia|].
Qed.

Lemma SetExpanded_projected cs ls lineDoc isExpanded x :
  models cs ls -> 0 <= lineDoc -> ls !! Z.to_nat lineDoc = Some x ->
  OneToOne cs && isExpanded = false ->
  SetExpanded lineDoc isExpanded cs
  = Returns (negb (eqb isExpanded (line_expanded x =? 1)),
             mkState (Some (repr (<[Z.to_nat lineDoc
                                    := with_expanded isExpanded x]> ls)))
                     (linesInDocument cs)).
Proof.
  intros Hm H0 Hx E. apply lookup_lt_Some in Hx as Hlt.
  assert (Hxok : line_ok x).
  { apply models_line_ok in Hm. apply (proj1 (Forall_lookup _ ls) Hm _ x Hx). }
  unfold SetExpanded. rewrite E.
  rewrite (EnsureData_models cs ls Hm). unfold deref. cbn [data bind].
  change (expanded (repr ls)) with (map line_expanded ls).
  rewrite (RunStyles_ValueAt_map line_expanded ls lineDoc x Hx).
  destruct (eqb isExpanded (line_expanded x =? 1)) eqn:Ee; simpl.
  - rewrite list_insert_id; [done|].
    rewrite Hx. f_equal. destruct x as [v e h t], Hxok as [_ [He|He]];
      simpl in *; subst e; destruct isExpanded; simpl in *; done.
  - do 4 f_equal. rewrite (repr_insert ls _ x _ Hx). same_fields Hx.
    change (line_span (with_expanded isExpanded x)) with (line_span x).
    rewrite Z.sub_diag, InsertText_zero. unfold_fields.
    by rewrite RunStyles_SetValueAt_inside by (rewrite length_map; lia).
Qed.

Lemma SetExpanded_inside cs ls lineDoc isExpanded x :
  models cs ls -> 0 <= lineDoc -> ls !! Z.to_nat lineDoc = Some x ->
  exists cs',
    SetExpanded lineDoc isExpanded cs
    = Returns (negb (eqb isExpanded (line_expanded x =? 1)), cs')
    /\ models cs' (<[Z.to_nat lineDoc := with_expanded isExpanded x]> ls).
Proof.
  intros Hm H0 Hx.
  destruct (OneToOne cs && isExpanded) eqn:E.
  - unfold SetExpanded. rewrite E.
    apply andb_true_iff in E as [E ->].
    assert (Hd := models_lookup_one_to_one cs ls Hm lineDoc x E Hx). subst x.
    exists cs. split; [done|]. by rewrite list_insert_id by exact Hx.
  - rewrite (SetExpanded_projected cs ls lineDoc isExpanded x Hm H0 Hx E).
    eexists. split; [reflexivity|]. constructor.
    apply Forall_insert; [by eapply models_line_ok|].
    apply models_line_ok in Hm.
    destruct (proj1 (Forall_lookup _ ls) Hm _ x Hx) as [Hv _].
    split; [done|]. destruct isExpanded; [by right | by left].
Qed.

Lemma strcmp_ne_false text foldText :
  strcmp_ne text foldText = false <-> text = foldText.
Proof.
  unfold strcmp_ne. rewrite negb_false_iff. apply String.eqb_eq.
Qed.

Lemma SetFoldDisplayText_projected cs ls lineDoc text x :
  models cs ls -> 0 <= lineDoc -> ls !! Z.to_nat lineDoc = Some x ->
  SetFoldDisplayText lineDoc text cs
  = Returns (text_differs (line_text x) text,
             mkState (Some (repr (<[Z.to_nat lineDoc := with_text text x]> ls)))
                     (linesInDocument cs)).
Proof.
  intros Hm H0 Hx. apply lookup_lt_Some in Hx as Hlt.
  unfold SetFoldDisplayText.
  rewrite (EnsureData_models cs ls Hm). unfold deref. cbn [data bind].
  change (foldDisplayTexts (repr ls)) with (map line_text ls).
  rewrite (SparseVector_ValueAt_map line_text ls lineDoc x H0 Hx).
  destruct (text_differs (line_text x) text) eqn:Ed.
  - do 4 f_equal. rewrite (repr_insert ls _ x _ Hx). same_fields Hx.
    change (line_span (with_text text x)) with (line_span x).
    rewrite Z.sub_diag, InsertText_zero. unfold_fields.
    unfold UniqueStringCopy.
    by rewrite SparseVector_SetValueAt_inside by (rewrite length_map; lia).
  - rewrite list_insert_id; [done|].
    rewrite Hx. f_equal. destruct x as [v e h [t|]], text as [t'|];
      simpl in *; try done.
    apply strcmp_ne_false in Ed. by subst.
Qed.

Lemma SetFoldDisplayText_inside cs ls lineDoc text x :
  models cs ls -> 0 <= lineDoc -> ls !! Z.to_nat lineDoc = Some x ->
  exists cs',
    SetFoldDisplayText lineDoc text cs
    = Returns (text_differs (line_text x) text, cs')
    /\ models cs' (<[Z.to_nat lineDoc := with_text text x]> ls).
Proof.
  intros Hm H0 Hx.
  rewrite (SetFoldDisplayText_projected cs ls lineDoc text x Hm H0 Hx).
  eexists. split; [reflexivity|]. constructor.
  apply Forall_insert; [by eapply models_line_ok|].
  apply models_line_ok in Hm. apply (proj1 (Forall_lookup _ ls) Hm _ x Hx).
Qed.

(** ** Structural edits and resets on a well-formed state *)

Lemma all_default_replicate (l : list Line) :
  Forall (fun x => x = default_line) l ->
  l = replicate (length l) default_line.
Proof. induction 1 as [|x l -> _ IH]; simpl; [done | by rewrite <- IH]. Qed.

Lemma models_one_to_one_eq n ls :
  0 <= n -> Forall (fun x => x = default_line) ls ->
  Z.of_nat (length ls) = n -> models (mkState None n) ls.
Proof.
  intros Hn Hall Hlen. rewrite (all_default_replicate ls Hall).
  replace (length ls) with (Z.to_nat n) by lia. by constructor.
Qed.

Lemma InsertLines_models cs ls lineDoc lineCount :
  models cs ls -> 0 <= lineDoc <= LinesInDoc cs ->
  models (InsertLines lineDoc lineCount cs)
         (take (Z.to_nat lineDoc) ls
            ++ replicate (Z.to_nat lineCount) default_line
            ++ drop (Z.to_nat lineDoc) ls).
Proof.
  intros Hm H. rewrite (models_LinesInDoc cs ls Hm) in H.
  destruct Hm as [n Hn|ls' n Hok].
  - unfold InsertLines. rewrite InsertLines_from_one_to_one.
    rewrite length_replicate in H.
    assert (Hall : Forall (fun x => x = default_line)
                          (replicate (Z.to_nat n) default_line))
      by (by apply Forall_replicate).
    apply models_one_to_one_eq; [lia| |].
    + repeat apply Forall_app_2;
        [by apply Forall_take | by apply Forall_replicate | by apply Forall_drop].
    + rewrite !length_app, length_take, length_drop, !length_replicate. lia.
  - rewrite InsertLines_repr by done. constructor.
    repeat apply Forall_app_2;
      [by apply Forall_take | apply Forall_line_ok_replicate | by apply Forall_drop].
Qed.

Lemma DeleteLines_models cs ls lineDoc lineCount :
  models cs ls -> 0 <= lineDoc -> 0 <= lineCount ->
  lineDoc + lineCount <= LinesInDoc cs ->
  models (DeleteLines lineDoc lineCount cs)
         (take (Z.to_nat lineDoc) ls
            ++ drop (Z.to_nat (lineDoc + lineCount)) ls).
Proof.
  intros Hm H0 Hc H. rewrite (models_LinesInDoc cs ls Hm) in H.
  destruct Hm as [n Hn|ls' n Hok].
  - unfold DeleteLines. rewrite DeleteLines_from_one_to_one.
    rewrite length_replicate in H.
    assert (Hall : Forall (fun x => x = default_line)
                          (replicate (Z.to_nat n) default_line))
      by (by apply Forall_replicate).
    apply models_one_to_one_eq; [lia| |].
    + apply Forall_app_2; [by apply Forall_take | by apply Forall_drop].
    + rewrite !length_app, length_take, length_drop, !length_replicate. lia.
  - rewrite DeleteLines_repr by done. constructor.
    apply Forall_app_2; [by apply Forall_take | by apply Forall_drop].
Qed.

Lemma ShowAll_models cs ls :
  models cs ls ->
  models (ShowAll cs) (replicate (length ls) default_line).
Proof.
  intros Hm. unfold ShowAll, Clear. simpl.
  rewrite (models_LinesInDoc cs ls Hm).
  rewrite <- (Nat2Z.id (length ls)) at 2. constructor. lia.
Qed.

Lemma wf_new : wf ContractionState_new.
Proof. exists (replicate (Z.to_nat 1) default_line). by constructor. Qed.

Lemma reachable_wf cs : reachable cs -> wf cs.
Proof.
  induction 1 as [ | cs _ _ | cs p k _ [ls Hm] Hp | cs p k _ [ls Hm] H0 Hk Hp
                   | cs a b v r cs' _ [ls Hm] E | cs p t r cs' _ [ls Hm] Hp E
                   | cs p e r cs' _ [ls Hm] Hp E | cs p h r cs' _ [ls Hm] H0 E
                   | cs _ [ls Hm] ].
  - apply wf_new.
  - apply wf_new.
  - eexists. by apply InsertLines_models.
  - eexists. by apply DeleteLines_models.
  - destruct (decide (0 <= a <= b /\ b < LinesInDoc cs)) as [[Hr Hb]|Hr].
    + destruct (SetVisible_valid cs ls a b v Hm Hr Hb) as (cs1 & E1 & Hm1).
      rewrite E1 in E. injection E as _ <-. by eexists.
    + rewrite (SetVisible_invalid cs ls a b v Hm Hr) in E. injection E as _ <-.
      exists ls. destruct (OneToOne cs && v); [done | by apply models_EnsureData].
  - rewrite (models_LinesInDoc cs ls Hm) in Hp.
    destruct (lookup_lt_is_Some_2 ls (Z.to_nat p)) as [x Hx]; [lia|].
    destruct (SetFoldDisplayText_inside cs ls p t x Hm) as (cs1 & E1 & Hm1);
      [lia | done |].
    rewrite E1 in E. injection E as _ <-. by eexists.
  - rewrite (models_LinesInDoc cs ls Hm) in Hp.
    destruct (lookup_lt_is_Some_2 ls (Z.to_nat p)) as [x Hx]; [lia|].
    destruct (SetExpanded_inside cs ls p e x Hm) as (cs1 & E1 & Hm1);
      [lia | done |].
    rewrite E1 in E. injection E as _ <-. by eexists.
  - destruct (decide (p < LinesInDoc cs)) as [Hp|Hp].
    + rewrite (models_LinesInDoc cs ls Hm) in Hp.
      destruct (lookup_lt_is_Some_2 ls (Z.to_nat p)) as [x Hx]; [lia|].
      destruct (SetHeight_inside cs ls p h x Hm) as (cs1 & E1 & Hm1);
        [lia | done |].
      rewrite E1 in E. injection E as _ <-. by eexists.
    + rewrite (SetHeight_beyond cs ls p h Hm) in E by lia.
      injection E as _ <-. by eexists.
  - eexists. by apply ShowAll_models.
Qed.

(** ** Looking a display row up in the partition index *)

Lemma boundaries_upto_psums (l : list Z) a v :
  Forall (fun x => 0 <= x) l -> a <= v < a + sumZ l ->
  let k := Partitioning.boundaries_upto v (tail (psums a (l ++ [0; 0]))) in
  0 <= k < Z.of_nat (length l)
  /\ a + sumZ (take (Z.to_nat k) l) <= v
     < a + sumZ (take (Z.to_nat (k + 1)) l).
Proof.
  intros Hpos. revert a.
  induction Hpos as [|x l Hx Hpos IH]; intros a Hv; [simpl in Hv; lia|].
  change (sumZ (x :: l)) with (x + sumZ l) in Hv.
  change (tail (psums a ((x :: l) ++ [0; 0]))) with (psums (a + x) (l ++ [0; 0])).
  specialize (IH (a + x)).
  destruct (l ++ [0; 0]) as [|y m] eqn:El; [by destruct l|].
  change (tail (psums (a + x) (y :: m))) with (psums (a + x + y) m) in IH.
  change (psums (a + x) (y :: m)) with ((a + x) :: psums (a + x + y) m).
  cbn [Partitioning.boundaries_upto].
  destruct (Z.leb_spec (a + x) v) as [Hle|Hgt].
  - destruct IH as [Hk Hs]; [lia|].
    set (k := Partitioning.boundaries_upto v (psums (a + x + y) m)) in *.
    cbv zeta. split; [simpl length; lia|].
    replace (Z.to_nat (1 + k)) with (S (Z.to_nat k)) by lia.
    replace (Z.to_nat (1 + k + 1)) with (S (Z.to_nat (k + 1))) by lia.
    cbn [take]. change (sumZ (x :: ?t)) with (x + sumZ t).
    cbn [sumZ foldr]. fold (sumZ (take (Z.to_nat k) l)).
    fold (sumZ (take (Z.to_nat (k + 1)) l)). lia.
  - cbv zeta. split; [simpl length; lia|]. simpl. lia.
Qed.

Lemma PartitionFromPosition_repr_inside ls v :
  Forall (fun x => 0 <= line_span x) ls ->
  0 <= v < sumZ (map line_span ls) ->
  let d := Partitioning.PartitionFromPosition v (displayLines (repr ls)) in
  0 <= d < Z.of_nat (length ls)
  /\ sumZ (map line_span (take (Z.to_nat d) ls)) <= v
     < sumZ (map line_span (take (Z.to_nat (d + 1)) ls)).
Proof.
  intros Hpos Hv. unfold Partitioning.PartitionFromPosition.
  assert (Hlen : length (displayLines (repr ls)) = S (S (length ls))).
  { simpl. rewrite length_psums, length_app, length_map. simpl. lia. }
  assert (HP : Partitioning.Partitions (displayLines (repr ls))
               = Z.of_nat (length ls) + 1).
  { unfold Partitioning.Partitions. rewrite Hlen. lia. }
  rewrite Hlen, HP. case_if; [lia|].
  rewrite boundary_repr by lia. rewrite take_ge by lia.
  case_if; [lia|].
  change (displayLines (repr ls)) with (psums 0 (map line_span ls ++ [0; 0])).
  destruct (boundaries_upto_psums (map line_span ls) 0 v) as [Hd Hs].
  - by apply Forall_fmap in Hpos.
  - lia.
  - rewrite length_map in Hd. rewrite !firstn_map in Hs. split; [done | lia].
Qed.

Lemma PartitionFromPosition_repr_beyond ls v :
  sumZ (map line_span ls) <= v ->
  Partitioning.PartitionFromPosition v (displayLines (repr ls))
  = Z.of_nat (length ls).
Proof.
  intros Hv. unfold Partitioning.PartitionFromPosition.
  assert (Hlen : length (displayLines (repr ls)) = S (S (length ls))).
  { simpl. rewrite length_psums, length_app, length_map. simpl. lia. }
  assert (HP : Partitioning.Partitions (displayLines (repr ls))
               = Z.of_nat (length ls) + 1).
  { unfold Partitioning.Partitions. rewrite Hlen. lia. }
  rewrite Hlen, HP. case_if; [lia|].
  rewrite boundary_repr by lia. rewrite take_ge by lia.
  case_if; lia.
Qed.

(** * Properties claimed by the specification *)

(** C1, as stated, fails.  The public member functions take any line
    numbers, and a malformed edit leaves a state in which the rows are not
    conserved: deleting five lines from the one line of a new object
    leaves the counter at -4, which is what [LinesDisplayed()] returns,
    while there is no document line to sum over. *)
Lemma malformed_delete_breaks_row_count :
  LinesDisplayed (DeleteLines 0 5 ContractionState_new) = -4
  /\ LinesInDoc (DeleteLines 0 5 ContractionState_new) = -4
  /\ rows_of_document (DeleteLines 0 5 ContractionState_new) = 0.
Proof. by repeat split. Qed.

(** C1, amended.  In every state reached from a new object through public
    member functions called with line arguments inside the document
    ([reachable]: insertions at a position from 0 to [LinesInDoc()],
    deletions of lines that exist, [SetExpanded] and [SetFoldDisplayText]
    on a document line, [SetHeight] on a non-negative line number,
    [SetVisible], [ShowAll] and [Clear] with any arguments) the number of
    display rows [LinesDisplayed()] is the sum, over the document lines,
    of the height of each visible line (an invisible line counts for
    nothing); and for every document line [lineDoc] the difference
    [DisplayFromDoc(lineDoc + 1) - DisplayFromDoc(lineDoc)] is
    [GetHeight(lineDoc)] when [GetVisible(lineDoc)] and 0 otherwise.  As
    [reachable] is closed under these calls of [InsertLines],
    [DeleteLines], [SetVisible], [SetHeight], [SetExpanded],
    [SetFoldDisplayText] and [ShowAll], each of them preserves the
    property. *)
Theorem display_rows_conserved cs :
  reachable cs ->
  LinesDisplayed cs = rows_of_document cs
  /\ forall lineDoc, 0 <= lineDoc < LinesInDoc cs ->
       DisplayFromDoc (lineDoc + 1) cs - DisplayFromDoc lineDoc cs
       = if GetVisible lineDoc cs then GetHeight lineDoc cs else 0.
Proof.
  intros H. destruct (reachable_wf cs H) as [ls Hm]. split.
  - by rewrite (models_LinesDisplayed cs ls Hm), (models_rows_of_document cs ls Hm).
  - intros lineDoc Hl. by apply (models_span cs ls).
Qed.

(** The scenario of the specification, step by step. *)

Example scenario_lines_counts :
  LinesInDoc scenario_lines = 5 /\ OneToOne scenario_lines = true
  /\ LinesDisplayed scenario_lines = 5.
Proof. by repeat split. Qed.

Example scenario_SetVisible :
  SetVisible 1 2 false scenario_lines = Returns (true, scenario_folded).
Proof. reflexivity. Qed.

Example scenario_folded_counts :
  LinesInDoc scenario_folded = 5 /\ LinesDisplayed scenario_folded = 3
  /\ HiddenLines scenario_folded = true
  /\ DisplayFromDoc 3 scenario_folded = 1
  /\ DocFromDisplay 1 scenario_folded = 3.
Proof. by repeat split. Qed.

(** Closes [wf] on a projected state given by its lines. *)
Ltac wf_by_lines ls :=
  exists ls; apply (models_projected ls);
  repeat (apply Forall_cons_2 || apply Forall_nil_2);
  split; (by left) || (by right).

(** Closes [reachable scenario_folded]. *)
Ltac reach_scenario :=
  apply (reachable_SetVisible scenario_lines 1 2 false true);
  [ apply reachable_InsertLines;
      [apply reachable_new | unfold LinesInDoc; simpl; lia]
  | reflexivity ].

Lemma display_rows_conserved_witness :
  LinesDisplayed scenario_folded = rows_of_document scenario_folded
  /\ forall lineDoc, 0 <= lineDoc < LinesInDoc scenario_folded ->
       DisplayFromDoc (lineDoc + 1) scenario_folded
         - DisplayFromDoc lineDoc scenario_folded
       = if GetVisible lineDoc scenario_folded
         then GetHeight lineDoc scenario_folded else 0.
Proof. apply display_rows_conserved. reach_scenario. Defined.

(** C2, as stated, fails.  In a one-to-one state [DocFromDisplay] returns
    its argument unchanged, so [-1] is not mapped to line 0; and in the
    folded scenario, whose last display row (row 2) belongs to document
    line 4, a row past the end is mapped to [LinesInDoc() = 5], the index
    after the last document line. *)
Lemma DocFromDisplay_not_clamped_to_lines :
  DocFromDisplay (-1) ContractionState_new = -1
  /\ LinesDisplayed scenario_folded = 3
  /\ DisplayFromDoc 4 scenario_folded <= 2 < DisplayFromDoc 5 scenario_folded
  /\ DocFromDisplay 4 scenario_folded = 5.
Proof. by repeat split. Qed.

(** C2, amended.  In a one-to-one state [DocFromDisplay(lineDisplay)] is
    [lineDisplay] itself, for every argument.  In a projected state it is
    0 whenever [lineDisplay <= 0]; it is [LinesInDoc()], the index after
    the last document line, whenever [lineDisplay] is positive and at or
    past [LinesDisplayed()]; and for [0 < lineDisplay < LinesDisplayed()]
    it is the document line whose display span contains [lineDisplay],
    which is a visible line.  (Heights are taken non-negative, as the
    specification has them.) *)
Theorem DocFromDisplay_spec cs lineDisplay :
  wf cs ->
  (forall lineDoc, 0 <= lineDoc < LinesInDoc cs -> 0 <= GetHeight lineDoc cs) ->
  if OneToOne cs then DocFromDisplay lineDisplay cs = lineDisplay
  else
    (lineDisplay <= 0 -> DocFromDisplay lineDisplay cs = 0)
    /\ (0 < lineDisplay -> LinesDisplayed cs <= lineDisplay ->
        DocFromDisplay lineDisplay cs = LinesInDoc cs)
    /\ (0 < lineDisplay < LinesDisplayed cs ->
        0 <= DocFromDisplay lineDisplay cs < LinesInDoc cs
        /\ GetVisible (DocFromDisplay lineDisplay cs) cs = true
        /\ DisplayFromDoc (DocFromDisplay lineDisplay cs) cs <= lineDisplay
           < DisplayFromDoc (DocFromDisplay lineDisplay cs + 1) cs).
Proof.
  intros [ls Hm] Hh. destruct Hm as [n Hn|ls n Hok] eqn:Em; [reflexivity|].
  clear Em. set (cs := mkState (Some (repr ls)) n) in *.
  change (OneToOne cs) with false. cbv iota.
  assert (Hpos : Forall (fun x => 0 <= line_span x) ls).
  { apply Forall_lookup. intros i x Hx.
    rewrite <- (models_rows_of_line cs ls Hm (Z.of_nat i) x)
      by (rewrite ?Nat2Z.id; done || lia).
    unfold rows_of_line. destruct (GetVisible _ cs); [|lia].
    apply Hh. rewrite (models_LinesInDoc cs ls Hm).
    apply lookup_lt_Some in Hx. lia. }
  assert (HD : LinesDisplayed cs = sumZ (map line_span ls))
    by apply LinesDisplayed_repr.
  assert (HN : LinesInDoc cs = Z.of_nat (length ls)) by apply LinesInDoc_repr.
  unfold DocFromDisplay. cbn [data cs]. fold cs. rewrite HD, HN.
  split; [|split].
  - intros Hle. by case_if; [|lia].
  - intros H0 Hge. case_if; [lia|].
    case_if; by apply PartitionFromPosition_repr_beyond; lia.
  - intros Hv. do 2 (case_if; [lia|]).
    destruct (PartitionFromPosition_repr_inside ls lineDisplay Hpos) as [Hd Hs];
      [lia|].
    set (d := Partitioning.PartitionFromPosition lineDisplay
                (displayLines (repr ls))) in *.
    rewrite !(models_DisplayFromDoc cs ls Hm) by lia.
    split; [done|]. split; [|done].
    assert (Hspan := models_span cs ls d Hm).
    rewrite !(models_DisplayFromDoc cs ls Hm), HN in Hspan by lia.
    specialize (Hspan Hd). unfold rows_of_line in Hspan.
    destruct (GetVisible d cs); [done | lia].
Qed.

Lemma DocFromDisplay_spec_witness :
  (1 <= 0 -> DocFromDisplay 1 scenario_folded = 0)
  /\ (0 < 1 -> LinesDisplayed scenario_folded <= 1 ->
      DocFromDisplay 1 scenario_folded = LinesInDoc scenario_folded)
  /\ (0 < 1 < LinesDisplayed scenario_folded ->
      0 <= DocFromDisplay 1 scenario_folded < LinesInDoc scenario_folded
      /\ GetVisible (DocFromDisplay 1 scenario_folded) scenario_folded = true
      /\ DisplayFromDoc (DocFromDisplay 1 scenario_folded) scenario_folded <= 1
         < DisplayFromDoc (DocFromDisplay 1 scenario_folded + 1) scenario_folded).
Proof.
  apply (DocFromDisplay_spec scenario_folded 1).
  - wf_by_lines [mkLine 1 1 1 None; mkLine 0 1 1 None; mkLine 0 1 1 None;
                 mkLine 1 1 1 None; mkLine 1 1 1 None].
  - intros lineDoc H. change (LinesInDoc scenario_folded) with 5 in H.
    assert (E : lineDoc = 0 \/ lineDoc = 1 \/ lineDoc = 2 \/ lineDoc = 3
                \/ lineDoc = 4) by lia.
    destruct E as [->|[->|[->|[->| ->]]]]; vm_compute; discriminate.
Defined.

Lemma summed_row_delta_models cs ls lineDocStart lineDocEnd isVisible :
  models cs ls ->
  0 <= lineDocStart <= lineDocEnd -> lineDocEnd < LinesInDoc cs ->
  summed_row_delta cs lineDocStart lineDocEnd isVisible
  = sumZ (map (visible_delta isVisible)
              (take (Z.to_nat (lineDocEnd - lineDocStart + 1))
                    (drop (Z.to_nat lineDocStart) ls))).
Proof.
  intros Hm Hr Hend. rewrite (models_LinesInDoc cs ls Hm) in Hend.
  unfold summed_row_delta. f_equal.
  set (k := Z.to_nat (lineDocEnd - lineDocStart + 1)).
  set (l := take k (drop (Z.to_nat lineDocStart) ls)).
  assert (Hk : length l = k).
  { unfold l. rewrite length_take, length_drop. lia. }
  rewrite <- Hk. apply map_lines_from. intros i x Hi.
  unfold l in Hi. apply lookup_take_Some in Hi as [Hi _].
  rewrite lookup_drop in Hi.
  replace (Z.to_nat lineDocStart + i)%nat
    with (Z.to_nat (lineDocStart + Z.of_nat i)) in Hi by lia.
  unfold row_delta, visible_delta.
  rewrite (models_GetVisible cs ls Hm _ x) by (done || lia).
  by rewrite (models_GetHeight cs ls Hm _ x).
Qed.

(** The loop of [SetVisible] on any structures: the boolean only depends on
    what [GetVisible] and [GetHeight] answer before the call. *)

Lemma SetVisible_step_delta n isVisible line d delta :
  snd (SetVisible_step n isVisible line (d, delta))
  = delta + row_delta (mkState (Some d) n) isVisible line.
Proof.
  unfold SetVisible_step, row_delta, GetHeight. cbn [data].
  destruct (eqb (GetVisible line (mkState (Some d) n)) isVisible); simpl; lia.
Qed.

Lemma SetVisible_step_later n isVisible line d delta l :
  0 <= line < l ->
  row_delta (mkState (Some (fst (SetVisible_step n isVisible line (d, delta)))) n)
            isVisible l
  = row_delta (mkState (Some d) n) isVisible l.
Proof.
  intros H. unfold SetVisible_step.
  destruct (negb (eqb (GetVisible line (mkState (Some d) n)) isVisible));
    [|reflexivity].
  cbn [fst]. unfold row_delta, GetVisible, GetHeight, set_displayLines,
    set_visible, RunStyles.Length. cbn [data visible heights].
  assert (Hlen : length (RunStyles.SetValueAt line (if isVisible then 1 else 0)
                           (visible d)) = length (visible d)).
  { unfold RunStyles.SetValueAt. destruct (_ && _); [apply length_insert | done]. }
  rewrite Hlen. case_if; [reflexivity|].
  assert (Hv : RunStyles.ValueAt l
                 (RunStyles.SetValueAt line (if isVisible then 1 else 0)
                    (visible d))
               = RunStyles.ValueAt l (visible d)).
  { unfold RunStyles.ValueAt, RunStyles.SetValueAt.
    destruct (_ && _); [|done].
    rewrite list_lookup_insert_ne by lia.
    destruct (visible d !! Z.to_nat l) eqn:El; [done|].
    apply lookup_ge_None in El. lia. }
  by rewrite Hv.
Qed.

Lemma lines_from_ge k start l : In l (lines_from k start) -> start <= l.
Proof.
  revert start. induction k as [|k IH]; intros start; simpl; [done|].
  intros [<-|H]; [lia|]. apply IH in H. lia.
Qed.

Lemma SetVisible_from_delta k n isVisible line d delta :
  0 <= line ->
  snd (SetVisible_from k n isVisible line (d, delta))
  = delta + sumZ (map (row_delta (mkState (Some d) n) isVisible)
                      (lines_from k line)).
Proof.
  revert line d delta.
  induction k as [|k IH]; intros line d delta H0; cbn [SetVisible_from lines_from].
  - simpl. lia.
  - assert (Hd := SetVisible_step_delta n isVisible line d delta).
    assert (Hl := SetVisible_step_later n isVisible line d delta).
    destruct (SetVisible_step n isVisible line (d, delta)) as [d1 delta1].
    cbn [fst snd] in *. rewrite IH by lia. rewrite Hd.
    rewrite (map_ext_in _ (row_delta (mkState (Some d) n) isVisible)
               (lines_from k (line + 1))).
    + change (sumZ (map ?f (?a :: ?t))) with (f a + sumZ (map f t)). lia.
    + intros l Hin. apply lines_from_ge in Hin. apply Hl. lia.
Qed.

Lemma sumZ_zeros {A} (f : A -> Z) (l : list A) :
  (forall x, f x = 0) -> sumZ (map f l) = 0.
Proof.
  intros H. induction l as [|x l IH]; [done|].
  change (sumZ (map f (x :: l))) with (f x + sumZ (map f l)).
  rewrite H, IH. reflexivity.
Qed.

(** C3. For every call [SetVisible(start, end, isVisible)] with a valid
    range ([0 <= start <= end < LinesInDoc()]), in whatever state, the
    call returns, and the boolean it returns is true exactly when the sum
    over the range of the signed row deltas (plus the height of each line
    turned visible, minus the height of each line turned invisible) is not
    zero. *)
Theorem SetVisible_reports_summed_delta
    cs lineDocStart lineDocEnd isVisible :
  0 <= lineDocStart <= lineDocEnd -> lineDocEnd < LinesInDoc cs ->
  exists changed cs',
    SetVisible lineDocStart lineDocEnd isVisible cs = Returns (changed, cs')
    /\ (changed = true
        <-> summed_row_delta cs lineDocStart lineDocEnd isVisible <> 0).
Proof.
  intros Hr Hend. destruct cs as [[d|] n].
  - (* projected *)
    unfold SetVisible, EnsureData, deref. cbn [OneToOne data andb bind].
    do 3 (case_if; [|lia]). cbn [andb linesInDocument].
    assert (Hd := SetVisible_from_delta
                    (Z.to_nat (lineDocEnd - lineDocStart + 1)) n isVisible
                    lineDocStart d 0 ltac:(lia)).
    destruct (SetVisible_from _ n isVisible lineDocStart (d, 0)) as [d' delta].
    cbn [snd] in Hd. eexists _, _. split; [reflexivity|].
    unfold summed_row_delta. rewrite negb_true_iff, Z.eqb_neq, Hd. by rewrite Z.add_0_l.
  - (* one-to-one *)
    destruct isVisible.
    + exists false, (mkState None n). split; [reflexivity|].
      unfold summed_row_delta. rewrite sumZ_zeros by done.
      split; [discriminate | done].
    + unfold LinesInDoc in Hend. cbn [data linesInDocument] in Hend.
      assert (Hm : models (mkState None n)
                          (replicate (Z.to_nat n) default_line))
        by (constructor; lia).
      destruct (SetVisible_valid _ _ lineDocStart lineDocEnd false Hm Hr)
        as (cs' & E & _); [done|].
      rewrite (summed_row_delta_models _ _ _ _ _ Hm Hr) by done.
      eexists _, cs'. split; [exact E|].
      rewrite negb_true_iff. by rewrite Z.eqb_neq.
Qed.

Lemma SetVisible_reports_summed_delta_witness :
  exists changed cs',
    SetVisible 1 2 true scenario_folded = Returns (changed, cs')
    /\ (changed = true <-> summed_row_delta scenario_folded 1 2 true <> 0).
Proof.
  apply SetVisible_reports_summed_delta.
  - lia.
  - reflexivity.
Defined.

Lemma DocFromDisplay_all_default k n lineDisplay :
  0 <= lineDisplay <= Z.of_nat k ->
  DocFromDisplay lineDisplay
    (mkState (Some (repr (replicate k default_line))) n)
  = lineDisplay.
Proof.
  intros H. set (ls := replicate k default_line).
  assert (Hsum : forall j, sumZ (map line_span (take j ls))
                           = Z.of_nat (Nat.min j k)).
  { intros j. unfold ls. by rewrite take_replicate_min, sumZ_spans_default. }
  assert (Hall : sumZ (map line_span ls) = Z.of_nat k)
    by apply sumZ_spans_default.
  unfold DocFromDisplay. cbn [data]. rewrite LinesDisplayed_repr, Hall.
  case_if; [lia|]. case_if; [lia|].
  destruct (decide (lineDisplay = Z.of_nat k)) as [->|Hne].
  - rewrite PartitionFromPosition_repr_beyond by lia.
    unfold ls. by rewrite length_replicate.
  - destruct (PartitionFromPosition_repr_inside ls lineDisplay) as [Hd Hs].
    + apply Forall_replicate. by vm_compute.
    + lia.
    + unfold ls in Hd. rewrite length_replicate in Hd.
      rewrite !Hsum in Hs. lia.
Qed.

(** C4, as stated, fails.  Asking a one-to-one state to hide an invalid
    range returns false but allocates the structures, and a projected
    state answers [DocFromDisplay(-1)] with 0 where the one-to-one state
    answered -1. *)
Lemma SetVisible_invalid_range_observable :
  DocFromDisplay (-1) ContractionState_new = -1
  /\ exists cs',
       SetVisible 5 2 false ContractionState_new = Returns (false, cs')
       /\ DocFromDisplay (-1) cs' = 0.
Proof. split; [reflexivity|]. eexists. by split. Qed.

Lemma SetVisible_rejects_range_wf cs lineDocStart lineDocEnd isVisible :
  wf cs ->
  ~ (0 <= lineDocStart <= lineDocEnd /\ lineDocEnd < LinesInDoc cs) ->
  exists cs',
    SetVisible lineDocStart lineDocEnd isVisible cs = Returns (false, cs')
    /\ (OneToOne cs = false \/ isVisible = true -> cs' = cs)
    /\ LinesInDoc cs' = LinesInDoc cs
    /\ LinesDisplayed cs' = LinesDisplayed cs
    /\ (forall lineDoc, 0 <= lineDoc < LinesInDoc cs ->
          GetVisible lineDoc cs' = GetVisible lineDoc cs
          /\ GetExpanded lineDoc cs' = GetExpanded lineDoc cs
          /\ GetHeight lineDoc cs' = GetHeight lineDoc cs)
    /\ (forall lineDoc, 0 <= lineDoc ->
          DisplayFromDoc lineDoc cs' = DisplayFromDoc lineDoc cs)
    /\ (forall lineDisplay, 0 <= lineDisplay <= LinesDisplayed cs ->
          DocFromDisplay lineDisplay cs' = DocFromDisplay lineDisplay cs)
    /\ (forall lineDoc text,
          GetFoldDisplayText lineDoc cs = Returns text ->
          GetFoldDisplayText lineDoc cs' = Returns text)
    /\ OneToOne cs' = OneToOne cs && isVisible
    /\ (OneToOne cs = true -> isVisible = false ->
        cs' = EnsureData cs
        /\ GetFoldDisplayText 0 cs = NullDereference
        /\ forall lineDoc, 0 <= lineDoc < LinesInDoc cs ->
             GetFoldDisplayText lineDoc cs' = Returns None).
Proof.
  intros [ls Hm] Hr.
  rewrite (SetVisible_invalid cs ls _ _ _ Hm Hr).
  eexists. split; [reflexivity|].
  destruct (OneToOne cs) eqn:E1; destruct isVisible; cbn [andb];
    try (split; [done | by repeat (split || intro)]).
  - (* one-to-one, asked to hide: the structures are allocated *)
    split; [by intros [|]|].
    assert (Hm' := models_EnsureData cs ls Hm).
    set (cs' := EnsureData cs) in *.
    split; [by rewrite (models_LinesInDoc cs ls), (models_LinesInDoc cs' ls)|].
    split; [by rewrite (models_LinesDisplayed cs ls),
                 (models_LinesDisplayed cs' ls)|].
    split; [|split; [|split; [|split; [|split]]]].
    + intros lineDoc Hl. rewrite (models_LinesInDoc cs ls Hm) in Hl.
      destruct (lookup_lt_is_Some_2 ls (Z.to_nat lineDoc)) as [x Hx]; [lia|].
      rewrite (models_GetVisible cs ls Hm _ x), (models_GetVisible cs' ls Hm' _ x),
        (models_GetExpanded cs ls Hm _ x), (models_GetExpanded cs' ls Hm' _ x),
        (models_GetHeight cs ls Hm _ x), (models_GetHeight cs' ls Hm' _ x)
        by (done || lia).
      done.
    + intros lineDoc Hl.
      by rewrite (models_DisplayFromDoc cs ls Hm),
        (models_DisplayFromDoc cs' ls Hm') by done.
    + intros lineDisplay Hd. unfold cs'.
      rewrite (EnsureData_models cs ls Hm).
      destruct Hm as [n Hn|ls0 n Hok]; [|discriminate].
      unfold LinesDisplayed in Hd. cbn [data linesInDocument] in *.
      rewrite DocFromDisplay_all_default by lia. reflexivity.
    + intros lineDoc text Ht.
      destruct Hm as [n Hn|ls0 n Hok]; discriminate.
    + unfold cs'. by rewrite (EnsureData_models cs ls Hm).
    + intros _ _. split; [reflexivity|].
      destruct Hm as [n Hn|ls0 n Hok] eqn:Em; [|discriminate].
      split; [reflexivity|]. intros lineDoc Hl.
      unfold LinesInDoc in Hl. cbn [data linesInDocument] in Hl.
      unfold cs'.
      rewrite (EnsureData_models _ _ (models_one_to_one n Hn)).
      destruct (lookup_lt_is_Some_2 (replicate (Z.to_nat n) default_line)
                  (Z.to_nat lineDoc)) as [x Hx];
        [rewrite length_replicate; lia|].
      rewrite (GetFoldDisplayText_repr _ _ lineDoc x (proj1 Hl) Hx).
      by apply lookup_replicate_1 in Hx as [-> _].
  - (* projected: [EnsureData] does nothing *)
    unfold EnsureData. rewrite E1. split; [done | by repeat (split || intro)].
  - unfold EnsureData. rewrite E1. split; [done | by repeat (split || intro)].
Qed.

(** C4, amended.  In a state whose line count is not negative, a call
    [SetVisible(start, end, isVisible)] whose range is invalid returns
    false, and it changes nothing when the state is projected or
    [isVisible] is true.  On a one-to-one state with [isVisible] false it
    allocates the structures; then [LinesInDoc()] and [LinesDisplayed()]
    are unchanged, and so are [GetVisible], [GetExpanded], [GetHeight] on
    every document line, [DisplayFromDoc] on every non-negative line
    number and [DocFromDisplay] on every row number from 0 to
    [LinesDisplayed()]; whatever [GetFoldDisplayText] returned before the
    call it returns after it.  The state is one-to-one after the call
    exactly when it was one-to-one before it and [isVisible] is true: on
    a one-to-one state with [isVisible] false the state after the call is
    the one [EnsureData()] gives, it is projected, and
    [GetFoldDisplayText], which dereferenced a null pointer before the
    call, returns the null label for every document line. *)
Theorem SetVisible_invalid_range cs lineDocStart lineDocEnd isVisible :
  0 <= LinesInDoc cs ->
  ~ (0 <= lineDocStart <= lineDocEnd /\ lineDocEnd < LinesInDoc cs) ->
  exists cs',
    SetVisible lineDocStart lineDocEnd isVisible cs = Returns (false, cs')
    /\ (OneToOne cs = false \/ isVisible = true -> cs' = cs)
    /\ LinesInDoc cs' = LinesInDoc cs
    /\ LinesDisplayed cs' = LinesDisplayed cs
    /\ (forall lineDoc, 0 <= lineDoc < LinesInDoc cs ->
          GetVisible lineDoc cs' = GetVisible lineDoc cs
          /\ GetExpanded lineDoc cs' = GetExpanded lineDoc cs
          /\ GetHeight lineDoc cs' = GetHeight lineDoc cs)
    /\ (forall lineDoc, 0 <= lineDoc ->
          DisplayFromDoc lineDoc cs' = DisplayFromDoc lineDoc cs)
    /\ (forall lineDisplay, 0 <= lineDisplay <= LinesDisplayed cs ->
          DocFromDisplay lineDisplay cs' = DocFromDisplay lineDisplay cs)
    /\ (forall lineDoc text,
          GetFoldDisplayText lineDoc cs = Returns text ->
          GetFoldDisplayText lineDoc cs' = Returns text)
    /\ OneToOne cs' = OneToOne cs && isVisible
    /\ (OneToOne cs = true -> isVisible = false ->
        cs' = EnsureData cs
        /\ GetFoldDisplayText 0 cs = NullDereference
        /\ forall lineDoc, 0 <= lineDoc < LinesInDoc cs ->
             GetFoldDisplayText lineDoc cs' = Returns None).
Proof.
  intros Hn Hr. destruct cs as [[d|] n].
  - (* projected: the structures exist and the range test fails *)
    exists (mkState (Some d) n). split; [|by repeat (split || intro)].
    unfold SetVisible, EnsureData, deref. cbn [OneToOne data andb bind].
    repeat case_if; try reflexivity. lia.
  - apply SetVisible_rejects_range_wf; [|done].
    exists (replicate (Z.to_nat n) default_line). by constructor.
Qed.

Lemma SetVisible_invalid_range_witness :
  exists cs',
    SetVisible 3 9 false scenario_lines = Returns (false, cs')
    /\ (OneToOne scenario_lines = false \/ false = true -> cs' = scenario_lines)
    /\ LinesInDoc cs' = LinesInDoc scenario_lines
    /\ LinesDisplayed cs' = LinesDisplayed scenario_lines
    /\ (forall lineDoc, 0 <= lineDoc < LinesInDoc scenario_lines ->
          GetVisible lineDoc cs' = GetVisible lineDoc scenario_lines
          /\ GetExpanded lineDoc cs' = GetExpanded lineDoc scenario_lines
          /\ GetHeight lineDoc cs' = GetHeight lineDoc scenario_lines)
    /\ (forall lineDoc, 0 <= lineDoc ->
          DisplayFromDoc lineDoc cs' = DisplayFromDoc lineDoc scenario_lines)
    /\ (forall lineDisplay, 0 <= lineDisplay <= LinesDisplayed scenario_lines ->
          DocFromDisplay lineDisplay cs' = DocFromDisplay lineDisplay scenario_lines)
    /\ (forall lineDoc text,
          GetFoldDisplayText lineDoc scenario_lines = Returns text ->
          GetFoldDisplayText lineDoc cs' = Returns text)
    /\ OneToOne cs' = OneToOne scenario_lines && false
    /\ (OneToOne scenario_lines = true -> false = false ->
        cs' = EnsureData scenario_lines
        /\ GetFoldDisplayText 0 scenario_lines = NullDereference
        /\ forall lineDoc, 0 <= lineDoc < LinesInDoc scenario_lines ->
             GetFoldDisplayText lineDoc cs' = Returns None).
Proof.
  apply SetVisible_invalid_range;
    change (LinesInDoc scenario_lines) with 5; lia.
Defined.

Lemma sumZ_insert (l : list Z) (p : nat) y y' :
  l !! p = Some y -> sumZ (<[p := y']> l) = sumZ l + (y' - y).
Proof.
  intros Hy. apply lookup_lt_Some in Hy as Hlt.
  rewrite insert_take_drop by done.
  rewrite (split_at l p y Hy) at 3.
  rewrite !sumZ_app. change (sumZ (?a :: ?t)) with (a + sumZ t). lia.
Qed.

(** What [SetHeight] does on a line of the document, and past its end.
    (The part of C5 that the code meets.) *)
Lemma SetHeight_on_document_line cs lineDoc height :
  wf cs -> 0 <= lineDoc < LinesInDoc cs ->
  exists changed cs',
    SetHeight lineDoc height cs = Returns (changed, cs')
    /\ GetHeight lineDoc cs' = height
    /\ LinesDisplayed cs'
       = LinesDisplayed cs
         + (if GetVisible lineDoc cs then height - GetHeight lineDoc cs else 0)
    /\ (changed = true <-> height <> GetHeight lineDoc cs).
Proof.
  intros [ls Hm] Hl. rewrite (models_LinesInDoc cs ls Hm) in Hl.
  destruct (lookup_lt_is_Some_2 ls (Z.to_nat lineDoc)) as [x Hx]; [lia|].
  destruct (SetHeight_inside cs ls lineDoc height x Hm) as (cs' & E & Hm');
    [lia | done |].
  exists (negb (line_height x =? height)), cs'. split; [exact E|].
  rewrite (models_GetVisible cs ls Hm _ x), (models_GetHeight cs ls Hm _ x)
    by (done || lia).
  split; [|split].
  - rewrite (models_GetHeight cs' _ Hm' _ (with_height height x)); [done|].
    apply list_lookup_insert_eq. by apply lookup_lt_Some in Hx.
  - rewrite (models_LinesDisplayed cs' _ Hm'), (models_LinesDisplayed cs ls Hm).
    rewrite map_insert, (sumZ_insert _ _ (line_span x))
      by (by rewrite lookup_map, Hx).
    unfold line_span. simpl. destruct (line_visible x =? 1); lia.
  - rewrite negb_true_iff, Z.eqb_neq. split; intros H E'; by apply H.
Qed.

Lemma SetHeight_past_the_end cs lineDoc height :
  LinesInDoc cs <= lineDoc -> SetHeight lineDoc height cs = Returns (false, cs).
Proof.
  intros H. unfold SetHeight.
  destruct (OneToOne cs && (height =? 1)); [done|]. by case_cmp; [lia|].
Qed.

Lemma SetHeight_one_in_one_to_one cs lineDoc :
  OneToOne cs = true -> SetHeight lineDoc 1 cs = Returns (false, cs).
Proof. intros H. unfold SetHeight. by rewrite H. Qed.

(** C5, where the code departs from it.  [SetHeight] tests its line
    number against [LinesInDoc()] only, so a negative line number is not
    treated as out of range: on a new object [SetHeight(-1, 2)] allocates
    the structures, shifts every boundary of the partition index by one
    row and returns true, where the claim has a call with an out-of-range
    line be a no-op returning false. *)
Theorem SetHeight_negative_line :
  SetHeight (-1) 2 ContractionState_new
  = Returns (true, mkState (Some (mkData [1] [1] [1] [None] [1; 2; 2])) 1)
  /\ LinesDisplayed ContractionState_new = 1
  /\ LinesDisplayed (mkState (Some (mkData [1] [1] [1] [None] [1; 2; 2])) 1) = 2.
Proof. by repeat split. Qed.

Lemma insert_then_delete {A} (l : list A) (p k : nat) (x : A) :
  (p <= length l)%nat ->
  take p (take p l ++ replicate k x ++ drop p l)
    ++ drop (p + k) (take p l ++ replicate k x ++ drop p l) = l.
Proof.
  intros H.
  rewrite take_app_length' by (rewrite length_take; lia).
  rewrite app_assoc.
  rewrite drop_app_length'
    by (rewrite length_app, length_take, length_replicate; lia).
  apply take_drop.
Qed.

Lemma InsertLines_then_DeleteLines cs lineDoc lineCount :
  wf cs -> 0 <= lineCount -> 0 <= lineDoc <= LinesInDoc cs ->
  DeleteLines lineDoc lineCount (InsertLines lineDoc lineCount cs) = cs.
Proof.
  intros [ls Hm] Hk Hp. rewrite (models_LinesInDoc cs ls Hm) in Hp.
  destruct Hm as [n Hn|ls n Hok].
  - unfold InsertLines, DeleteLines.
    rewrite InsertLines_from_one_to_one, DeleteLines_from_one_to_one.
    f_equal. lia.
  - rewrite InsertLines_repr by done.
    rewrite DeleteLines_repr
      by (rewrite ?length_app, ?length_take, ?length_replicate, ?length_drop; lia).
    replace (Z.to_nat (lineDoc + lineCount))
      with (Z.to_nat lineDoc + Z.to_nat lineCount)%nat by lia.
    by rewrite insert_then_delete by lia.
Qed.

(** C6. For every [k >= 0] and every valid position [p] (from 0 to
    [LinesInDoc()], the end included), [InsertLines(p, k)] followed by
    [DeleteLines(p, k)] gives back the state the pair started from, and
    with it [LinesInDoc()], [LinesDisplayed()] and the visibility,
    expansion, height and fold label of every line. *)
Theorem InsertLines_DeleteLines_inverse cs p k :
  wf cs -> 0 <= k -> 0 <= p <= LinesInDoc cs ->
  let cs' := DeleteLines p k (InsertLines p k cs) in
  cs' = cs
  /\ LinesInDoc cs' = LinesInDoc cs
  /\ LinesDisplayed cs' = LinesDisplayed cs
  /\ forall lineDoc,
       GetVisible lineDoc cs' = GetVisible lineDoc cs
       /\ GetExpanded lineDoc cs' = GetExpanded lineDoc cs
       /\ GetHeight lineDoc cs' = GetHeight lineDoc cs
       /\ GetFoldDisplayText lineDoc cs' = GetFoldDisplayText lineDoc cs.
Proof.
  intros Hwf Hk Hp cs'. unfold cs'.
  rewrite (InsertLines_then_DeleteLines cs p k Hwf Hk Hp). by repeat split.
Qed.

Lemma InsertLines_DeleteLines_inverse_witness :
  let cs' := DeleteLines 2 3 (InsertLines 2 3 scenario_folded) in
  cs' = scenario_folded
  /\ LinesInDoc cs' = LinesInDoc scenario_folded
  /\ LinesDisplayed cs' = LinesDisplayed scenario_folded
  /\ forall lineDoc,
       GetVisible lineDoc cs' = GetVisible lineDoc scenario_folded
       /\ GetExpanded lineDoc cs' = GetExpanded lineDoc scenario_folded
       /\ GetHeight lineDoc cs' = GetHeight lineDoc scenario_folded
       /\ GetFoldDisplayText lineDoc cs'
          = GetFoldDisplayText lineDoc scenario_folded.
Proof.
  apply InsertLines_DeleteLines_inverse.
  - wf_by_lines [mkLine 1 1 1 None; mkLine 0 1 1 None; mkLine 0 1 1 None;
                 mkLine 1 1 1 None; mkLine 1 1 1 None].
  - lia.
  - change (LinesInDoc scenario_folded) with 5. lia.
Defined.

(** What [ShowAll] does establish.  (The part of C7 that the code
    meets.) *)
Lemma ShowAll_resets cs :
  LinesInDoc (ShowAll cs) = LinesInDoc cs
  /\ OneToOne (ShowAll cs) = true
  /\ LinesDisplayed (ShowAll cs) = LinesInDoc (ShowAll cs)
  /\ HiddenLines (ShowAll cs) = false
  /\ (forall lineDoc,
        GetVisible lineDoc (ShowAll cs) = true
        /\ GetExpanded lineDoc (ShowAll cs) = true
        /\ GetHeight lineDoc (ShowAll cs) = 1
        /\ GetFoldDisplayTextShown lineDoc (ShowAll cs) = Returns false)
  /\ ShowAll (ShowAll cs) = ShowAll cs.
Proof. by repeat split. Qed.

(** C7, where the code departs from it.  After [ShowAll()] the five
    structures are gone, and [GetFoldDisplayText], unlike [GetVisible],
    [GetExpanded] and [GetHeight], does not test [OneToOne()] before it
    uses them: instead of returning "none" for every line it dereferences
    the null [foldDisplayTexts]. *)
Theorem GetFoldDisplayText_after_ShowAll cs lineDoc :
  GetFoldDisplayText lineDoc (ShowAll cs) = NullDereference.
Proof. reflexivity. Qed.

(** ** Fold labels *)

Example empty_label_contracted_reached :
  (let* r1 := SetFoldDisplayText 0 (Some ""%string) ContractionState_new in
   SetExpanded 0 false (snd r1))
  = Returns (true, empty_label_contracted).
Proof. reflexivity. Qed.

(** C8, as stated, fails.  The label of line 0 is the empty string and the
    line is not expanded, yet [GetFoldDisplayTextShown(0)] is true: the
    code tests that a label is stored, not that it is non-empty. *)
Lemma empty_label_is_shown :
  GetExpanded 0 empty_label_contracted = false
  /\ GetFoldDisplayText 0 empty_label_contracted = Returns (Some ""%string)
  /\ GetFoldDisplayTextShown 0 empty_label_contracted = Returns true.
Proof. by repeat split. Qed.

(** C8, amended.  [GetFoldDisplayTextShown(docLine)] returns, and it
    returns true exactly when the line is not expanded and a label is
    stored for it (a non-null text, which may be the empty string); and
    setting a document line expanded makes it return false and leaves
    what [GetFoldDisplayText] returns for the line as it was. *)
Theorem GetFoldDisplayTextShown_spec cs docLine :
  (exists shown,
     GetFoldDisplayTextShown docLine cs = Returns shown
     /\ (shown = true
         <-> GetExpanded docLine cs = false
             /\ exists text,
                  GetFoldDisplayText docLine cs = Returns (Some text)))
  /\ (wf cs -> 0 <= docLine < LinesInDoc cs ->
      exists changed cs',
        SetExpanded docLine true cs = Returns (changed, cs')
        /\ GetFoldDisplayTextShown docLine cs' = Returns false
        /\ GetFoldDisplayText docLine cs' = GetFoldDisplayText docLine cs).
Proof.
  split.
  - unfold GetFoldDisplayTextShown, GetFoldDisplayText, GetExpanded, deref.
    destruct (data cs) as [d|]; simpl.
    + destruct (RunStyles.ValueAt docLine (expanded d) =? 1); simpl.
      * exists false. split; [done|]. split; [done | by intros [? _]].
      * destruct (SparseVector.ValueAt docLine (foldDisplayTexts d)) as [t|].
        -- exists true. split; [done|]. split; [|done]. by eauto.
        -- exists false. split; [done|]. split; [done|].
           by intros [_ [t Ht]].
    + exists false. split; [done|]. split; [done | by intros [? _]].
  - intros [ls Hm] Hl. rewrite (models_LinesInDoc cs ls Hm) in Hl.
    destruct (lookup_lt_is_Some_2 ls (Z.to_nat docLine)) as [x Hx]; [lia|].
    destruct (OneToOne cs) eqn:E1.
    + exists false, cs. unfold SetExpanded, GetFoldDisplayTextShown, GetExpanded.
      rewrite E1. unfold OneToOne in E1.
      by destruct (data cs); [discriminate|].
    + rewrite (SetExpanded_projected cs ls docLine true x Hm ltac:(lia) Hx
                 ltac:(by rewrite E1)).
      assert (Hx' : <[Z.to_nat docLine := with_expanded true x]> ls
                      !! Z.to_nat docLine = Some (with_expanded true x)).
      { apply list_lookup_insert_eq. by apply lookup_lt_Some in Hx. }
      eexists _, _. split; [reflexivity|]. split.
      * unfold GetFoldDisplayTextShown.
        by rewrite (GetExpanded_repr _ _ docLine _ Hx').
      * rewrite (GetFoldDisplayText_repr _ _ docLine _ ltac:(lia) Hx').
        destruct Hm as [n Hn|ls n Hok]; [discriminate|].
        by rewrite (GetFoldDisplayText_repr ls n docLine x) by (done || lia).
Qed.

Lemma GetFoldDisplayTextShown_spec_witness :
  (exists shown,
     GetFoldDisplayTextShown 0 empty_label_contracted = Returns shown
     /\ (shown = true
         <-> GetExpanded 0 empty_label_contracted = false
             /\ exists text,
                  GetFoldDisplayText 0 empty_label_contracted
                  = Returns (Some text)))
  /\ (exists changed cs',
        SetExpanded 0 true empty_label_contracted = Returns (changed, cs')
        /\ GetFoldDisplayTextShown 0 cs' = Returns false
        /\ GetFoldDisplayText 0 cs'
           = GetFoldDisplayText 0 empty_label_contracted).
Proof.
  destruct (GetFoldDisplayTextShown_spec empty_label_contracted 0)
    as [Hshown Hexpand].
  split; [exact Hshown|]. apply Hexpand.
  - wf_by_lines [mkLine 1 0 1 (Some ""%string)].
  - change (LinesInDoc empty_label_contracted) with 1. lia.
Defined.

(** C9, as stated, fails.  With no label stored and a null text, nothing
    differs and yet the call returns true; and a stored empty label is
    compared like any other text, so storing the empty text over it
    returns false: only an absent label counts as "no previous text". *)
Lemma SetFoldDisplayText_result_is_not_a_difference :
  (GetFoldDisplayText 0 (EnsureData ContractionState_new) = Returns None
   /\ exists cs',
        SetFoldDisplayText 0 None ContractionState_new = Returns (true, cs')
        /\ GetFoldDisplayText 0 cs' = Returns None)
  /\ (GetFoldDisplayText 0 empty_label_contracted = Returns (Some ""%string)
      /\ SetFoldDisplayText 0 (Some ""%string) empty_label_contracted
         = Returns (false, empty_label_contracted)).
Proof. split; [split; [reflexivity | eexists; by split] | by split]. Qed.

(** C9, amended.  For every document line [docLine] and every [text],
    [SetFoldDisplayText(docLine, text)] returns and stores a copy of
    [text] as the label of the line (a following [GetFoldDisplayText]
    returns it), and the boolean it returns is true exactly when no label
    was stored for the line before, or [text] is null, or [text] differs
    byte for byte from the label stored before; an empty label stored
    before is compared like any other. *)
Theorem SetFoldDisplayText_spec cs docLine text :
  wf cs -> 0 <= docLine < LinesInDoc cs ->
  exists previous changed cs',
    GetFoldDisplayText docLine (EnsureData cs) = Returns previous
    /\ SetFoldDisplayText docLine text cs = Returns (changed, cs')
    /\ GetFoldDisplayText docLine cs' = Returns text
    /\ (changed = true
        <-> previous = None \/ text = None \/ text <> previous).
Proof.
  intros [ls Hm] Hl. rewrite (models_LinesInDoc cs ls Hm) in Hl.
  destruct (lookup_lt_is_Some_2 ls (Z.to_nat docLine)) as [x Hx]; [lia|].
  exists (line_text x). eexists _, _.
  rewrite (EnsureData_models cs ls Hm).
  rewrite (GetFoldDisplayText_repr ls _ docLine x) by (done || lia).
  rewrite (SetFoldDisplayText_projected cs ls docLine text x Hm) by (done || lia).
  split; [reflexivity|]. split; [reflexivity|]. split.
  - rewrite (GetFoldDisplayText_repr _ _ docLine (with_text text x));
      [done | lia |].
    apply list_lookup_insert_eq. by apply lookup_lt_Some in Hx.
  - destruct (line_text x) as [prev|], text as [t|]; simpl.
    + unfold strcmp_ne. rewrite negb_true_iff, String.eqb_neq.
      split; [intros H; right; right; congruence|].
      intros [H|[H|H]]; congruence.
    + split; [by eauto | done].
    + split; [by eauto | done].
    + split; [by eauto | done].
Qed.

Lemma SetFoldDisplayText_spec_witness :
  exists previous changed cs',
    GetFoldDisplayText 0 (EnsureData empty_label_contracted) = Returns previous
    /\ SetFoldDisplayText 0 (Some "..."%string) empty_label_contracted
       = Returns (changed, cs')
    /\ GetFoldDisplayText 0 cs' = Returns (Some "..."%string)
    /\ (changed = true
        <-> previous = None \/ Some "..."%string = None
            \/ Some "..."%string <> previous).
Proof.
  apply SetFoldDisplayText_spec.
  - wf_by_lines [mkLine 1 0 1 (Some ""%string)].
  - change (LinesInDoc empty_label_contracted) with 1. lia.
Defined.

(** ** The next contracted line *)

Lemma run_length_spec v (l : list Z) :
  (RunStyles.run_length v l <= length l)%nat
  /\ (forall i, (i < RunStyles.run_length v l)%nat -> l !! i = Some v)
  /\ (forall x, l !! RunStyles.run_length v l = Some x -> x <> v).
Proof.
  induction l as [|y l (IH1 & IH2 & IH3)]; simpl.
  - repeat split; [lia | intros; lia | done].
  - destruct (Z.eqb_spec y v) as [->|Hne]; simpl.
    + repeat split; [lia | | exact IH3].
      intros [|i] Hi; simpl; [done | apply IH2; lia].
    + repeat split; [lia | intros; lia | by intros x [= <-]].
Qed.

Example third_line_contracted_reached :
  SetExpanded 2 false (InsertLines 0 2 ContractionState_new)
  = Returns (true, third_line_contracted).
Proof. reflexivity. Qed.

(** C10. [ContractedNext(lineDocStart)] is -1 in a one-to-one state,
    whatever the argument.  In a projected state, for a document line
    [lineDocStart]: it is [lineDocStart] itself when that line is not
    expanded; otherwise it is the first later document line that is not
    expanded (every line from [lineDocStart] up to it being expanded), and
    -1 when every line from [lineDocStart] to the end of the document is
    expanded. *)
Theorem ContractedNext_spec cs lineDocStart :
  wf cs ->
  (OneToOne cs = false -> 0 <= lineDocStart < LinesInDoc cs) ->
  if OneToOne cs then ContractedNext lineDocStart cs = -1
  else if negb (GetExpanded lineDocStart cs)
  then ContractedNext lineDocStart cs = lineDocStart
  else
    (lineDocStart < ContractedNext lineDocStart cs < LinesInDoc cs
     /\ GetExpanded (ContractedNext lineDocStart cs) cs = false
     /\ forall lineDoc,
          lineDocStart <= lineDoc < ContractedNext lineDocStart cs ->
          GetExpanded lineDoc cs = true)
    \/ (ContractedNext lineDocStart cs = -1
        /\ forall lineDoc,
             lineDocStart <= lineDoc < LinesInDoc cs ->
             GetExpanded lineDoc cs = true).
Proof.
  intros [ls Hm] Hl. destruct Hm as [n Hn|ls n Hok] eqn:Em; [reflexivity|].
  clear Em. set (cs := mkState (Some (repr ls)) n) in *.
  change (OneToOne cs) with false in *. cbv iota. specialize (Hl eq_refl).
  assert (HN : LinesInDoc cs = Z.of_nat (length ls)) by apply LinesInDoc_repr.
  rewrite HN in *.
  set (p := Z.to_nat lineDocStart).
  destruct (lookup_lt_is_Some_2 ls p) as [x Hx]; [lia|].
  assert (Hxok := proj1 (Forall_lookup _ ls) Hok p x Hx).
  assert (HE : forall lineDoc y, ls !! Z.to_nat lineDoc = Some y ->
                 GetExpanded lineDoc cs = (line_expanded y =? 1))
    by (intros; by apply GetExpanded_repr).
  rewrite (HE lineDocStart x Hx).
  unfold ContractedNext. cbn [data cs]. fold cs. rewrite HN.
  change (expanded (repr ls)) with (map line_expanded ls).
  rewrite (RunStyles_ValueAt_map line_expanded ls lineDocStart x Hx).
  destruct Hxok as [_ [He|He]]; rewrite He; simpl; [reflexivity|].
  unfold RunStyles.EndRun.
  rewrite (RunStyles_ValueAt_map line_expanded ls lineDocStart x Hx), He.
  rewrite length_map. fold p.
  replace (Nat.min p (length ls)) with p by lia.
  destruct (run_length_spec 1 (drop p (map line_expanded ls)))
    as (Hlen & Hrun & Hend).
  set (k := RunStyles.run_length 1 (drop p (map line_expanded ls))) in *.
  rewrite length_drop, length_map in Hlen.
  assert (Hk : (0 < k)%nat).
  { destruct k; [|lia]. exfalso. apply (Hend 1); [|done].
    by rewrite lookup_drop, Nat.add_0_r, lookup_map, Hx, <- He. }
  assert (Hbefore : forall lineDoc,
            lineDocStart <= lineDoc < Z.of_nat (p + k) ->
            GetExpanded lineDoc cs = true).
  { intros lineDoc Hd.
    specialize (Hrun (Z.to_nat lineDoc - p)%nat ltac:(lia)).
    rewrite lookup_drop, lookup_map in Hrun.
    replace (p + (Z.to_nat lineDoc - p))%nat with (Z.to_nat lineDoc) in Hrun
      by lia.
    destruct (ls !! Z.to_nat lineDoc) as [y|] eqn:Hy; [|done].
    injection Hrun as Hrun. by rewrite (HE lineDoc y Hy), Hrun. }
  case_if.
  - left. split; [lia|]. split; [|exact Hbefore].
    destruct (lookup_lt_is_Some_2 ls (p + k)) as [y Hy]; [lia|].
    rewrite (HE (Z.of_nat (p + k)) y) by (by rewrite Nat2Z.id).
    apply Z.eqb_neq. apply Hend.
    by rewrite lookup_drop, lookup_map, Hy.
  - right. split; [done|]. intros lineDoc Hd. apply Hbefore. lia.
Qed.

Lemma ContractedNext_spec_witness :
  (
     0 < ContractedNext 0 third_line_contracted
       < LinesInDoc third_line_contracted
     /\ GetExpanded (ContractedNext 0 third_line_contracted)
          third_line_contracted = false
     /\ forall lineDoc,
          0 <= lineDoc < ContractedNext 0 third_line_contracted ->
          GetExpanded lineDoc third_line_contracted = true)
  \/ (ContractedNext 0 third_line_contracted = -1
      /\ forall lineDoc,
           0 <= lineDoc < LinesInDoc third_line_contracted ->
           GetExpanded lineDoc third_line_contracted = true).
Proof.
  apply (ContractedNext_spec third_line_contracted 0).
  - wf_by_lines [mkLine 1 1 1 None; mkLine 1 1 1 None; mkLine 1 0 1 None].
  - intros _. change (LinesInDoc third_line_contracted) with 3. lia.
Defined.

Example ContractedNext_examples :
  ContractedNext 0 third_line_contracted = 2
  /\ ContractedNext 2 third_line_contracted = 2
  /\ ContractedNext 0 scenario_folded = -1
  /\ ContractedNext 7 scenario_lines = -1.
Proof. by repeat split. Qed.

(** * Further properties of the code *)

(** ** Showing and hiding ranges of lines *)

Lemma lookup_show_lines k isVisible start ls (i : nat) :
  show_lines k isVisible start ls !! i
  = if decide (start <= i < start + k)%nat
    then with_visible isVisible <$> ls !! i
    else ls !! i.
Proof.
  revert start ls. induction k as [|k IH]; intros start ls; simpl.
  - by case_decide; [lia|].
  - rewrite IH.
    destruct (decide (i = start)) as [->|Hne].
    + rewrite list_lookup_alter_eq. repeat case_decide; (done || lia).
    + rewrite list_lookup_alter_ne by done. repeat case_decide; (done || lia).
Qed.

Lemma line_span_with_visible isVisible x :
  line_span (with_visible isVisible x)
  = line_span x + visible_delta isVisible x.
Proof.
  unfold with_visible, visible_delta, line_span.
  destruct isVisible, (line_visible x =? 1) eqn:E; simpl; rewrite ?E; lia.
Qed.

Lemma sumZ_spans_show_lines k isVisible (start : nat) ls :
  (start + k <= length ls)%nat ->
  sumZ (map line_span (show_lines k isVisible start ls))
  = sumZ (map line_span ls)
    + sumZ (map (visible_delta isVisible) (take k (drop start ls))).
Proof.
  revert start ls. induction k as [|k IH]; intros start ls Hlen.
  - simpl. lia.
  - cbn [show_lines].
    destruct (lookup_lt_is_Some_2 ls start) as [x Hx]; [lia|].
    rewrite IH by (rewrite length_alter; lia).
    rewrite (alter_as_insert _ ls _ x Hx), drop_insert_lt by lia.
    rewrite map_insert, (sumZ_insert _ _ (line_span x))
      by (by rewrite lookup_map, Hx).
    rewrite (drop_S ls x _ Hx). cbn [take map].
    change (sumZ (?a :: ?t)) with (a + sumZ t).
    rewrite line_span_with_visible. lia.
Qed.

Lemma SetVisible_projected cs ls lineDocStart lineDocEnd isVisible :
  models cs ls ->
  0 <= lineDocStart <= lineDocEnd -> lineDocEnd < LinesInDoc cs ->
  OneToOne cs && isVisible = false ->
  SetVisible lineDocStart lineDocEnd isVisible cs
  = Returns
      (negb (sumZ (map (visible_delta isVisible)
                       (take (Z.to_nat (lineDocEnd - lineDocStart + 1))
                             (drop (Z.to_nat lineDocStart) ls))) =? 0),
       mkState
         (Some (repr (show_lines (Z.to_nat (lineDocEnd - lineDocStart + 1))
                                 isVisible (Z.to_nat lineDocStart) ls)))
         (linesInDocument cs)).
Proof.
  intros Hm Hr Hend E. rewrite (models_LinesInDoc cs ls Hm) in Hend.
  unfold SetVisible. rewrite E.
  rewrite (EnsureData_models cs ls Hm). unfold deref. cbn [data bind].
  rewrite LinesInDoc_repr.
  do 3 (case_cmp; [|lia]).
  by rewrite SetVisible_from_repr by lia.
Qed.

(** X1.  What a valid [SetVisible] does: the lines of the range end up as asked,
    the other lines, the expansion flags, the heights and the number of
    lines are as before, and the number of display rows moves by the
    summed row delta. *)
Theorem SetVisible_effect cs lineDocStart lineDocEnd isVisible :
  wf cs ->
  0 <= lineDocStart <= lineDocEnd -> lineDocEnd < LinesInDoc cs ->
  exists changed cs',
    SetVisible lineDocStart lineDocEnd isVisible cs = Returns (changed, cs')
    /\ LinesInDoc cs' = LinesInDoc cs
    /\ LinesDisplayed cs'
       = LinesDisplayed cs
         + summed_row_delta cs lineDocStart lineDocEnd isVisible
    /\ forall lineDoc, 0 <= lineDoc < LinesInDoc cs ->
         GetVisible lineDoc cs'
         = (if (lineDocStart <=? lineDoc) && (lineDoc <=? lineDocEnd)
            then isVisible else GetVisible lineDoc cs)
         /\ GetExpanded lineDoc cs' = GetExpanded lineDoc cs
         /\ GetHeight lineDoc cs' = GetHeight lineDoc cs.
Proof.
  intros [ls Hm] Hr Hend.
  destruct (SetVisible_valid cs ls lineDocStart lineDocEnd isVisible Hm Hr Hend)
    as (cs' & E & Hm').
  rewrite (summed_row_delta_models cs ls _ _ _ Hm Hr Hend).
  rewrite (models_LinesInDoc cs ls Hm) in *.
  set (k := Z.to_nat (lineDocEnd - lineDocStart + 1)) in *.
  set (s := Z.to_nat lineDocStart) in *.
  eexists _, cs'. split; [exact E|]. split; [|split].
  - by rewrite (models_LinesInDoc cs' _ Hm'), length_show_lines.
  - rewrite (models_LinesDisplayed cs' _ Hm'), (models_LinesDisplayed cs ls Hm).
    apply sumZ_spans_show_lines. lia.
  - intros lineDoc Hl.
    destruct (lookup_lt_is_Some_2 ls (Z.to_nat lineDoc)) as [x Hx]; [lia|].
    assert (Hx' : show_lines k isVisible s ls !! Z.to_nat lineDoc
                  = Some (if (lineDocStart <=? lineDoc) && (lineDoc <=? lineDocEnd)
                          then with_visible isVisible x else x)).
    { rewrite lookup_show_lines, Hx.
      unfold s, k. case_decide; do 2 case_if; cbn [andb]; (done || lia). }
    rewrite (models_GetVisible cs' _ Hm' _ _ (proj1 Hl) Hx'),
      (models_GetExpanded cs' _ Hm' _ _ Hx'),
      (models_GetHeight cs' _ Hm' _ _ Hx'),
      (models_GetVisible cs ls Hm _ x (proj1 Hl) Hx),
      (models_GetExpanded cs ls Hm _ x Hx),
      (models_GetHeight cs ls Hm _ x Hx).
    destruct ((lineDocStart <=? lineDoc) && (lineDoc <=? lineDocEnd));
      [|done].
    unfold with_visible.
    destruct (eqb (line_visible x =? 1) isVisible) eqn:Ev.
    + apply eqb_prop in Ev. by rewrite Ev.
    + by destruct isVisible.
Qed.

Lemma SetVisible_effect_witness :
  exists changed cs',
    SetVisible 1 3 true scenario_folded = Returns (changed, cs')
    /\ LinesInDoc cs' = LinesInDoc scenario_folded
    /\ LinesDisplayed cs'
       = LinesDisplayed scenario_folded
         + summed_row_delta scenario_folded 1 3 true
    /\ forall lineDoc, 0 <= lineDoc < LinesInDoc scenario_folded ->
         GetVisible lineDoc cs'
         = (if (1 <=? lineDoc) && (lineDoc <=? 3)
            then true else GetVisible lineDoc scenario_folded)
         /\ GetExpanded lineDoc cs' = GetExpanded lineDoc scenario_folded
         /\ GetHeight lineDoc cs' = GetHeight lineDoc scenario_folded.
Proof.
  apply SetVisible_effect.
  - wf_by_lines [mkLine 1 1 1 None; mkLine 0 1 1 None; mkLine 0 1 1 None;
                 mkLine 1 1 1 None; mkLine 1 1 1 None].
  - lia.
  - reflexivity.
Defined.

Lemma with_visible_twice isVisible x :
  with_visible isVisible (with_visible isVisible x) = with_visible isVisible x.
Proof.
  unfold with_visible.
  destruct (eqb (line_visible x =? 1) isVisible) eqn:E; [by rewrite E|].
  by destruct isVisible.
Qed.

Lemma visible_delta_with_visible isVisible x :
  visible_delta isVisible (with_visible isVisible x) = 0.
Proof.
  unfold visible_delta, with_visible.
  destruct (eqb (line_visible x =? 1) isVisible) eqn:E; [by rewrite E|].
  by destruct isVisible.
Qed.

Lemma show_lines_twice k isVisible start ls :
  show_lines k isVisible start (show_lines k isVisible start ls)
  = show_lines k isVisible start ls.
Proof.
  apply list_eq. intros i. rewrite !lookup_show_lines.
  case_decide; [|done].
  destruct (ls !! i) as [x|]; [|done]. simpl. by rewrite with_visible_twice.
Qed.

Lemma sumZ_zeros_on {A} (f : A -> Z) (l : list A) :
  Forall (fun x => f x = 0) l -> sumZ (map f l) = 0.
Proof.
  induction 1 as [|x l Hx _ IH]; [done|].
  change (sumZ (map f (x :: l))) with (f x + sumZ (map f l)). lia.
Qed.

Lemma shown_range_has_no_delta k isVisible start ls :
  sumZ (map (visible_delta isVisible)
            (take k (drop start (show_lines k isVisible start ls)))) = 0.
Proof.
  apply sumZ_zeros_on, Forall_lookup. intros i y Hy.
  apply lookup_take_Some in Hy as [Hy Hi].
  rewrite lookup_drop, lookup_show_lines in Hy.
  case_decide; [|lia].
  destruct (ls !! (start + i)%nat) as [x|]; [|done].
  injection Hy as <-. apply visible_delta_with_visible.
Qed.

(** X2.  Asking twice for the same visibility of the same valid range: the
    second call finds nothing to do, returns false and leaves the state as
    the first call left it. *)
Theorem SetVisible_twice cs lineDocStart lineDocEnd isVisible :
  wf cs ->
  0 <= lineDocStart <= lineDocEnd -> lineDocEnd < LinesInDoc cs ->
  exists changed cs',
    SetVisible lineDocStart lineDocEnd isVisible cs = Returns (changed, cs')
    /\ SetVisible lineDocStart lineDocEnd isVisible cs' = Returns (false, cs').
Proof.
  intros [ls Hm] Hr Hend.
  destruct (OneToOne cs && isVisible) eqn:E.
  - exists false, cs. unfold SetVisible. by rewrite E.
  - rewrite (SetVisible_projected cs ls _ _ _ Hm Hr Hend E).
    set (k := Z.to_nat (lineDocEnd - lineDocStart + 1)).
    set (s := Z.to_nat lineDocStart).
    set (cs' := mkState (Some (repr (show_lines k isVisible s ls)))
                        (linesInDocument cs)).
    assert (Hm' : models cs' (show_lines k isVisible s ls)).
    { constructor. apply Forall_show_lines. by eapply models_line_ok. }
    eexists _, cs'. split; [reflexivity|].
    rewrite (SetVisible_projected cs' _ _ _ _ Hm' Hr); [| |done].
    + fold k s. by rewrite shown_range_has_no_delta, show_lines_twice.
    + rewrite (models_LinesInDoc cs' _ Hm'), length_show_lines.
      by rewrite <- (models_LinesInDoc cs ls Hm).
Qed.

Lemma SetVisible_twice_witness :
  exists changed cs',
    SetVisible 0 3 false scenario_folded = Returns (changed, cs')
    /\ SetVisible 0 3 false cs' = Returns (false, cs').
Proof.
  apply SetVisible_twice.
  - wf_by_lines [mkLine 1 1 1 None; mkLine 0 1 1 None; mkLine 0 1 1 None;
                 mkLine 1 1 1 None; mkLine 1 1 1 None].
  - lia.
  - reflexivity.
Defined.

Lemma show_hidden_lines k start ls :
  (forall (i : nat) x, (start <= i < start + k)%nat -> ls !! i = Some x ->
                       line_visible x = 1) ->
  show_lines k true start (show_lines k false start ls) = ls.
Proof.
  intros Hvis. apply list_eq. intros i. rewrite !lookup_show_lines.
  case_decide as Hi; [|done].
  destruct (ls !! i) as [x|] eqn:Hx; [|done]. simpl. f_equal.
  specialize (Hvis i x Hi Hx). destruct x as [v e h t]. simpl in Hvis.
  by subst v.
Qed.

(** X3.  Folding a range of visible lines and unfolding it again gives back
    the state the fold started from, with its structures allocated: every
    line, every height and every display row is where it was. *)
Theorem SetVisible_hide_then_show cs lineDocStart lineDocEnd :
  wf cs ->
  0 <= lineDocStart <= lineDocEnd -> lineDocEnd < LinesInDoc cs ->
  (forall lineDoc, lineDocStart <= lineDoc <= lineDocEnd ->
                   GetVisible lineDoc cs = true) ->
  exists hidden cs1 shown,
    SetVisible lineDocStart lineDocEnd false cs = Returns (hidden, cs1)
    /\ SetVisible lineDocStart lineDocEnd true cs1
       = Returns (shown, EnsureData cs).
Proof.
  intros [ls Hm] Hr Hend Hvis.
  assert (HN := models_LinesInDoc cs ls Hm).
  rewrite (SetVisible_projected cs ls _ _ false Hm Hr Hend)
    by apply andb_false_r.
  set (k := Z.to_nat (lineDocEnd - lineDocStart + 1)).
  set (s := Z.to_nat lineDocStart).
  set (cs1 := mkState (Some (repr (show_lines k false s ls)))
                      (linesInDocument cs)).
  assert (Hm1 : models cs1 (show_lines k false s ls)).
  { constructor. apply Forall_show_lines. by eapply models_line_ok. }
  eexists _, cs1, _. split; [reflexivity|].
  rewrite (SetVisible_projected cs1 _ _ _ true Hm1 Hr); [| |done].
  - fold k s. rewrite show_hidden_lines, (EnsureData_models cs ls Hm); [done|].
    intros i x Hi Hx.
    specialize (Hvis (Z.of_nat i) ltac:(lia)).
    rewrite (models_GetVisible cs ls Hm _ x) in Hvis
      by (rewrite ?Nat2Z.id; done || lia).
    by apply Z.eqb_eq.
  - by rewrite (models_LinesInDoc cs1 _ Hm1), length_show_lines, <- HN.
Qed.

Lemma SetVisible_hide_then_show_witness :
  exists hidden cs1 shown,
    SetVisible 3 4 false scenario_folded = Returns (hidden, cs1)
    /\ SetVisible 3 4 true cs1 = Returns (shown, EnsureData scenario_folded).
Proof.
  apply SetVisible_hide_then_show.
  - wf_by_lines [mkLine 1 1 1 None; mkLine 0 1 1 None; mkLine 0 1 1 None;
                 mkLine 1 1 1 None; mkLine 1 1 1 None].
  - lia.
  - reflexivity.
  - intros lineDoc H.
    assert (E : lineDoc = 3 \/ lineDoc = 4) by lia.
    by destruct E as [-> | ->].
Defined.

Lemma forallb_false_lookup {A} (f : A -> bool) (l : list A) :
  forallb f l = false <-> exists (i : nat) x, l !! i = Some x /\ f x = false.
Proof.
  induction l as [|y l IH]; simpl.
  - split; [done | by intros (i & x & H & _)].
  - rewrite andb_false_iff, IH. split.
    + intros [Hy|(i & x & Hx & Hf)]; [by exists O, y | by exists (S i), x].
    + intros ([|i] & x & Hx & Hf); simpl in Hx.
      * injection Hx as ->. by left.
      * right. by exists i, x.
Qed.

(** X4.  [HiddenLines()] is true exactly when some document line is not
    visible. *)
Theorem HiddenLines_spec cs :
  wf cs ->
  HiddenLines cs = true
  <-> exists lineDoc,
        0 <= lineDoc < LinesInDoc cs /\ GetVisible lineDoc cs = false.
Proof.
  intros [ls Hm]. assert (HN := models_LinesInDoc cs ls Hm).
  destruct Hm as [n Hn|ls n Hok] eqn:Em.
  - split; [discriminate | by intros (l & _ & H)].
  - clear Em. unfold HiddenLines. cbn [data repr visible].
    unfold RunStyles.AllSameAs. rewrite negb_true_iff, forallb_false_lookup.
    split.
    + intros (i & v & Hv & Hf). rewrite lookup_map in Hv.
      destruct (ls !! i) as [x|] eqn:Hx; [|done]. injection Hv as <-.
      exists (Z.of_nat i). apply lookup_lt_Some in Hx as Hlt.
      split; [lia|].
      rewrite (GetVisible_repr ls n _ x) by (rewrite ?Nat2Z.id; done || lia).
      by rewrite Z.eqb_sym.
    + intros (l & Hl & Hv).
      destruct (lookup_lt_is_Some_2 ls (Z.to_nat l)) as [x Hx]; [lia|].
      rewrite (GetVisible_repr ls n l x) in Hv by (done || lia).
      exists (Z.to_nat l), (line_visible x). rewrite lookup_map, Hx.
      split; [done|]. by rewrite Z.eqb_sym.
Qed.

Lemma HiddenLines_spec_witness :
  HiddenLines scenario_folded = true
  <-> exists lineDoc,
        0 <= lineDoc < LinesInDoc scenario_folded
        /\ GetVisible lineDoc scenario_folded = false.
Proof.
  apply HiddenLines_spec.
  wf_by_lines [mkLine 1 1 1 None; mkLine 0 1 1 None; mkLine 0 1 1 None;
               mkLine 1 1 1 None; mkLine 1 1 1 None].
Defined.

(** ** Rows and lines *)

Lemma sumZ_nonneg (l : list Z) : Forall (fun x => 0 <= x) l -> 0 <= sumZ l.
Proof.
  induction 1 as [|x l Hx _ IH]; [done|].
  change (sumZ (x :: l)) with (x + sumZ l). lia.
Qed.

Lemma sumZ_take_le (l : list Z) (i j : nat) :
  Forall (fun x => 0 <= x) l -> (i <= j)%nat ->
  sumZ (take i l) <= sumZ (take j l).
Proof.
  intros Hpos Hij. replace j with (i + (j - i))%nat by lia.
  rewrite <- take_take_drop, sumZ_app.
  assert (0 <= sumZ (take (j - i) (drop i l)))
    by (by apply sumZ_nonneg, Forall_take, Forall_drop).
  lia.
Qed.

Lemma models_spans_nonneg cs ls :
  models cs ls ->
  (forall lineDoc, 0 <= lineDoc < LinesInDoc cs ->
     GetVisible lineDoc cs = true -> 0 <= GetHeight lineDoc cs) ->
  Forall (fun x => 0 <= x) (map line_span ls).
Proof.
  intros Hm Hh. apply Forall_lookup. intros i y Hy.
  rewrite lookup_map in Hy. destruct (ls !! i) as [x|] eqn:Hx; [|done].
  injection Hy as <-. apply lookup_lt_Some in Hx as Hlt.
  rewrite <- (models_rows_of_line cs ls Hm (Z.of_nat i) x)
    by (rewrite ?Nat2Z.id; done || lia).
  unfold rows_of_line.
  destruct (GetVisible (Z.of_nat i) cs) eqn:Ev; [|lia].
  apply Hh; [|done]. rewrite (models_LinesInDoc cs ls Hm). lia.
Qed.

(** X5.  [DisplayFromDoc] starts at row 0, never decreases along the document
    when no visible line has a negative height, never passes
    [LinesDisplayed()], and is [LinesDisplayed()] for every line number at
    or past the end of the document. *)
Theorem DisplayFromDoc_monotone cs lineDoc1 lineDoc2 :
  wf cs ->
  (forall lineDoc, 0 <= lineDoc < LinesInDoc cs ->
     GetVisible lineDoc cs = true -> 0 <= GetHeight lineDoc cs) ->
  0 <= lineDoc1 <= lineDoc2 ->
  DisplayFromDoc 0 cs = 0
  /\ DisplayFromDoc lineDoc1 cs <= DisplayFromDoc lineDoc2 cs
     <= LinesDisplayed cs
  /\ (LinesInDoc cs <= lineDoc2 -> DisplayFromDoc lineDoc2 cs = LinesDisplayed cs).
Proof.
  intros [ls Hm] Hh H12.
  assert (Hpos := models_spans_nonneg cs ls Hm Hh).
  rewrite !(models_DisplayFromDoc cs ls Hm) by lia.
  rewrite (models_LinesDisplayed cs ls Hm), (models_LinesInDoc cs ls Hm).
  rewrite <- !firstn_map.
  split; [done|]. split; [split|].
  - apply sumZ_take_le; [done | lia].
  - rewrite <- (take_ge (map line_span ls) (length ls)) at 2
      by (by rewrite length_map).
    destruct (decide (Z.to_nat lineDoc2 <= length ls)%nat).
    + by apply sumZ_take_le.
    + rewrite !take_ge by (rewrite length_map; lia). lia.
  - intros Hend. by rewrite take_ge by (rewrite length_map; lia).
Qed.

Lemma DisplayFromDoc_monotone_witness :
  DisplayFromDoc 0 scenario_folded = 0
  /\ DisplayFromDoc 1 scenario_folded <= DisplayFromDoc 4 scenario_folded
     <= LinesDisplayed scenario_folded
  /\ (LinesInDoc scenario_folded <= 4 ->
      DisplayFromDoc 4 scenario_folded = LinesDisplayed scenario_folded).
Proof.
  apply DisplayFromDoc_monotone.
  - wf_by_lines [mkLine 1 1 1 None; mkLine 0 1 1 None; mkLine 0 1 1 None;
                 mkLine 1 1 1 None; mkLine 1 1 1 None].
  - intros lineDoc H _. change (LinesInDoc scenario_folded) with 5 in H.
    assert (E : lineDoc = 0 \/ lineDoc = 1 \/ lineDoc = 2 \/ lineDoc = 3
                \/ lineDoc = 4) by lia.
    destruct E as [->|[->|[->|[->| ->]]]]; vm_compute; discriminate.
  - lia.
Defined.

Lemma models_DocFromDisplay_inside cs ls lineDisplay :
  models cs ls ->
  Forall (fun x => 0 <= x) (map line_span ls) ->
  0 < lineDisplay < sumZ (map line_span ls) ->
  0 <= DocFromDisplay lineDisplay cs < Z.of_nat (length ls)
  /\ sumZ (map line_span (take (Z.to_nat (DocFromDisplay lineDisplay cs)) ls))
     <= lineDisplay
     < sumZ (map line_span
                 (take (Z.to_nat (DocFromDisplay lineDisplay cs + 1)) ls)).
Proof.
  intros Hm Hpos Hv. destruct Hm as [n Hn|ls n Hok].
  - unfold DocFromDisplay. cbn [data].
    rewrite sumZ_spans_default in Hv.
    rewrite length_replicate, !take_replicate_min, !sumZ_spans_default. lia.
  - unfold DocFromDisplay. cbn [data]. rewrite LinesDisplayed_repr.
    do 2 (case_if; [lia|]).
    apply PartitionFromPosition_repr_inside; [|lia].
    apply Forall_lookup. intros i x Hx.
    apply (proj1 (Forall_lookup _ _) Hpos i). by rewrite lookup_map, Hx.
Qed.

(** X6.  Every display row of a visible line leads back to the line:
    [DocFromDisplay] of any row from [DisplayFromDoc(lineDoc)] to
    [DisplayLastFromDoc(lineDoc)] is [lineDoc].  Row 0 is the exception
    the code makes: it always leads to line 0. *)
Theorem DocFromDisplay_of_row cs lineDoc lineDisplay :
  wf cs ->
  (forall l, 0 <= l < LinesInDoc cs ->
     GetVisible l cs = true -> 0 <= GetHeight l cs) ->
  0 <= lineDoc < LinesInDoc cs ->
  GetVisible lineDoc cs = true ->
  DisplayFromDoc lineDoc cs <= lineDisplay <= DisplayLastFromDoc lineDoc cs ->
  0 < lineDisplay \/ lineDoc = 0 ->
  DocFromDisplay lineDisplay cs = lineDoc.
Proof.
  intros [ls Hm] Hh Hl Hvis Hrow H0.
  assert (Hpos := models_spans_nonneg cs ls Hm Hh).
  assert (Hspan := models_span cs ls lineDoc Hm Hl).
  unfold rows_of_line in Hspan. rewrite Hvis in Hspan.
  unfold DisplayLastFromDoc in Hrow.
  assert (HN := models_LinesInDoc cs ls Hm).
  assert (Hlast : DisplayFromDoc (lineDoc + 1) cs <= LinesDisplayed cs).
  { rewrite (models_DisplayFromDoc cs ls Hm), (models_LinesDisplayed cs ls Hm)
      by lia.
    rewrite <- firstn_map.
    rewrite <- (take_ge (map line_span ls) (length ls)) at 2
      by (by rewrite length_map).
    apply sumZ_take_le; [done | lia]. }
  destruct (decide (0 < lineDisplay)) as [Hv|Hv].
  - destruct (models_DocFromDisplay_inside cs ls lineDisplay Hm Hpos)
      as [Hd Hs].
    { rewrite <- (models_LinesDisplayed cs ls Hm). lia. }
    set (d := DocFromDisplay lineDisplay cs) in *.
    rewrite (models_DisplayFromDoc cs ls Hm lineDoc) in Hrow, Hspan by lia.
    rewrite (models_DisplayFromDoc cs ls Hm (lineDoc + 1)) in Hspan by lia.
    rewrite <- !firstn_map in *.
    destruct (Z_lt_le_dec d lineDoc) as [Hlt|Hge].
    + assert (sumZ (take (Z.to_nat (d + 1)) (map line_span ls))
              <= sumZ (take (Z.to_nat lineDoc) (map line_span ls)))
        by (apply sumZ_take_le; [done | lia]).
      lia.
    + destruct (Z_lt_le_dec lineDoc d) as [Hgt|Hle]; [|lia].
      assert (sumZ (take (Z.to_nat (lineDoc + 1)) (map line_span ls))
              <= sumZ (take (Z.to_nat d) (map line_span ls)))
        by (apply sumZ_take_le; [done | lia]).
      lia.
  - destruct H0 as [H0| ->]; [lia|].
    assert (lineDisplay = 0).
    { rewrite (models_DisplayFromDoc cs ls Hm) in Hrow by lia.
      simpl in Hrow. lia. }
    subst lineDisplay. unfold DocFromDisplay. by destruct (data cs).
Qed.

Lemma DocFromDisplay_of_row_witness :
  DocFromDisplay 2 scenario_folded = 4.
Proof.
  apply DocFromDisplay_of_row.
  - wf_by_lines [mkLine 1 1 1 None; mkLine 0 1 1 None; mkLine 0 1 1 None;
                 mkLine 1 1 1 None; mkLine 1 1 1 None].
  - intros lineDoc H _. change (LinesInDoc scenario_folded) with 5 in H.
    assert (E : lineDoc = 0 \/ lineDoc = 1 \/ lineDoc = 2 \/ lineDoc = 3
                \/ lineDoc = 4) by lia.
    destruct E as [->|[->|[->|[->| ->]]]]; vm_compute; discriminate.
  - change (LinesInDoc scenario_folded) with 5. lia.
  - reflexivity.
  - vm_compute. split; discriminate.
  - lia.
Defined.

(** ** The diagnostic pass *)

Lemma In_lines_from k start l :
  In l (lines_from k start) <-> start <= l < start + Z.of_nat k.
Proof.
  revert start. induction k as [|k IH]; intros start; simpl.
  - lia.
  - rewrite IH. lia.
Qed.

Lemma Check_lines_true cs ls :
  models cs ls ->
  Check_lines cs = true
  <-> forall lineDoc, 0 <= lineDoc < LinesInDoc cs ->
        GetVisible lineDoc cs = true -> 0 <= GetHeight lineDoc cs.
Proof.
  intros Hm. unfold Check_lines. rewrite forallb_forall.
  split.
  - intros H lineDoc Hl Hvis.
    specialize (H lineDoc). rewrite In_lines_from in H.
    specialize (H ltac:(lia)). cbv zeta in H.
    rewrite Hvis in H. apply andb_true_iff in H as [H1 H2].
    apply Z.leb_le in H1. apply Z.eqb_eq in H2. lia.
  - intros H lineDoc Hin. apply In_lines_from in Hin.
    assert (Hl : 0 <= lineDoc < LinesInDoc cs) by lia.
    cbv zeta. rewrite (models_span cs ls lineDoc Hm Hl). unfold rows_of_line.
    destruct (GetVisible lineDoc cs) eqn:Hvis.
    + apply andb_true_iff. split; [apply Z.leb_le; by apply H | apply Z.eqb_refl].
    + reflexivity.
Qed.

(** X7.  The diagnostic pass succeeds on a well-formed state exactly when no
    visible line has a negative height and, if any row is displayed,
    line 0 is visible: [Check()] maps row 0 to line 0 whatever the
    visibility of that line. *)
Theorem Check_spec cs :
  wf cs ->
  Check cs = true
  <-> (forall lineDoc, 0 <= lineDoc < LinesInDoc cs ->
         GetVisible lineDoc cs = true -> 0 <= GetHeight lineDoc cs)
      /\ (0 < LinesDisplayed cs -> GetVisible 0 cs = true).
Proof.
  intros [ls Hm]. unfold Check.
  rewrite andb_true_iff, (Check_lines_true cs ls Hm).
  assert (H0 : DocFromDisplay 0 cs = 0)
    by (unfold DocFromDisplay; by destruct (data cs)).
  split.
  - intros [Hrows Hh]. split; [done|]. intros Hd.
    unfold Check_rows in Hrows. rewrite forallb_forall in Hrows.
    specialize (Hrows 0). rewrite In_lines_from, H0 in Hrows.
    apply Hrows. lia.
  - intros [Hh Hfirst]. split; [|done].
    unfold Check_rows. rewrite forallb_forall. intros vline Hin.
    apply In_lines_from in Hin.
    destruct (decide (vline = 0)) as [->|Hne].
    + rewrite H0. apply Hfirst. lia.
    + assert (Hpos := models_spans_nonneg cs ls Hm Hh).
      destruct (models_DocFromDisplay_inside cs ls vline Hm Hpos) as [Hd Hs].
      { rewrite <- (models_LinesDisplayed cs ls Hm). lia. }
      set (d := DocFromDisplay vline cs) in *.
      assert (Hspan := models_span cs ls d Hm).
      rewrite (models_DisplayFromDoc cs ls Hm d),
        (models_DisplayFromDoc cs ls Hm (d + 1)),
        (models_LinesInDoc cs ls Hm) in Hspan by lia.
      specialize (Hspan Hd). unfold rows_of_line in Hspan.
      destruct (GetVisible d cs); [done | lia].
Qed.

Lemma Check_spec_witness :
  Check scenario_folded = true
  <-> (forall lineDoc, 0 <= lineDoc < LinesInDoc scenario_folded ->
         GetVisible lineDoc scenario_folded = true ->
         0 <= GetHeight lineDoc scenario_folded)
      /\ (0 < LinesDisplayed scenario_folded ->
          GetVisible 0 scenario_folded = true).
Proof.
  apply Check_spec.
  wf_by_lines [mkLine 1 1 1 None; mkLine 0 1 1 None; mkLine 0 1 1 None;
               mkLine 1 1 1 None; mkLine 1 1 1 None].
Defined.

(** ** Lines keep their attributes across edits *)

(** The same line read at two places of two well-formed states of the same
    representation. *)
Lemma models_same_line cs ls cs' ls' lineDoc lineDoc' x :
  models cs ls -> models cs' ls' -> OneToOne cs' = OneToOne cs ->
  0 <= lineDoc -> 0 <= lineDoc' ->
  ls !! Z.to_nat lineDoc = Some x -> ls' !! Z.to_nat lineDoc' = Some x ->
  GetVisible lineDoc' cs' = GetVisible lineDoc cs
  /\ GetExpanded lineDoc' cs' = GetExpanded lineDoc cs
  /\ GetHeight lineDoc' cs' = GetHeight lineDoc cs
  /\ GetFoldDisplayText lineDoc' cs' = GetFoldDisplayText lineDoc cs.
Proof.
  intros Hm Hm' H1 H0 H0' Hx Hx'.
  rewrite (models_GetVisible cs ls Hm _ x H0 Hx),
    (models_GetVisible cs' ls' Hm' _ x H0' Hx'),
    (models_GetExpanded cs ls Hm _ x Hx),
    (models_GetExpanded cs' ls' Hm' _ x Hx'),
    (models_GetHeight cs ls Hm _ x Hx),
    (models_GetHeight cs' ls' Hm' _ x Hx').
  repeat split.
  destruct Hm as [n Hn|l0 n Hok], Hm' as [n' Hn'|l0' n' Hok'];
    try discriminate; [reflexivity|].
  by rewrite (GetFoldDisplayText_repr l0 n lineDoc x),
    (GetFoldDisplayText_repr l0' n' lineDoc' x).
Qed.

Lemma lookup_inserted_lines {A} (l : list A) (p k i : nat) (x : A) :
  (p <= length l)%nat ->
  (take p l ++ replicate k x ++ drop p l) !! i
  = if decide (i < p)%nat then l !! i
    else if decide (i < p + k)%nat then Some x
    else l !! (i - k)%nat.
Proof.
  intros Hp. case_decide.
  - rewrite lookup_app_l by (rewrite length_take; lia).
    by rewrite lookup_take_lt.
  - rewrite lookup_app_r; rewrite length_take; [|lia].
    replace (p `min` length l)%nat with p by lia.
    case_decide.
    + rewrite lookup_app_l by (rewrite length_replicate; lia).
      apply lookup_replicate_2. lia.
    + rewrite lookup_app_r; rewrite length_replicate; [|lia].
      rewrite lookup_drop. f_equal. lia.
Qed.

Lemma OneToOne_InsertLines cs ls lineDoc lineCount :
  models cs ls -> 0 <= lineDoc <= LinesInDoc cs ->
  OneToOne (InsertLines lineDoc lineCount cs) = OneToOne cs.
Proof.
  intros Hm Hp. rewrite (models_LinesInDoc cs ls Hm) in Hp.
  destruct Hm as [n Hn|l0 n Hok].
  - unfold InsertLines. by rewrite InsertLines_from_one_to_one.
  - by rewrite InsertLines_repr.
Qed.

(** X8.  What [InsertLines(p, k)] does at a valid position: [k] more lines and
    [k] more rows; the lines before [p] are as they were, the [k] new
    lines are visible, expanded, one row high and without a shown label,
    and the lines that were at [p] and after are found [k] places further,
    each with its visibility, expansion, height and label. *)
Theorem InsertLines_effect cs p k :
  wf cs -> 0 <= p <= LinesInDoc cs -> 0 <= k ->
  let cs' := InsertLines p k cs in
  LinesInDoc cs' = LinesInDoc cs + k
  /\ LinesDisplayed cs' = LinesDisplayed cs + k
  /\ forall lineDoc,
       (0 <= lineDoc < p ->
        GetVisible lineDoc cs' = GetVisible lineDoc cs
        /\ GetExpanded lineDoc cs' = GetExpanded lineDoc cs
        /\ GetHeight lineDoc cs' = GetHeight lineDoc cs
        /\ GetFoldDisplayText lineDoc cs' = GetFoldDisplayText lineDoc cs)
       /\ (p <= lineDoc < p + k ->
           GetVisible lineDoc cs' = true
           /\ GetExpanded lineDoc cs' = true
           /\ GetHeight lineDoc cs' = 1
           /\ GetFoldDisplayTextShown lineDoc cs' = Returns false)
       /\ (p + k <= lineDoc < LinesInDoc cs + k ->
           GetVisible lineDoc cs' = GetVisible (lineDoc - k) cs
           /\ GetExpanded lineDoc cs' = GetExpanded (lineDoc - k) cs
           /\ GetHeight lineDoc cs' = GetHeight (lineDoc - k) cs
           /\ GetFoldDisplayText lineDoc cs'
              = GetFoldDisplayText (lineDoc - k) cs).
Proof.
  intros [ls Hm] Hp Hk cs'.
  assert (Hm' := InsertLines_models cs ls p k Hm Hp).
  assert (H1 := OneToOne_InsertLines cs ls p k Hm Hp).
  fold cs' in Hm', H1.
  rewrite (models_LinesInDoc cs ls Hm) in *.
  set (ls' := take (Z.to_nat p) ls ++ replicate (Z.to_nat k) default_line
                ++ drop (Z.to_nat p) ls) in *.
  assert (Hlook := fun i => lookup_inserted_lines ls (Z.to_nat p) (Z.to_nat k)
                              i default_line ltac:(lia)).
  fold ls' in Hlook.
  split; [|split].
  - rewrite (models_LinesInDoc cs' ls' Hm'). unfold ls'.
    rewrite !length_app, length_take, length_replicate, length_drop. lia.
  - rewrite (models_LinesDisplayed cs' ls' Hm'), (models_LinesDisplayed cs ls Hm).
    unfold ls'. rewrite !map_app, !sumZ_app, sumZ_spans_default.
    rewrite <- (take_drop (Z.to_nat p) ls) at 3. rewrite map_app, sumZ_app. lia.
  - intros lineDoc. split; [|split]; intros Hl.
    + destruct (lookup_lt_is_Some_2 ls (Z.to_nat lineDoc)) as [x Hx]; [lia|].
      apply (models_same_line cs ls cs' ls' lineDoc lineDoc x);
        try (done || lia).
      rewrite Hlook. by case_decide; [|lia].
    + assert (Hx' : ls' !! Z.to_nat lineDoc = Some default_line).
      { rewrite Hlook. do 2 (case_decide; try lia). done. }
      assert (H0l : 0 <= lineDoc) by lia.
      unfold GetFoldDisplayTextShown.
      by rewrite (models_GetVisible cs' ls' Hm' _ _ H0l Hx'),
        (models_GetExpanded cs' ls' Hm' _ _ Hx'),
        (models_GetHeight cs' ls' Hm' _ _ Hx').
    + destruct (lookup_lt_is_Some_2 ls (Z.to_nat (lineDoc - k))) as [x Hx];
        [lia|].
      apply (models_same_line cs ls cs' ls' (lineDoc - k) lineDoc x);
        try (done || lia).
      rewrite Hlook. do 2 (case_decide; try lia).
      by replace (Z.to_nat lineDoc - Z.to_nat k)%nat
        with (Z.to_nat (lineDoc - k)) by lia.
Qed.

Lemma InsertLines_effect_witness :
  let cs' := InsertLines 1 2 scenario_folded in
  LinesInDoc cs' = LinesInDoc scenario_folded + 2
  /\ LinesDisplayed cs' = LinesDisplayed scenario_folded + 2
  /\ forall lineDoc,
       (0 <= lineDoc < 1 ->
        GetVisible lineDoc cs' = GetVisible lineDoc scenario_folded
        /\ GetExpanded lineDoc cs' = GetExpanded lineDoc scenario_folded
        /\ GetHeight lineDoc cs' = GetHeight lineDoc scenario_folded
        /\ GetFoldDisplayText lineDoc cs'
           = GetFoldDisplayText lineDoc scenario_folded)
       /\ (1 <= lineDoc < 1 + 2 ->
           GetVisible lineDoc cs' = true
           /\ GetExpanded lineDoc cs' = true
           /\ GetHeight lineDoc cs' = 1
           /\ GetFoldDisplayTextShown lineDoc cs' = Returns false)
       /\ (1 + 2 <= lineDoc < LinesInDoc scenario_folded + 2 ->
           GetVisible lineDoc cs' = GetVisible (lineDoc - 2) scenario_folded
           /\ GetExpanded lineDoc cs' = GetExpanded (lineDoc - 2) scenario_folded
           /\ GetHeight lineDoc cs' = GetHeight (lineDoc - 2) scenario_folded
           /\ GetFoldDisplayText lineDoc cs'
              = GetFoldDisplayText (lineDoc - 2) scenario_folded).
Proof.
  apply InsertLines_effect.
  - wf_by_lines [mkLine 1 1 1 None; mkLine 0 1 1 None; mkLine 0 1 1 None;
                 mkLine 1 1 1 None; mkLine 1 1 1 None].
  - change (LinesInDoc scenario_folded) with 5. lia.
  - lia.
Defined.

Lemma lookup_deleted_lines {A} (l : list A) (p k i : nat) :
  (p <= length l)%nat ->
  (take p l ++ drop (p + k) l) !! i
  = if decide (i < p)%nat then l !! i else l !! (i + k)%nat.
Proof.
  intros Hp. case_decide.
  - rewrite lookup_app_l by (rewrite length_take; lia).
    by rewrite lookup_take_lt.
  - rewrite lookup_app_r; rewrite length_take; [|lia].
    rewrite lookup_drop. f_equal. lia.
Qed.

Lemma OneToOne_DeleteLines cs ls lineDoc lineCount :
  models cs ls -> 0 <= lineDoc -> 0 <= lineCount ->
  lineDoc + lineCount <= LinesInDoc cs ->
  OneToOne (DeleteLines lineDoc lineCount cs) = OneToOne cs.
Proof.
  intros Hm H0 Hk Hp. rewrite (models_LinesInDoc cs ls Hm) in Hp.
  destruct Hm as [n Hn|l0 n Hok].
  - unfold DeleteLines. by rewrite DeleteLines_from_one_to_one.
  - by rewrite DeleteLines_repr.
Qed.

(** X9.  What [DeleteLines(p, k)] does to [k] lines that exist: [k] lines fewer,
    and as many rows fewer as the deleted lines showed; the lines before
    [p] are as they were and the lines that followed the deleted ones are
    found [k] places earlier, each with its visibility, expansion, height
    and label. *)
Theorem DeleteLines_effect cs p k :
  wf cs -> 0 <= p -> 0 <= k -> p + k <= LinesInDoc cs ->
  let cs' := DeleteLines p k cs in
  LinesInDoc cs' = LinesInDoc cs - k
  /\ LinesDisplayed cs'
     = LinesDisplayed cs - (DisplayFromDoc (p + k) cs - DisplayFromDoc p cs)
  /\ forall lineDoc,
       (0 <= lineDoc < p ->
        GetVisible lineDoc cs' = GetVisible lineDoc cs
        /\ GetExpanded lineDoc cs' = GetExpanded lineDoc cs
        /\ GetHeight lineDoc cs' = GetHeight lineDoc cs
        /\ GetFoldDisplayText lineDoc cs' = GetFoldDisplayText lineDoc cs)
       /\ (p <= lineDoc < LinesInDoc cs - k ->
           GetVisible lineDoc cs' = GetVisible (lineDoc + k) cs
           /\ GetExpanded lineDoc cs' = GetExpanded (lineDoc + k) cs
           /\ GetHeight lineDoc cs' = GetHeight (lineDoc + k) cs
           /\ GetFoldDisplayText lineDoc cs'
              = GetFoldDisplayText (lineDoc + k) cs).
Proof.
  intros [ls Hm] H0 Hk Hp cs'.
  assert (Hm' := DeleteLines_models cs ls p k Hm H0 Hk Hp).
  assert (H1 := OneToOne_DeleteLines cs ls p k Hm H0 Hk Hp).
  fold cs' in Hm', H1.
  rewrite !(models_DisplayFromDoc cs ls Hm) by lia.
  rewrite (models_LinesInDoc cs ls Hm) in *.
  replace (Z.to_nat (p + k)) with (Z.to_nat p + Z.to_nat k)%nat in * by lia.
  set (ls' := take (Z.to_nat p) ls ++ drop (Z.to_nat p + Z.to_nat k) ls) in *.
  assert (Hlook := fun i => lookup_deleted_lines ls (Z.to_nat p) (Z.to_nat k)
                              i ltac:(lia)).
  fold ls' in Hlook.
  split; [|split].
  - rewrite (models_LinesInDoc cs' ls' Hm'). unfold ls'.
    rewrite !length_app, length_take, length_drop. lia.
  - rewrite (models_LinesDisplayed cs' ls' Hm'), (models_LinesDisplayed cs ls Hm).
    unfold ls'. rewrite !map_app, !sumZ_app.
    rewrite <- (take_drop (Z.to_nat p + Z.to_nat k) ls) at 3.
    rewrite map_app, sumZ_app. lia.
  - intros lineDoc. split; intros Hl.
    + destruct (lookup_lt_is_Some_2 ls (Z.to_nat lineDoc)) as [x Hx]; [lia|].
      apply (models_same_line cs ls cs' ls' lineDoc lineDoc x);
        try (done || lia).
      rewrite Hlook. by case_decide; [|lia].
    + destruct (lookup_lt_is_Some_2 ls (Z.to_nat (lineDoc + k))) as [x Hx];
        [lia|].
      apply (models_same_line cs ls cs' ls' (lineDoc + k) lineDoc x);
        try (done || lia).
      rewrite Hlook. case_decide; [lia|].
      by replace (Z.to_nat lineDoc + Z.to_nat k)%nat
        with (Z.to_nat (lineDoc + k)) by lia.
Qed.

Lemma DeleteLines_effect_witness :
  let cs' := DeleteLines 1 2 scenario_folded in
  LinesInDoc cs' = LinesInDoc scenario_folded - 2
  /\ LinesDisplayed cs'
     = LinesDisplayed scenario_folded
       - (DisplayFromDoc (1 + 2) scenario_folded
          - DisplayFromDoc 1 scenario_folded)
  /\ forall lineDoc,
       (0 <= lineDoc < 1 ->
        GetVisible lineDoc cs' = GetVisible lineDoc scenario_folded
        /\ GetExpanded lineDoc cs' = GetExpanded lineDoc scenario_folded
        /\ GetHeight lineDoc cs' = GetHeight lineDoc scenario_folded
        /\ GetFoldDisplayText lineDoc cs'
           = GetFoldDisplayText lineDoc scenario_folded)
       /\ (1 <= lineDoc < LinesInDoc scenario_folded - 2 ->
           GetVisible lineDoc cs' = GetVisible (lineDoc + 2) scenario_folded
           /\ GetExpanded lineDoc cs' = GetExpanded (lineDoc + 2) scenario_folded
           /\ GetHeight lineDoc cs' = GetHeight (lineDoc + 2) scenario_folded
           /\ GetFoldDisplayText lineDoc cs'
              = GetFoldDisplayText (lineDoc + 2) scenario_folded).
Proof.
  apply DeleteLines_effect.
  - wf_by_lines [mkLine 1 1 1 None; mkLine 0 1 1 None; mkLine 0 1 1 None;
                 mkLine 1 1 1 None; mkLine 1 1 1 None].
  - lia.
  - lia.
  - change (LinesInDoc scenario_folded) with 5. lia.
Defined.

(** ** Allocating and discarding the structures *)

(** X10.  [EnsureData()] on a state whose line count is not negative: the
    structures are allocated, a second call changes nothing, and no query
    on the document sees a difference: same number of lines and rows,
    same visibility, expansion and height of every line, same
    [DisplayFromDoc], and every line without a label. *)
Theorem EnsureData_preserves cs :
  0 <= LinesInDoc cs ->
  let cs' := EnsureData cs in
  OneToOne cs' = false
  /\ EnsureData cs' = cs'
  /\ LinesInDoc cs' = LinesInDoc cs
  /\ LinesDisplayed cs' = LinesDisplayed cs
  /\ (forall lineDoc, 0 <= lineDoc ->
        DisplayFromDoc lineDoc cs' = DisplayFromDoc lineDoc cs)
  /\ (forall lineDoc, 0 <= lineDoc < LinesInDoc cs ->
        GetVisible lineDoc cs' = GetVisible lineDoc cs
        /\ GetExpanded lineDoc cs' = GetExpanded lineDoc cs
        /\ GetHeight lineDoc cs' = GetHeight lineDoc cs
        /\ (OneToOne cs = true ->
            GetFoldDisplayText lineDoc cs' = Returns None)).
Proof.
  intros Hn cs'. destruct cs as [[d|] n].
  - by repeat (split || intro).
  - unfold LinesInDoc in Hn. cbn [data linesInDocument] in Hn.
    assert (Hm : models (mkState None n) (replicate (Z.to_nat n) default_line))
      by (by constructor).
    assert (Hm' := models_EnsureData _ _ Hm). fold cs' in Hm'.
    assert (E : cs' = mkState (Some (repr (replicate (Z.to_nat n) default_line))) n)
      by apply (EnsureData_models _ _ Hm).
    split; [by rewrite E|]. split; [by rewrite E|].
    split; [by rewrite (models_LinesInDoc _ _ Hm), (models_LinesInDoc _ _ Hm')|].
    split; [by rewrite (models_LinesDisplayed _ _ Hm),
                 (models_LinesDisplayed _ _ Hm')|].
    split.
    + intros lineDoc Hl.
      by rewrite (models_DisplayFromDoc _ _ Hm), (models_DisplayFromDoc _ _ Hm').
    + intros lineDoc Hl. rewrite (models_LinesInDoc _ _ Hm) in Hl.
      destruct (lookup_lt_is_Some_2 (replicate (Z.to_nat n) default_line)
                  (Z.to_nat lineDoc)) as [x Hx]; [lia|].
      rewrite (models_GetVisible _ _ Hm lineDoc x),
        (models_GetVisible _ _ Hm' lineDoc x),
        (models_GetExpanded _ _ Hm lineDoc x),
        (models_GetExpanded _ _ Hm' lineDoc x),
        (models_GetHeight _ _ Hm lineDoc x),
        (models_GetHeight _ _ Hm' lineDoc x)
        by (done || lia).
      do 3 (split; [reflexivity|]). intros _. rewrite E.
      rewrite (GetFoldDisplayText_repr _ _ lineDoc x) by (done || lia).
      by apply lookup_replicate_1 in Hx as [-> _].
Qed.

Lemma EnsureData_preserves_witness :
  let cs' := EnsureData scenario_lines in
  OneToOne cs' = false
  /\ EnsureData cs' = cs'
  /\ LinesInDoc cs' = LinesInDoc scenario_lines
  /\ LinesDisplayed cs' = LinesDisplayed scenario_lines
  /\ (forall lineDoc, 0 <= lineDoc ->
        DisplayFromDoc lineDoc cs' = DisplayFromDoc lineDoc scenario_lines)
  /\ (forall lineDoc, 0 <= lineDoc < LinesInDoc scenario_lines ->
        GetVisible lineDoc cs' = GetVisible lineDoc scenario_lines
        /\ GetExpanded lineDoc cs' = GetExpanded lineDoc scenario_lines
        /\ GetHeight lineDoc cs' = GetHeight lineDoc scenario_lines
        /\ (OneToOne scenario_lines = true ->
            GetFoldDisplayText lineDoc cs' = Returns None)).
Proof.
  apply EnsureData_preserves. change (LinesInDoc scenario_lines) with 5. lia.
Defined.

(** X11.  [ShowAll()] leaves the object as a new one that has had its lines
    inserted: whatever was folded, resized or labelled is forgotten. *)
Theorem ShowAll_as_new cs :
  1 <= LinesInDoc cs ->
  ShowAll cs = InsertLines 0 (LinesInDoc cs - 1) ContractionState_new.
Proof.
  intros H. unfold ShowAll, Clear, InsertLines, ContractionState_new.
  rewrite InsertLines_from_one_to_one. cbn [data]. f_equal. lia.
Qed.

Lemma ShowAll_as_new_witness :
  ShowAll scenario_folded
  = InsertLines 0 (LinesInDoc scenario_folded - 1) ContractionState_new.
Proof.
  apply ShowAll_as_new. change (LinesInDoc scenario_folded) with 5. lia.
Defined.

(** ** The setters of one line leave the other lines alone *)

Lemma one_line_changed cs ls cs' lineDoc x y :
  models cs ls -> models cs' (<[Z.to_nat lineDoc := y]> ls) ->
  0 <= lineDoc -> ls !! Z.to_nat lineDoc = Some x ->
  LinesInDoc cs' = LinesInDoc cs
  /\ LinesDisplayed cs' = LinesDisplayed cs + (line_span y - line_span x)
  /\ (forall l, 0 <= l ->
        DisplayFromDoc l cs'
        = DisplayFromDoc l cs
          + (if lineDoc <? l then line_span y - line_span x else 0))
  /\ (forall l z, 0 <= l -> ls !! Z.to_nat l = Some z ->
        GetVisible l cs' = (line_visible (if l =? lineDoc then y else z) =? 1)
        /\ GetExpanded l cs'
           = (line_expanded (if l =? lineDoc then y else z) =? 1)
        /\ GetHeight l cs' = line_height (if l =? lineDoc then y else z)).
Proof.
  intros Hm Hm' H0 Hx. apply lookup_lt_Some in Hx as Hlt.
  split; [|split; [|split]].
  - by rewrite (models_LinesInDoc _ _ Hm), (models_LinesInDoc _ _ Hm'),
      length_insert.
  - rewrite (models_LinesDisplayed _ _ Hm), (models_LinesDisplayed _ _ Hm').
    rewrite map_insert. apply sumZ_insert. by rewrite lookup_map, Hx.
  - intros l Hl.
    rewrite (models_DisplayFromDoc _ _ Hm), (models_DisplayFromDoc _ _ Hm')
      by done.
    case_if.
    + rewrite take_insert_lt by lia. rewrite map_insert.
      rewrite (sumZ_insert _ _ (line_span x)); [done|].
      rewrite lookup_map, lookup_take_lt by lia. by rewrite Hx.
    + rewrite take_insert_ge by lia. lia.
  - intros l z Hl Hz.
    assert (Hz' : <[Z.to_nat lineDoc := y]> ls !! Z.to_nat l
                  = Some (if l =? lineDoc then y else z)).
    { case_if.
      - subst l. by apply list_lookup_insert_eq.
      - rewrite list_lookup_insert_ne by lia. done. }
    by rewrite (models_GetVisible _ _ Hm' l _ Hl Hz'),
      (models_GetExpanded _ _ Hm' l _ Hz'), (models_GetHeight _ _ Hm' l _ Hz').
Qed.

(** X12.  [SetExpanded(lineDoc, isExpanded)] on a line of the document returns
    whether the flag of that line changed, sets it, and touches nothing
    else: the number of lines and of rows, the row of every line, and the
    visibility and height of every line and the flag of every other line
    are as before. *)
Theorem SetExpanded_effect cs lineDoc isExpanded :
  wf cs -> 0 <= lineDoc < LinesInDoc cs ->
  exists cs',
    SetExpanded lineDoc isExpanded cs
    = Returns (negb (eqb isExpanded (GetExpanded lineDoc cs)), cs')
    /\ LinesInDoc cs' = LinesInDoc cs
    /\ LinesDisplayed cs' = LinesDisplayed cs
    /\ (forall l, 0 <= l -> DisplayFromDoc l cs' = DisplayFromDoc l cs)
    /\ forall l, 0 <= l < LinesInDoc cs ->
         GetVisible l cs' = GetVisible l cs
         /\ GetHeight l cs' = GetHeight l cs
         /\ GetExpanded l cs'
            = if l =? lineDoc then isExpanded else GetExpanded l cs.
Proof.
  intros [ls Hm] Hl. rewrite (models_LinesInDoc cs ls Hm) in *.
  destruct (lookup_lt_is_Some_2 ls (Z.to_nat lineDoc)) as [x Hx]; [lia|].
  destruct (SetExpanded_inside cs ls lineDoc isExpanded x Hm) as (cs' & E & Hm');
    [lia | done |].
  destruct (one_line_changed cs ls cs' lineDoc x _ Hm Hm' (proj1 Hl) Hx)
    as (_ & HD & HF & HG).
  change (line_span (with_expanded isExpanded x)) with (line_span x) in *.
  rewrite Z.sub_diag in *.
  exists cs'. rewrite (models_GetExpanded cs ls Hm lineDoc x Hx).
  split; [exact E|].
  split; [by rewrite (models_LinesInDoc _ _ Hm'), length_insert|].
  split; [lia|]. split.
  - intros l H0l. rewrite (HF l H0l). destruct (lineDoc <? l); lia.
  - intros l Hl'.
    destruct (lookup_lt_is_Some_2 ls (Z.to_nat l)) as [z Hz]; [lia|].
    destruct (HG l z (proj1 Hl') Hz) as (-> & -> & ->).
    rewrite (models_GetVisible cs ls Hm l z (proj1 Hl') Hz),
      (models_GetHeight cs ls Hm l z Hz), (models_GetExpanded cs ls Hm l z Hz).
    destruct (Z.eqb_spec l lineDoc) as [->|Hne]; [|done].
    rewrite Hx in Hz. injection Hz as <-. by destruct isExpanded.
Qed.

Lemma SetExpanded_effect_witness :
  exists cs',
    SetExpanded 3 false scenario_folded
    = Returns (negb (eqb false (GetExpanded 3 scenario_folded)), cs')
    /\ LinesInDoc cs' = LinesInDoc scenario_folded
    /\ LinesDisplayed cs' = LinesDisplayed scenario_folded
    /\ (forall l, 0 <= l ->
          DisplayFromDoc l cs' = DisplayFromDoc l scenario_folded)
    /\ forall l, 0 <= l < LinesInDoc scenario_folded ->
         GetVisible l cs' = GetVisible l scenario_folded
         /\ GetHeight l cs' = GetHeight l scenario_folded
         /\ GetExpanded l cs'
            = if l =? 3 then false else GetExpanded l scenario_folded.
Proof.
  apply SetExpanded_effect.
  - wf_by_lines [mkLine 1 1 1 None; mkLine 0 1 1 None; mkLine 0 1 1 None;
                 mkLine 1 1 1 None; mkLine 1 1 1 None].
  - change (LinesInDoc scenario_folded) with 5. lia.
Defined.

(** X13.  [SetHeight(lineDoc, height)] on a line of the document returns whether
    the height of that line changed and sets it.  When the line is visible
    the rows of every later line move by the difference, when it is hidden
    no row moves; the visibility and expansion of every line and the
    height of every other line are as before. *)
Theorem SetHeight_effect cs lineDoc height :
  wf cs -> 0 <= lineDoc < LinesInDoc cs ->
  exists cs',
    SetHeight lineDoc height cs
    = Returns (negb (GetHeight lineDoc cs =? height), cs')
    /\ LinesInDoc cs' = LinesInDoc cs
    /\ (forall l, 0 <= l ->
          DisplayFromDoc l cs'
          = DisplayFromDoc l cs
            + (if (lineDoc <? l) && GetVisible lineDoc cs
               then height - GetHeight lineDoc cs else 0))
    /\ forall l, 0 <= l < LinesInDoc cs ->
         GetVisible l cs' = GetVisible l cs
         /\ GetExpanded l cs' = GetExpanded l cs
         /\ GetHeight l cs' = if l =? lineDoc then height else GetHeight l cs.
Proof.
  intros [ls Hm] Hl. rewrite (models_LinesInDoc cs ls Hm) in *.
  destruct (lookup_lt_is_Some_2 ls (Z.to_nat lineDoc)) as [x Hx]; [lia|].
  destruct (SetHeight_inside cs ls lineDoc height x Hm) as (cs' & E & Hm');
    [lia | done |].
  destruct (one_line_changed cs ls cs' lineDoc x _ Hm Hm' (proj1 Hl) Hx)
    as (_ & _ & HF & HG).
  exists cs'. rewrite (models_GetHeight cs ls Hm lineDoc x Hx).
  rewrite (models_GetVisible cs ls Hm lineDoc x (proj1 Hl) Hx).
  split; [exact E|].
  split; [by rewrite (models_LinesInDoc _ _ Hm'), length_insert|].
  split.
  - intros l H0l. rewrite (HF l H0l). unfold line_span, with_height.
    cbn [line_visible line_height].
    destruct (lineDoc <? l), (line_visible x =? 1); simpl; lia.
  - intros l Hl'.
    destruct (lookup_lt_is_Some_2 ls (Z.to_nat l)) as [z Hz]; [lia|].
    destruct (HG l z (proj1 Hl') Hz) as (-> & -> & ->).
    rewrite (models_GetVisible cs ls Hm l z (proj1 Hl') Hz),
      (models_GetHeight cs ls Hm l z Hz), (models_GetExpanded cs ls Hm l z Hz).
    destruct (Z.eqb_spec l lineDoc) as [->|Hne]; [|done].
    rewrite Hx in Hz. by injection Hz as <-.
Qed.

Lemma SetHeight_effect_witness :
  exists cs',
    SetHeight 0 3 scenario_folded
    = Returns (negb (GetHeight 0 scenario_folded =? 3), cs')
    /\ LinesInDoc cs' = LinesInDoc scenario_folded
    /\ (forall l, 0 <= l ->
          DisplayFromDoc l cs'
          = DisplayFromDoc l scenario_folded
            + (if (0 <? l) && GetVisible 0 scenario_folded
               then 3 - GetHeight 0 scenario_folded else 0))
    /\ forall l, 0 <= l < LinesInDoc scenario_folded ->
         GetVisible l cs' = GetVisible l scenario_folded
         /\ GetExpanded l cs' = GetExpanded l scenario_folded
         /\ GetHeight l cs'
            = if l =? 0 then 3 else GetHeight l scenario_folded.
Proof.
  apply SetHeight_effect.
  - wf_by_lines [mkLine 1 1 1 None; mkLine 0 1 1 None; mkLine 0 1 1 None;
                 mkLine 1 1 1 None; mkLine 1 1 1 None].
  - change (LinesInDoc scenario_folded) with 5. lia.
Defined.

(** X14.  [SetFoldDisplayText(lineDoc, text)] on a line of the document always
    leaves the structures allocated, also when nothing changes.  The line
    reads back the new label; every other line reads the label it had
    (none, if the structures were not there yet); no line, row,
    visibility, expansion or height changes. *)
Theorem SetFoldDisplayText_effect cs lineDoc text :
  wf cs -> 0 <= lineDoc < LinesInDoc cs ->
  exists changed cs',
    SetFoldDisplayText lineDoc text cs = Returns (changed, cs')
    /\ OneToOne cs' = false
    /\ LinesInDoc cs' = LinesInDoc cs
    /\ LinesDisplayed cs' = LinesDisplayed cs
    /\ (forall l, 0 <= l -> DisplayFromDoc l cs' = DisplayFromDoc l cs)
    /\ forall l, 0 <= l < LinesInDoc cs ->
         GetVisible l cs' = GetVisible l cs
         /\ GetExpanded l cs' = GetExpanded l cs
         /\ GetHeight l cs' = GetHeight l cs
         /\ GetFoldDisplayText l cs'
            = if l =? lineDoc then Returns text
              else GetFoldDisplayText l (EnsureData cs).
Proof.
  intros [ls Hm] Hl. rewrite (models_LinesInDoc cs ls Hm) in *.
  destruct (lookup_lt_is_Some_2 ls (Z.to_nat lineDoc)) as [x Hx]; [lia|].
  assert (E := SetFoldDisplayText_projected cs ls lineDoc text x Hm
                 (proj1 Hl) Hx).
  destruct (SetFoldDisplayText_inside cs ls lineDoc text x Hm (proj1 Hl) Hx)
    as (cs' & E' & Hm').
  rewrite E in E'. injection E' as <-.
  set (cs' := mkState _ _) in *.
  destruct (one_line_changed cs ls cs' lineDoc x _ Hm Hm' (proj1 Hl) Hx)
    as (_ & HD & HF & HG).
  change (line_span (with_text text x)) with (line_span x) in *.
  rewrite Z.sub_diag in *.
  exists (text_differs (line_text x) text), cs'.
  split; [exact E|]. split; [reflexivity|].
  split; [by rewrite (models_LinesInDoc _ _ Hm'), length_insert|].
  split; [lia|]. split.
  - intros l H0l. rewrite (HF l H0l). destruct (lineDoc <? l); lia.
  - intros l Hl'.
    destruct (lookup_lt_is_Some_2 ls (Z.to_nat l)) as [z Hz]; [lia|].
    destruct (HG l z (proj1 Hl') Hz) as (-> & -> & ->).
    rewrite (models_GetVisible cs ls Hm l z (proj1 Hl') Hz),
      (models_GetHeight cs ls Hm l z Hz), (models_GetExpanded cs ls Hm l z Hz).
    rewrite (EnsureData_models cs ls Hm).
    assert (Hz' : <[Z.to_nat lineDoc := with_text text x]> ls !! Z.to_nat l
                  = Some (if l =? lineDoc then with_text text x else z)).
    { case_if.
      - subst l. apply list_lookup_insert_eq. lia.
      - rewrite list_lookup_insert_ne by lia. done. }
    unfold cs'.
    rewrite (GetFoldDisplayText_repr _ _ l _ (proj1 Hl') Hz').
    rewrite (GetFoldDisplayText_repr _ _ l _ (proj1 Hl') Hz).
    destruct (Z.eqb_spec l lineDoc) as [->|Hne]; [|done].
    rewrite Hx in Hz. by injection Hz as <-.
Qed.

Lemma SetFoldDisplayText_effect_witness :
  exists changed cs',
    SetFoldDisplayText 3 (Some "..."%string) scenario_lines
    = Returns (changed, cs')
    /\ OneToOne cs' = false
    /\ LinesInDoc cs' = LinesInDoc scenario_lines
    /\ LinesDisplayed cs' = LinesDisplayed scenario_lines
    /\ (forall l, 0 <= l ->
          DisplayFromDoc l cs' = DisplayFromDoc l scenario_lines)
    /\ forall l, 0 <= l < LinesInDoc scenario_lines ->
         GetVisible l cs' = GetVisible l scenario_lines
         /\ GetExpanded l cs' = GetExpanded l scenario_lines
         /\ GetHeight l cs' = GetHeight l scenario_lines
         /\ GetFoldDisplayText l cs'
            = if l =? 3 then Returns (Some "..."%string)
              else GetFoldDisplayText l (EnsureData scenario_lines).
Proof.
  apply SetFoldDisplayText_effect.
  - exists (replicate (Z.to_nat 5) default_line). by constructor.
  - change (LinesInDoc scenario_lines) with 5. lia.
Defined.

(** X15.  Contracting or expanding a line and labelling a line are independent:
    in either order the two calls return the same two results and leave
    the same state, whether or not they address the same line. *)
Theorem SetExpanded_SetFoldDisplayText_commute
    cs lineDoc isExpanded lineText text :
  wf cs -> 0 <= lineDoc < LinesInDoc cs -> 0 <= lineText < LinesInDoc cs ->
  exists changedFlag changedText cs1 cs2 cs',
    SetExpanded lineDoc isExpanded cs = Returns (changedFlag, cs1)
    /\ SetFoldDisplayText lineText text cs1 = Returns (changedText, cs')
    /\ SetFoldDisplayText lineText text cs = Returns (changedText, cs2)
    /\ SetExpanded lineDoc isExpanded cs2 = Returns (changedFlag, cs').
Proof.
  intros [ls Hm] Hl Ht. rewrite (models_LinesInDoc cs ls Hm) in *.
  destruct (lookup_lt_is_Some_2 ls (Z.to_nat lineDoc)) as [x Hx]; [lia|].
  destruct (lookup_lt_is_Some_2 ls (Z.to_nat lineText)) as [y Hy]; [lia|].
  set (ls2 := <[Z.to_nat lineText := with_text text y]> ls).
  set (cs2 := mkState (Some (repr ls2)) (linesInDocument cs)).
  assert (E2 : SetFoldDisplayText lineText text cs
               = Returns (text_differs (line_text y) text, cs2))
    by apply (SetFoldDisplayText_projected cs ls lineText text y Hm (proj1 Ht) Hy).
  assert (Hm2 : models cs2 ls2).
  { destruct (SetFoldDisplayText_inside cs ls lineText text y Hm (proj1 Ht) Hy)
      as (c & Ec & Hc).
    rewrite E2 in Ec. by injection Ec as <-. }
  set (x2 := if lineDoc =? lineText then with_text text y else x).
  assert (Hx2 : ls2 !! Z.to_nat lineDoc = Some x2).
  { unfold ls2, x2. destruct (Z.eqb_spec lineDoc lineText) as [->|Hne].
    - apply list_lookup_insert_eq. lia.
    - rewrite list_lookup_insert_ne by lia. done. }
  assert (Ex2 : line_expanded x2 = line_expanded x).
  { unfold x2. destruct (Z.eqb_spec lineDoc lineText) as [->|Hne]; [|done].
    rewrite Hx in Hy. by injection Hy as <-. }
  assert (E3 := SetExpanded_projected cs2 ls2 lineDoc isExpanded x2 Hm2
                  (proj1 Hl) Hx2 eq_refl).
  rewrite Ex2 in E3. cbn [linesInDocument cs2] in E3.
  exists (negb (eqb isExpanded (line_expanded x =? 1))),
    (text_differs (line_text y) text).
  destruct (OneToOne cs && isExpanded) eqn:E.
  - exists cs, cs2, cs2. split.
    { unfold SetExpanded. rewrite E.
      apply andb_true_iff in E as [E ->].
      by rewrite (models_lookup_one_to_one cs ls Hm lineDoc x E Hx). }
    split; [exact E2|]. split; [exact E2|].
    rewrite E3. unfold cs2. do 5 f_equal. apply list_insert_id.
    rewrite Hx2. f_equal.
    apply andb_true_iff in E as [E ->].
    assert (Hd := models_lookup_one_to_one cs ls Hm lineDoc x E Hx).
    assert (Hd' := models_lookup_one_to_one cs ls Hm lineText y E Hy).
    subst x y. unfold x2. by destruct (lineDoc =? lineText).
  - set (ls1 := <[Z.to_nat lineDoc := with_expanded isExpanded x]> ls).
    set (cs1 := mkState (Some (repr ls1)) (linesInDocument cs)).
    assert (E1 : SetExpanded lineDoc isExpanded cs
                 = Returns (negb (eqb isExpanded (line_expanded x =? 1)), cs1))
      by apply (SetExpanded_projected cs ls lineDoc isExpanded x Hm
                  (proj1 Hl) Hx E).
    assert (Hm1 : models cs1 ls1).
    { destruct (SetExpanded_inside cs ls lineDoc isExpanded x Hm (proj1 Hl) Hx)
        as (c & Ec & Hc).
      rewrite E1 in Ec. by injection Ec as <-. }
    set (y1 := if lineText =? lineDoc then with_expanded isExpanded x else y).
    assert (Hy1 : ls1 !! Z.to_nat lineText = Some y1).
    { unfold ls1, y1. destruct (Z.eqb_spec lineText lineDoc) as [->|Hne].
      - apply list_lookup_insert_eq. lia.
      - rewrite list_lookup_insert_ne by lia. done. }
    assert (Ey1 : line_text y1 = line_text y).
    { unfold y1. destruct (Z.eqb_spec lineText lineDoc) as [->|Hne]; [|done].
      rewrite Hx in Hy. by injection Hy as <-. }
    assert (E4 := SetFoldDisplayText_projected cs1 ls1 lineText text y1 Hm1
                    (proj1 Ht) Hy1).
    rewrite Ey1 in E4. cbn [linesInDocument cs1] in E4.
    exists cs1, cs2. eexists. split; [exact E1|]. split; [exact E4|].
    split; [exact E2|]. rewrite E3. do 5 f_equal.
    unfold ls1, ls2, x2, y1.
    destruct (Z.eqb_spec lineDoc lineText) as [->|Hne].
    + rewrite Z.eqb_refl, !list_insert_insert_eq.
      rewrite Hx in Hy. by injection Hy as <-.
    + destruct (Z.eqb_spec lineText lineDoc) as [->|_]; [done|].
      apply list_insert_insert_ne. lia.
Qed.

Lemma SetExpanded_SetFoldDisplayText_commute_witness :
  exists changedFlag changedText cs1 cs2 cs',
    SetExpanded 3 false scenario_lines = Returns (changedFlag, cs1)
    /\ SetFoldDisplayText 3 (Some "..."%string) cs1
       = Returns (changedText, cs')
    /\ SetFoldDisplayText 3 (Some "..."%string) scenario_lines
       = Returns (changedText, cs2)
    /\ SetExpanded 3 false cs2 = Returns (changedFlag, cs').
Proof.
  apply SetExpanded_SetFoldDisplayText_commute.
  - exists (replicate (Z.to_nat 5) default_line). by constructor.
  - change (LinesInDoc scenario_lines) with 5. lia.
  - change (LinesInDoc scenario_lines) with 5. lia.
Defined.
